(** * servmon: the MariaDB / PHP-FPM curses monitor

    A shallow embedding of [mariadb_monitor_rich.py] (class
    [MariaDBCursesMonitor]) and the properties of its sampling and rendering
    loop.

    Conventions of the embedding.
    - Python [int] is [Z]; Python [float] is IEEE binary64, modelled by the
      standard library's [spec_float] at precision 53 and maximal exponent
      1024, with round-to-nearest-even arithmetic.
    - An exception is a value of [exn]; a computation that can raise returns
      a [result].
    - The screen is the chronological list of the writes it accepted; whether
      the terminal accepts a write is a parameter of the drawing code.
    - The object's mutable fields are a record passed in and out.
    - The outside world of one poll (database, process count, clock) is a
      record of what each call returned.
    - The calls of curses around the loop, which draw nothing (the set-up
      and the clean-up of [curses.wrapper], [init_colors], [curs_set]), are
      parameters that say whether the call returned or what it raised. *)

From Stdlib Require Import ZArith Lia Ascii String SpecFloat.
From stdpp Require Import base option list strings gmap.

Open Scope Z_scope.

(** ** Exceptions and results *)

Inductive exn : Type :=
| AttributeError (name : string)
| KeyError (key : string)
| TypeError
| ValueError
| OverflowError
| ZeroDivisionError
| CursesError
| KeyboardInterrupt.

Inductive result (A : Type) : Type :=
| Ok (a : A)
| Raise (e : exn).

Arguments Ok {A} a.
Arguments Raise {A} e.

Definition is_ok {A} (r : result A) : bool :=
  match r with Ok _ => true | Raise _ => false end.

Definition rbind {A B} (r : result A) (k : A -> result B) : result B :=
  match r with Ok a => k a | Raise e => Raise e end.

(** ** Python floats *)

Module PyFloat.

Definition prec : Z := 53.
Definition emax : Z := 1024.

Definition float : Type := spec_float.

(** [float(z)]: exact below [2^53] in magnitude, which covers every integer
    literal of the program. *)
Definition of_int (z : Z) : float := binary_normalize prec emax z 0 false.

(** An integer as an exact, unnormalised operand of a division. *)
Definition operand (z : Z) : float :=
  match z with
  | Z0 => S754_zero false
  | Zpos p => S754_finite false p 0
  | Zneg p => S754_finite true p 0
  end.

(** [a / b] on two [int]s: the correctly rounded quotient;
    [ZeroDivisionError] on a zero divisor, [OverflowError] when the quotient
    does not fit a float. *)
Definition truediv (a b : Z) : result float :=
  if b =? 0 then Raise ZeroDivisionError
  else
    match SFdiv prec emax (operand a) (operand b) with
    | S754_infinity _ => Raise OverflowError
    | q => Ok q
    end.

Definition mul (x y : float) : float := SFmul prec emax x y.

Definition ltb (x y : float) : bool := SFltb x y.
Definition leb (x y : float) : bool := SFleb x y.

(** [int(x)]: truncation toward zero; infinities and NaN raise. *)
Definition to_int (x : float) : result Z :=
  match x with
  | S754_zero _ => Ok 0
  | S754_finite s m e => Ok (cond_Zopp s (Z.shiftl (Zpos m) e))
  | S754_infinity _ => Raise OverflowError
  | S754_nan => Raise ValueError
  end.

End PyFloat.

(** A Python number as the program has them: the [else 0] branches yield an
    [int], the divisions a [float]. *)
Inductive number : Type :=
| Int (z : Z)
| Float (f : PyFloat.float).

(** [x < k] and [k <= x] for an integer literal [k]; Python compares an
    [int] with a [float] exactly, and every literal here converts exactly. *)
Definition num_ltb (x : number) (k : Z) : bool :=
  match x with
  | Int z => z <? k
  | Float f => PyFloat.ltb f (PyFloat.of_int k)
  end.

Definition num_geb (x : number) (k : Z) : bool :=
  match x with
  | Int z => k <=? z
  | Float f => PyFloat.leb (PyFloat.of_int k) f
  end.

(** ** Colours and phases *)

Inductive color : Type := green | yellow | red | cyan | magenta | white | blue.

Inductive style : Type := A_NORMAL | A_BOLD | A_DIM.

Definition attr : Type := (color * style)%type.

Record phase : Type := {
  phase_color : color;
  status : string;
  status_en : string
}.

(** The [if]/[elif] chain of [draw_progress_bar]. *)
Definition progress_phase (percentage : number) : phase :=
  if num_ltb percentage 30 then
    {| phase_color := green; status := "🟢 ปลอดภัย"; status_en := "SAFE" |}
  else if num_ltb percentage 50 then
    {| phase_color := green; status := "🟢 ดี"; status_en := "GOOD" |}
  else if num_ltb percentage 70 then
    {| phase_color := yellow; status := "🟡 ปานกลาง"; status_en := "MODERATE" |}
  else if num_ltb percentage 85 then
    {| phase_color := yellow; status := "🟠 สูง"; status_en := "HIGH" |}
  else if num_ltb percentage 95 then
    {| phase_color := red; status := "🔴 วิกฤต"; status_en := "CRITICAL" |}
  else
    {| phase_color := red; status := "🚨 อันตราย!"; status_en := "DANGER" |}.

(** [(a / b) * 100] on two [int]s. *)
Definition percent (a b : Z) : result number :=
  rbind (PyFloat.truediv a b)
        (fun q => Ok (Float (PyFloat.mul q (PyFloat.of_int 100)))).

(** [percentage] as [draw_progress_bar] computes it. *)
Definition bar_percentage (current maximum : Z) : result number :=
  if maximum =? 0 then Ok (Int 0) else percent current maximum.

(** [filled_width] as [draw_progress_bar] computes it. *)
Definition filled_width (width current maximum : Z) : result Z :=
  if maximum >? 0 then
    rbind (PyFloat.truediv (width * current) maximum) PyFloat.to_int
  else Ok 0.

(** [usage_percentage] as [get_stats] computes it. *)
Definition usage_percentage (current_connections max_connections : Z)
  : result number :=
  if max_connections >? 0 then percent current_connections max_connections
  else Ok (Int 0).

(** ** Python strings

    A [str] is stored as its UTF-8 bytes; [len] and slicing count code
    points, that is, the bytes that are not continuation bytes. *)

Definition is_continuation (c : ascii) : bool :=
  let n := N_of_ascii c in ((128 <=? n) && (n <? 192))%N.

Fixpoint py_len (s : string) : Z :=
  match s with
  | EmptyString => 0
  | String c rest => (if is_continuation c then 0 else 1) + py_len rest
  end.

(** [s[:n]] *)
Fixpoint py_take (n : nat) (s : string) : string :=
  match s with
  | EmptyString => EmptyString
  | String c rest =>
      if is_continuation c then String c (py_take n rest)
      else match n with
           | O => EmptyString
           | S n' => String c (py_take n' rest)
           end
  end.

Fixpoint spaces (n : nat) : string :=
  match n with O => EmptyString | S n' => String " " (spaces n') end.

(** [s.ljust(w)] *)
Definition ljust (w : Z) (s : string) : string :=
  s +:+ spaces (Z.to_nat (w - py_len s)).

(** [s or 'N/A'] on a nullable string. *)
Definition or_na (s : option string) : string :=
  match s with
  | None => "N/A"
  | Some EmptyString => "N/A"
  | Some t => t
  end.

(** ** Rows, statistics and history *)

(** A clock reading ([datetime.now()]). *)
Definition time : Type := Z.

(** A row of [INFORMATION_SCHEMA.PROCESSLIST] as the first query selects it. *)
Record process : Type := {
  p_User : option string;
  p_Host : option string;
  p_db : option string;
  p_Command : option string;
  p_Time : Z;
  p_State : option string
}.

(** A row of the per-user count query. *)
Record user_connection : Type := {
  u_User : option string;
  u_count : Z
}.

(** The values the [stats] dictionary holds. *)
Inductive value : Type :=
| VNum (n : number)
| VProcesses (l : list process)
| VUsers (l : list user_connection)
| VTime (t : time).

(** [stats[key]] *)
Definition item (stats : gmap string value) (key : string) : result value :=
  match stats !! key with
  | Some v => Ok v
  | None => Raise (KeyError key)
  end.

(** The model is typed at what [get_stats] stores: a counter is an [int], a
    ratio a number; anything else under such a key is a [TypeError]. *)
Definition as_int (v : value) : result Z :=
  match v with VNum (Int z) => Ok z | _ => Raise TypeError end.

Definition as_number (v : value) : result number :=
  match v with VNum n => Ok n | _ => Raise TypeError end.

Definition as_processes (v : option value) : result (option (list process)) :=
  match v with
  | None => Ok None
  | Some (VProcesses l) => Ok (Some l)
  | Some _ => Raise TypeError
  end.

Definition as_users (v : option value) : result (option (list user_connection)) :=
  match v with
  | None => Ok None
  | Some (VUsers l) => Ok (Some l)
  | Some _ => Raise TypeError
  end.

(** An element of [connection_history]. *)
Record history_entry : Type := {
  timestamp : time;
  connections : Z;
  usage : number
}.

(** The fields of [MariaDBCursesMonitor] that change or are read after
    [init_colors]. *)
Record monitor : Type := {
  connection_history : list history_entry;
  max_connections : Z;
  max_php_fpm_connections : Z;
  is_running : bool
}.

(** [MariaDBCursesMonitor.__init__] *)
Definition init : monitor := {|
  connection_history := [];
  max_connections := 0;
  max_php_fpm_connections := 150;
  is_running := true
|}.

(** [deque(maxlen=30)] *)
Definition maxlen : nat := 30.

(** [deque.append]: the new element goes to the right end, and a deque that
    has grown beyond [maxlen] drops its leftmost element. *)
Definition deque_append {A} (d : list A) (x : A) : list A :=
  let d' := d ++ [x] in
  if (maxlen <? length d')%nat then drop 1 d' else d'.

(** [list(d)[-n:]] *)
Definition last_n {A} (n : nat) (l : list A) : list A :=
  drop (length l - n) l.

(** ** The screen *)

(** A formatted string is kept as its pieces: the literal parts and the
    replacement fields with their format. *)
Inductive piece : Type :=
| Str (s : string)
| Rep (s : string) (n : Z)            (* s * n *)
| Plain (z : Z)                       (* {z} *)
| Comma (z : Z)                       (* {z:,} *)
| Width3 (z : Z)                      (* {z:3d} *)
| Fixed (w p : nat) (x : number)      (* {x:w.pf} *)
| Clock (t : time)                    (* strftime("%H:%M:%S") *)
| Stamp (t : time).                   (* strftime("%Y-%m-%d %H:%M:%S") *)

Definition text : Type := list piece.

(** A call on [stdscr] that changes the screen. *)
Inductive draw_op : Type :=
| Clear
| Refresh
| AddStr (y x : Z) (t : text) (a : attr)
| AddCh (y x : Z) (ch : string) (a : attr).

Definition screen : Type := list draw_op.

(** A drawing computation: it extends the screen and returns or raises. *)
Definition draw (A : Type) : Type := screen -> result A * screen.

Definition ret {A} (a : A) : draw A := fun s => (Ok a, s).

Definition bind {A B} (m : draw A) (k : A -> draw B) : draw B :=
  fun s =>
    match m s with
    | (Ok a, s') => k a s'
    | (Raise e, s') => (Raise e, s')
    end.

Definition lift {A} (r : result A) : draw A := fun s => (r, s).

Notation "x <- m ;; k" := (bind m (fun x => k))
  (at level 100, m at next level, right associativity).
Notation "m ;; k" := (bind m (fun _ => k))
  (at level 100, right associativity).

(** [try: m except curses.error: pass] *)
Definition except_curses (m : draw unit) : draw unit :=
  fun s =>
    match m s with
    | (Raise CursesError, s') => (Ok tt, s')
    | r => r
    end.

(** [for a in l: body(a)] *)
Fixpoint for_each {A} (l : list A) (body : A -> draw unit) : draw unit :=
  match l with
  | [] => ret tt
  | a :: l' => body a ;; for_each l' body
  end.

(** [for a in l: y = body(y, a)] for a loop that carries a row number. *)
Fixpoint for_rows {A} (l : list A) (y : Z) (body : Z -> A -> draw Z) : draw Z :=
  match l with
  | [] => ret y
  | a :: l' => y' <- body y a ;; for_rows l' y' body
  end.

(** [range(n)] *)
Definition range (n : Z) : list Z := seqZ 0 n.

Section Surface.

(** The terminal's own rule for what it can show where: a write it refuses
    is a [curses.error] and leaves the screen as it was. *)
Variable accepts : draw_op -> bool.

Definition write (op : draw_op) : draw unit :=
  fun s => if accepts op then (Ok tt, s ++ [op]) else (Raise CursesError, s).

Definition addstr (y x : Z) (t : text) (a : attr) : draw unit :=
  write (AddStr y x t a).

Definition addch (y x : Z) (ch : string) (a : attr) : draw unit :=
  write (AddCh y x ch a).

Definition clear : draw unit := fun s => (Ok tt, s ++ [Clear]).
Definition refresh : draw unit := fun s => (Ok tt, s ++ [Refresh]).

(** [draw_progress_bar(stdscr, y, x, width, current, maximum, label)] *)
Definition draw_progress_bar (y x width current maximum : Z) (label : string)
  : draw Z :=
  percentage <- lift (bar_percentage current maximum) ;;
  let ph := progress_phase percentage in
  let color := phase_color ph in
  addstr y x [Str label; Str ":"] (cyan, A_NORMAL) ;;
  addstr y (x + 25) [Str "["; Str (status_en ph); Str "]"] (color, A_BOLD) ;;
  filled_width <- lift (filled_width width current maximum) ;;
  let bar_y := y + 1 in
  addch bar_y x "[" (white, A_NORMAL) ;;
  for_each (range width) (fun i =>
    if i <? filled_width
    then addch bar_y (x + 1 + i) "█" (color, A_BOLD)
    else addch bar_y (x + 1 + i) "░" (white, A_NORMAL)) ;;
  addch bar_y (x + width + 1) "]" (white, A_NORMAL) ;;
  addstr bar_y (x + width + 3)
         [Str " "; Fixed 5 1 percentage; Str "% ("; Comma current; Str "/";
          Comma maximum; Str ")"] (color, A_NORMAL) ;;
  except_curses (addstr (bar_y + 1) (x + 2) [Str (status ph)] (color, A_BOLD)) ;;
  ret (bar_y + 3).

(** The gauge call for the running threads names a method the class does
    not define: looking it up raises before any argument is evaluated. *)
Definition draw_program_bar : draw Z :=
  lift (Raise (AttributeError "draw_program_bar")).

Definition int_item (stats : gmap string value) (key : string) : draw Z :=
  lift (rbind (item stats key) as_int).

(** The colour and label of the current connections in
    [draw_stats_table]. *)
Definition current_phase (usage_pct : number) : color * string :=
  if num_ltb usage_pct 30 then (green, "🟢 ปลอดภัย")
  else if num_ltb usage_pct 50 then (green, "🟢 ดี")
  else if num_ltb usage_pct 70 then (yellow, "🟡 ปานกลาง")
  else if num_ltb usage_pct 85 then (yellow, "🟠 สูง")
  else if num_ltb usage_pct 95 then (red, "🔴 วิกฤต")
  else (red, "🚨 อันตราย").

(** [draw_stats_table(stdscr, start_y, start_x, stats)] *)
Definition draw_stats_table (start_y start_x : Z) (stats : gmap string value)
  : draw Z :=
  addstr start_y start_x [Str "📊 MariaDB Statistics"] (cyan, A_BOLD) ;;
  addstr (start_y + 1) start_x [Rep "─" 60] (white, A_NORMAL) ;;
  let y := start_y + 2 in
  match stats !! "current_connections" with
  | None =>
      addstr y start_x [Str "MariaDB data not available."] (yellow, A_NORMAL) ;;
      ret (y + 2)
  | Some _ =>
      usage_pct <- lift (rbind (item stats "usage_percentage") as_number) ;;
      let '(current_color, current_status) := current_phase usage_pct in
      addstr y start_x [Str "Current Connections: "] (white, A_NORMAL) ;;
      current <- int_item stats "current_connections" ;;
      addstr y (start_x + 20) [Comma current] (current_color, A_BOLD) ;;
      addstr y (start_x + 30) [Str " "; Str current_status]
             (current_color, A_NORMAL) ;;
      let y := y + 1 in
      addstr y start_x [Str "Max Connections:     "] (white, A_NORMAL) ;;
      maximum <- int_item stats "max_connections" ;;
      addstr y (start_x + 20) [Comma maximum] (blue, A_BOLD) ;;
      addstr y (start_x + 30) [Str " 📋 Config"] (blue, A_NORMAL) ;;
      let y := y + 1 in
      guard <- int_item stats "current_connections" ;;
      threads_ratio <-
        (if guard >? 0 then
           running <- int_item stats "threads_running" ;;
           current <- int_item stats "current_connections" ;;
           lift (percent running (Z.max current 1))
         else ret (Int 0)) ;;
      let '(running_color, running_status) :=
        if num_ltb threads_ratio 30 then (green, "🟢 เบา")
        else if num_ltb threads_ratio 60 then (yellow, "🟡 ปกติ")
        else (red, "🔴 หนัก") in
      addstr y start_x [Str "Running Threads:     "] (white, A_NORMAL) ;;
      running <- int_item stats "threads_running" ;;
      addstr y (start_x + 20) [Comma running] (running_color, A_BOLD) ;;
      addstr y (start_x + 30) [Str " "; Str running_status]
             (running_color, A_NORMAL) ;;
      let y := y + 1 in
      guard <- int_item stats "max_connections" ;;
      max_used_ratio <-
        (if guard >? 0 then
           used <- int_item stats "max_used_connections" ;;
           maximum <- int_item stats "max_connections" ;;
           lift (percent used maximum)
         else ret (Int 0)) ;;
      let '(max_used_color, max_used_status) :=
        if num_ltb max_used_ratio 50 then (green, "🟢 ต่ำ")
        else if num_ltb max_used_ratio 80 then (yellow, "🟡 ปกติ")
        else (red, "🔴 สูง") in
      addstr y start_x [Str "Max Used Ever:       "] (white, A_NORMAL) ;;
      used <- int_item stats "max_used_connections" ;;
      addstr y (start_x + 20) [Comma used] (max_used_color, A_BOLD) ;;
      addstr y (start_x + 30) [Str " "; Str max_used_status]
             (max_used_color, A_NORMAL) ;;
      let y := y + 1 in
      aborted <- int_item stats "aborted_connects" ;;
      let '(abort_color, abort_status) :=
        if aborted =? 0 then (green, "🟢 เยี่ยม")
        else if aborted <? 10 then (yellow, "🟡 ปกติ")
        else (red, "🔴 ผิดปกติ") in
      addstr y start_x [Str "Aborted Connects:    "] (white, A_NORMAL) ;;
      addstr y (start_x + 20) [Comma aborted] (abort_color, A_BOLD) ;;
      addstr y (start_x + 30) [Str " "; Str abort_status]
             (abort_color, A_NORMAL) ;;
      ret (y + 2)
  end.

(** The body of the loop of [draw_process_table]: one table row. *)
Definition process_row (start_x y : Z) (proc : process) : draw Z :=
  let time_color :=
    if p_Time proc <? 10 then green
    else if p_Time proc <? 60 then yellow else red in
  addstr y start_x [Str (ljust 12 (py_take 11 (or_na (p_User proc))))]
         (white, A_NORMAL) ;;
  addstr y (start_x + 12) [Str (ljust 18 (py_take 17 (or_na (p_Host proc))))]
         (green, A_NORMAL) ;;
  addstr y (start_x + 30) [Str (ljust 10 (py_take 9 (or_na (p_db proc))))]
         (blue, A_NORMAL) ;;
  addstr y (start_x + 40) [Str (ljust 10 (py_take 9 (or_na (p_Command proc))))]
         (yellow, A_NORMAL) ;;
  addstr y (start_x + 50) [Plain (p_Time proc); Str "s"] (time_color, A_NORMAL) ;;
  ret (y + 1).

(** [not processes] on [None] or a list. *)
Definition falsy {A} (l : option (list A)) : bool :=
  match l with
  | None => true
  | Some [] => true
  | Some (_ :: _) => false
  end.

(** [draw_process_table(stdscr, start_y, start_x, processes)] *)
Definition draw_process_table (start_y start_x : Z)
           (processes : option (list process)) : draw Z :=
  addstr start_y start_x [Str "🔄 Active Processes"] (cyan, A_BOLD) ;;
  addstr (start_y + 1) start_x [Rep "─" 60] (white, A_NORMAL) ;;
  let y := start_y + 2 in
  addstr y start_x [Str (ljust 12 "User")] (cyan, A_NORMAL) ;;
  addstr y (start_x + 12) [Str (ljust 18 "Host")] (cyan, A_NORMAL) ;;
  addstr y (start_x + 30) [Str (ljust 10 "DB")] (cyan, A_NORMAL) ;;
  addstr y (start_x + 40) [Str (ljust 10 "Cmd")] (cyan, A_NORMAL) ;;
  addstr y (start_x + 50) [Str "Time"] (cyan, A_NORMAL) ;;
  let y := y + 1 in
  y <- (if falsy processes then
          addstr y start_x [Str "No active processes or data unavailable"]
                 (white, A_NORMAL) ;;
          ret y
        else
          for_rows (take 6 (default [] processes)) y (process_row start_x)) ;;
  ret (y + 1).

(** The body of the loop of [draw_user_connections]. *)
Definition user_row (start_x y : Z) (user_conn : user_connection) : draw Z :=
  let count_color :=
    if u_count user_conn <? 10 then green
    else if u_count user_conn <? 50 then yellow else red in
  addstr y start_x [Str (or_na (u_User user_conn)); Str ":"] (white, A_NORMAL) ;;
  addstr y (start_x + 15) [Plain (u_count user_conn)] (count_color, A_NORMAL) ;;
  ret (y + 1).

(** [draw_user_connections(stdscr, start_y, start_x, user_connections)] *)
Definition draw_user_connections (start_y start_x : Z)
           (user_connections : option (list user_connection)) : draw Z :=
  addstr start_y start_x [Str "👥 Connections by User"] (cyan, A_BOLD) ;;
  addstr (start_y + 1) start_x [Rep "─" 30] (white, A_NORMAL) ;;
  let y := start_y + 2 in
  y <- (if falsy user_connections then
          addstr y start_x [Str "Data unavailable"] (white, A_NORMAL) ;;
          ret y
        else
          for_rows (default [] user_connections) y (user_row start_x)) ;;
  ret (y + 1).

(** [max(h['connections'] for h in recent_history) if recent_history else 0] *)
Definition max_val (recent_history : list history_entry) : Z :=
  match recent_history with
  | [] => 0
  | h :: rest => fold_left Z.max (map connections rest) (connections h)
  end.

(** [int((connections / max_scale) * 20)] *)
Definition bar_length (connections max_scale : Z) : result Z :=
  rbind (PyFloat.truediv connections max_scale)
        (fun q => PyFloat.to_int (PyFloat.mul q (PyFloat.of_int 20))).

(** The body of the loop of [draw_history_chart]: one chart row. *)
Definition history_row (start_x max_scale y : Z) (entry : history_entry)
  : draw Z :=
  bar_length <- lift (bar_length (connections entry) max_scale) ;;
  let bar_color :=
    if num_ltb (usage entry) 50 then green
    else if num_ltb (usage entry) 80 then yellow else red in
  addstr y start_x [Clock (timestamp entry); Str " "] (white, A_NORMAL) ;;
  for_each (range 20) (fun i =>
    if i <? bar_length
    then addch y (start_x + 9 + i) "█" (bar_color, A_NORMAL)
    else addch y (start_x + 9 + i) "░" (white, A_NORMAL)) ;;
  addstr y (start_x + 30)
         [Str " "; Width3 (connections entry); Str " (";
          Fixed 4 1 (usage entry); Str "%)"] (white, A_NORMAL) ;;
  ret (y + 1).

(** [draw_history_chart(stdscr, start_y, start_x)] *)
Definition draw_history_chart (self : monitor) (start_y start_x : Z) : draw Z :=
  addstr start_y start_x [Str "📈 Connection History"] (cyan, A_BOLD) ;;
  addstr (start_y + 1) start_x [Rep "─" 40] (white, A_NORMAL) ;;
  if (length (connection_history self) <? 2)%nat then
    addstr (start_y + 2) start_x [Str "Loading history..."] (white, A_NORMAL) ;;
    ret (start_y + 4)
  else
    let y := start_y + 2 in
    let recent_history := last_n 10 (connection_history self) in
    let max_scale := Z.max (max_val recent_history) 1 in
    y <- for_rows recent_history y (history_row start_x max_scale) ;;
    ret (y + 1).

Definition header : string := "🗄️ MariaDB & PHP-FPM Real-time Monitor".
Definition footer : string := "Press 'q' to quit | Updates every 5 seconds".

(** [len(current_time)]: the stamp has 19 characters. *)
Definition stamp_len : Z := 19.

(** [not stats] on [None] or a dictionary. *)
Definition no_stats (stats : option (gmap string value)) : bool :=
  match stats with
  | None => true
  | Some m => bool_decide (m = ∅)
  end.

(** [stats.get('php_fpm_connections', -1) != -1] *)
Definition has_php_fpm (stats : gmap string value) : bool :=
  match stats !! "php_fpm_connections" with
  | None => false
  | Some (VNum (Int z)) => negb (z =? -1)
  | Some (VNum (Float f)) => negb (SFeqb f (PyFloat.of_int (-1)))
  | Some _ => true
  end.

(** [draw_dashboard(stdscr, stats)]; [height] and [width] are what
    [getmaxyx] returns and [now] what [datetime.now()] returns. *)
Definition draw_dashboard (self : monitor) (height width : Z) (now : time)
           (stats : option (gmap string value)) : draw unit :=
  clear ;;
  if no_stats stats then
    addstr (height / 2) (width / 2 - 15) [Str "❌ Cannot fetch any data"]
           (red, A_BOLD) ;;
    addstr (height / 2 + 1) (width / 2 - 20)
           [Str "Check services and permissions"] (white, A_NORMAL) ;;
    refresh
  else
    let stats := default ∅ stats in
    addstr 0 ((width - py_len header) / 2) [Str header] (green, A_BOLD) ;;
    addstr 1 ((width - stamp_len) / 2) [Stamp now] (white, A_NORMAL) ;;
    addstr 2 0 [Rep "─" width] (white, A_NORMAL) ;;
    let y_pos := 4 in
    let bar_width := 40 in
    y_pos <-
      (match stats !! "current_connections" with
       | Some _ =>
           current <- int_item stats "current_connections" ;;
           maximum <- int_item stats "max_connections" ;;
           draw_progress_bar y_pos 5 bar_width current maximum
                             "MariaDB Connections"
       | None => ret y_pos
       end) ;;
    y_pos <-
      (match stats !! "threads_running" with
       | Some _ => draw_program_bar
       | None => ret y_pos
       end) ;;
    y_pos <-
      (if has_php_fpm stats then
         current <- int_item stats "php_fpm_connections" ;;
         draw_progress_bar y_pos 5 bar_width current
                           (max_php_fpm_connections self)
                           "PHP-FPM Connections"
       else ret y_pos) ;;
    let left_col := 2 in
    let right_col := width / 2 + 2 in
    let col_y_start := y_pos + 1 in
    y_pos_left <- draw_stats_table col_y_start left_col stats ;;
    users <- lift (as_users (stats !! "user_connections")) ;;
    draw_user_connections (y_pos_left + 1) left_col users ;;
    processes <- lift (as_processes (stats !! "active_processes")) ;;
    y_pos_right <- draw_process_table col_y_start right_col processes ;;
    draw_history_chart self (y_pos_right + 1) right_col ;;
    except_curses
      (addstr (height - 2) ((width - py_len footer) / 2) [Str footer]
              (white, A_DIM)) ;;
    refresh.

End Surface.

(** ** Sampling *)

(** What the five status queries and the two row queries returned. *)
Record db_rows : Type := {
  r_max_connections : Z;
  r_threads_connected : Z;
  r_threads_running : Z;
  r_max_used_connections : Z;
  r_aborted_connects : Z;
  r_active_processes : list process;
  r_user_connections : list user_connection
}.

(** How the database behaved during one [get_stats]:
    [get_db_connection] returned [None]; or a query raised
    [mysql.connector.Error], after [max_connections] had been read and
    stored ([Some]) or before ([None]); or every query answered. *)
Inductive db_result : Type :=
| ConnectFailed
| QueryFailed (stored : option Z)
| Fetched (rows : db_rows).

(** How the shell pipeline behaved: it failed or printed no number, or it
    printed a count. *)
Inductive php_result : Type :=
| CommandFailed
| Counted (n : Z).

(** The outside world of one pass of the main loop. *)
Record poll : Type := {
  db : db_result;
  php_fpm : php_result;
  stats_time : time;       (* datetime.now() for 'timestamp' *)
  history_time : time;     (* datetime.now() for the history entry *)
  sample_ms : Z;           (* how long sampling and drawing took *)
  height : Z;              (* getmaxyx() *)
  width : Z;
  now : time               (* datetime.now() in draw_dashboard *)
}.

(** [get_php_fpm_connections()] *)
Definition get_php_fpm_connections (world : poll) : Z :=
  match php_fpm world with
  | CommandFailed => -1
  | Counted n => n
  end.

Definition set_max_connections (self : monitor) (v : Z) : monitor :=
  {| connection_history := connection_history self;
     max_connections := v;
     max_php_fpm_connections := max_php_fpm_connections self;
     is_running := is_running self |}.

Definition set_connection_history (self : monitor) (h : list history_entry)
  : monitor :=
  {| connection_history := h;
     max_connections := max_connections self;
     max_php_fpm_connections := max_php_fpm_connections self;
     is_running := is_running self |}.

Definition set_is_running (self : monitor) (b : bool) : monitor :=
  {| connection_history := connection_history self;
     max_connections := max_connections self;
     max_php_fpm_connections := max_php_fpm_connections self;
     is_running := b |}.

(** The end of both paths of [get_stats]: the PHP-FPM count is stored unless
    it is the error value, and an empty dictionary is returned as [None]. *)
Definition with_php_fpm (world : poll) (stats : gmap string value)
  : option (gmap string value) :=
  let php_fpm_stats := get_php_fpm_connections world in
  let stats :=
    if php_fpm_stats =? -1 then stats
    else <["php_fpm_connections" := VNum (Int php_fpm_stats)]> stats in
  if bool_decide (stats = ∅) then None else Some stats.

(** The dictionary [db_stats] of [get_stats]. *)
Definition db_stats (self : monitor) (world : poll) (rows : db_rows)
           (usage_percentage : number) : gmap string value :=
  <["max_connections" := VNum (Int (max_connections self))]>
  (<["current_connections" := VNum (Int (r_threads_connected rows))]>
  (<["threads_running" := VNum (Int (r_threads_running rows))]>
  (<["max_used_connections" := VNum (Int (r_max_used_connections rows))]>
  (<["aborted_connects" := VNum (Int (r_aborted_connects rows))]>
  (<["active_processes" := VProcesses (r_active_processes rows)]>
  (<["user_connections" := VUsers (r_user_connections rows)]>
  (<["usage_percentage" := VNum usage_percentage]>
  (<["timestamp" := VTime (stats_time world)]> ∅)))))))).

(** [get_stats()]: the result, and the object afterwards. *)
Definition get_stats (self : monitor) (world : poll)
  : result (option (gmap string value)) * monitor :=
  let stats : gmap string value := ∅ in
  match db world with
  | ConnectFailed => (Ok (with_php_fpm world stats), self)
  | QueryFailed stored =>
      let self := from_option (set_max_connections self) self stored in
      (Ok (with_php_fpm world stats), self)
  | Fetched rows =>
      let self := set_max_connections self (r_max_connections rows) in
      let current_connections := r_threads_connected rows in
      match usage_percentage current_connections (max_connections self) with
      | Raise e => (Raise e, self)
      | Ok usage_percentage =>
          let stats := db_stats self world rows usage_percentage ∪ stats in
          let self :=
            set_connection_history self
              (deque_append (connection_history self)
                 {| timestamp := history_time world;
                    connections := current_connections;
                    usage := usage_percentage |}) in
          (Ok (with_php_fpm world stats), self)
      end
  end.

(** ** The event loop *)

(** A key typed at a moment of the run's clock, in milliseconds. *)
Record keypress : Type := {
  pressed_at : Z;
  key : Z
}.

(** The run: the object, the screen, the clock, and the keys typed and not
    yet read, oldest first. *)
Record run_state : Type := {
  self_of : monitor;
  stdscr : screen;
  clock : Z;
  pending : list keypress
}.

Definition set_self (st : run_state) (m : monitor) : run_state :=
  {| self_of := m; stdscr := stdscr st; clock := clock st;
     pending := pending st |}.

Definition set_stdscr (st : run_state) (s : screen) : run_state :=
  {| self_of := self_of st; stdscr := s; clock := clock st;
     pending := pending st |}.

(** [time.sleep(ms / 1000)] *)
Definition sleep (ms : Z) (st : run_state) : run_state :=
  {| self_of := self_of st; stdscr := stdscr st; clock := clock st + ms;
     pending := pending st |}.

(** [stdscr.getch()] under [stdscr.timeout(100)], which replaces the
    [nodelay(True)] set on the line before it: the oldest unread key, as
    soon as it is there; [-1] after 100 ms without one. *)
Definition getch (st : run_state) : Z * run_state :=
  match pending st with
  | k :: rest =>
      if pressed_at k <=? clock st + 100 then
        (key k,
         {| self_of := self_of st; stdscr := stdscr st;
            clock := Z.max (clock st) (pressed_at k); pending := rest |})
      else (-1, sleep 100 st)
  | [] => (-1, sleep 100 st)
  end.

(** [key == ord('q') or key == ord('Q')] *)
Definition is_quit (key : Z) : bool := (key =? 113) || (key =? 81).

(** The wait of [run_curses]: [for _ in range(n)] with the quit check, the
    assignment to [is_running] and the [sleep(0.1)]. *)
Fixpoint wait (n : nat) (st : run_state) : run_state :=
  match n with
  | O => st
  | S n' =>
      let '(key, st) := getch st in
      if is_quit key then set_self st (set_is_running (self_of st) false)
      else wait n' (sleep 100 st)
  end.

(** How one pass of the [while] body ends: at its end, by [break], or by an
    exception that leaves [run_curses]. *)
Inductive control : Type :=
| Next
| Break
| Escaped (e : exn).

Section Loop.

Variable accepts : draw_op -> bool.

(** [str(e)] *)
Variable str : exn -> string.

(** The world of each pass, by its number. *)
Variable world : nat -> poll.

(** The two [except] clauses of [run_curses]. *)
Definition handler (e : exn) (w : poll) (st : run_state)
  : control * run_state :=
  match e with
  | KeyboardInterrupt => (Break, st)
  | _ =>
      let error_message := "Error: " +:+ str e in
      let '(r, s) :=
        (clear ;;
         addstr accepts (height w / 2)
                (Z.max 0 (width w / 2 - py_len error_message / 2))
                [Str error_message] (red, A_BOLD) ;;
         refresh) (stdscr st) in
      match r with
      | Raise e' => (Escaped e', set_stdscr st s)
      | Ok _ => (Next, sleep 2000 (set_stdscr st s))
      end
  end.

(** The body of [while self.is_running]. *)
Definition iteration (n : nat) (st : run_state) : control * run_state :=
  let '(key, st) := getch st in
  if is_quit key then (Break, st)
  else
    let w := world n in
    let '(r, self) := get_stats (self_of st) w in
    let st := sleep (sample_ms w) (set_self st self) in
    match r with
    | Raise e => handler e w st
    | Ok stats =>
        let '(r, s) :=
          draw_dashboard accepts self (height w) (width w) (now w) stats
                         (stdscr st) in
        let st := set_stdscr st s in
        match r with
        | Raise e => handler e w st
        | Ok _ => (Next, wait 50 st)
        end
    end.

(** [run_curses] from its [while]: [fuel] bounds the number of passes, and
    [None] says the loop was still running when it ran out. *)
Fixpoint run_loop (fuel n : nat) (st : run_state)
  : option (result unit * run_state) :=
  if is_running (self_of st) then
    match fuel with
    | O => None
    | S fuel' =>
        match iteration n st with
        | (Next, st') => run_loop fuel' (S n) st'
        | (Break, st') => Some (Ok tt, st')
        | (Escaped e, st') => Some (Raise e, st')
        end
    end
  else Some (Ok tt, st).

(** The calls of curses outside the loop. They draw nothing, and whether
    they return depends on the terminal alone:
    - [wrapper_enter]: what [curses.wrapper] does before it calls
      [run_curses] ([initscr], [noecho], [cbreak], [keypad], [start_color]);
    - [init_colors]: [self.init_colors()], that is [curses.start_color()]
      and the seven calls of [curses.init_pair];
    - [curs_set]: [curses.curs_set(0)];
    - [wrapper_leave]: the clean-up of [curses.wrapper] ([keypad], [echo],
      [nocbreak], [endwin]), which runs when [run_curses] has returned or
      raised.
    [stdscr.nodelay(True)] and [stdscr.timeout(100)] between them set the
    mode of [getch] that the model of [getch] has. *)
Variable wrapper_enter : result unit.
Variable init_colors : result unit.
Variable curs_set : result unit.
Variable wrapper_leave : result unit.

(** The run at the start of [run_curses], on a fresh monitor. *)
Definition start (keys : list keypress) : run_state :=
  {| self_of := init; stdscr := []; clock := 0; pending := keys |}.

(** [run_curses(stdscr)] on a fresh monitor: the set-up of lines 488-491 is
    outside the [try], so what it raises leaves [run_curses]. *)
Definition run_curses (fuel : nat) (keys : list keypress)
  : option (result unit * run_state) :=
  match init_colors with
  | Raise e => Some (Raise e, start keys)
  | Ok _ =>
      match curs_set with
      | Raise e => Some (Raise e, start keys)
      | Ok _ => run_loop fuel 0 (start keys)
      end
  end.

(** [curses.wrapper(self.run_curses)]: the clean-up runs in a [finally], and
    what it raises replaces the outcome of [run_curses]. *)
Definition wrapper (fuel : nat) (keys : list keypress)
  : option (result unit) :=
  match wrapper_enter with
  | Raise e => Some (Raise e)
  | Ok _ =>
      match run_curses fuel keys with
      | None => None
      | Some (r, _) =>
          match wrapper_leave with
          | Raise e => Some (Raise e)
          | Ok _ => Some r
          end
      end
  end.

(** [run()]: [curses.wrapper(self.run_curses)] inside a [try]. An
    [Exception] is printed and gives exit code 1; [KeyboardInterrupt] is not
    an [Exception] and passes through. *)
Definition run (fuel : nat) (keys : list keypress) : option (result Z) :=
  match wrapper fuel keys with
  | None => None
  | Some (Ok _) => Some (Ok 0)
  | Some (Raise KeyboardInterrupt) => Some (Raise KeyboardInterrupt)
  | Some (Raise _) => Some (Ok 1)
  end.

End Loop.

(** ** Vocabulary of the statements *)

Definition not_nan (f : PyFloat.float) : bool :=
  match f with S754_nan => false | _ => true end.

(** The literal [29.999]: the double nearest to 29999/1000. *)
Definition literal_29_999 : PyFloat.float :=
  S754_finite false 8443967826342969 (-48).

(** The object after a series of polls. *)
Definition polls (self : monitor) (worlds : list poll) : monitor :=
  fold_left (fun m w => snd (get_stats m w)) worlds self.

(** A history entry numbered [i]. *)
Definition entry_number (i : Z) : history_entry :=
  {| timestamp := i; connections := i; usage := Int 0 |}.

(** The database failed: no connection, or a query raised. *)
Definition db_failed (world : poll) : Prop :=
  match db world with
  | ConnectFailed | QueryFailed _ => True
  | Fetched _ => False
  end.

(** The two writes of the no-data screen. *)
Definition no_data_message (height width : Z) : draw_op :=
  AddStr (height / 2) (width / 2 - 15) [Str "❌ Cannot fetch any data"]
         (red, A_BOLD).

Definition no_data_hint (height width : Z) : draw_op :=
  AddStr (height / 2 + 1) (width / 2 - 20)
         [Str "Check services and permissions"] (white, A_NORMAL).

(** Sample worlds. *)
Definition sample_rows : db_rows :=
  {| r_max_connections := 150; r_threads_connected := 75;
     r_threads_running := 3; r_max_used_connections := 90;
     r_aborted_connects := 0; r_active_processes := [];
     r_user_connections := [] |}.

Definition sample_world (d : db_result) (p : php_result) : poll :=
  {| db := d; php_fpm := p; stats_time := 1; history_time := 2;
     sample_ms := 0; height := 40; width := 120; now := 3 |}.

Definition zero_rows : db_rows :=
  {| r_max_connections := 0; r_threads_connected := 75;
     r_threads_running := 3; r_max_used_connections := 90;
     r_aborted_connects := 0; r_active_processes := [];
     r_user_connections := [] |}.

(** The writes of a loop that draws one row per element, from row [y]. *)
Fixpoint rows_ops {A} (row : Z -> A -> list draw_op) (y : Z) (l : list A)
  : list draw_op :=
  match l with
  | [] => []
  | a :: l' => row y a ++ rows_ops row (y + 1) l'
  end.

(** The title, the rule and the column heads of the process table. *)
Definition process_heading_ops (start_y start_x : Z) : list draw_op :=
  [AddStr start_y start_x [Str "🔄 Active Processes"] (cyan, A_BOLD);
   AddStr (start_y + 1) start_x [Rep "─" 60] (white, A_NORMAL);
   AddStr (start_y + 2) start_x [Str (ljust 12 "User")] (cyan, A_NORMAL);
   AddStr (start_y + 2) (start_x + 12) [Str (ljust 18 "Host")] (cyan, A_NORMAL);
   AddStr (start_y + 2) (start_x + 30) [Str (ljust 10 "DB")] (cyan, A_NORMAL);
   AddStr (start_y + 2) (start_x + 40) [Str (ljust 10 "Cmd")] (cyan, A_NORMAL);
   AddStr (start_y + 2) (start_x + 50) [Str "Time"] (cyan, A_NORMAL)].

(** The five cells of the row of one process. *)
Definition process_row_ops (start_x y : Z) (proc : process) : list draw_op :=
  [AddStr y start_x [Str (ljust 12 (py_take 11 (or_na (p_User proc))))]
          (white, A_NORMAL);
   AddStr y (start_x + 12) [Str (ljust 18 (py_take 17 (or_na (p_Host proc))))]
          (green, A_NORMAL);
   AddStr y (start_x + 30) [Str (ljust 10 (py_take 9 (or_na (p_db proc))))]
          (blue, A_NORMAL);
   AddStr y (start_x + 40) [Str (ljust 10 (py_take 9 (or_na (p_Command proc))))]
          (yellow, A_NORMAL);
   AddStr y (start_x + 50) [Plain (p_Time proc); Str "s"]
          (if p_Time proc <? 10 then green
           else if p_Time proc <? 60 then yellow else red, A_NORMAL)].

(** The elapsed-time cell that ends the row of a process. *)
Definition is_time_cell (op : draw_op) : bool :=
  match op with
  | AddStr _ _ [Plain _; Str _] _ => true
  | _ => false
  end.

(** The rows of processes on a screen. *)
Definition process_rows (s : screen) : nat :=
  length (List.filter is_time_cell s).

(** Seven active processes, the longest running first. *)
Definition seven_processes : list process :=
  map (fun t => {| p_User := Some "mreport"; p_Host := Some "localhost";
                   p_db := Some "mreport"; p_Command := Some "Query";
                   p_Time := t; p_State := None |})
      [70; 60; 50; 40; 30; 20; 10].

(** The title and the rule of the history chart, and its placeholder. *)
Definition history_heading_ops (start_y start_x : Z) : list draw_op :=
  [AddStr start_y start_x [Str "📈 Connection History"] (cyan, A_BOLD);
   AddStr (start_y + 1) start_x [Rep "─" 40] (white, A_NORMAL)].

Definition loading_op (start_y start_x : Z) : draw_op :=
  AddStr (start_y + 2) start_x [Str "Loading history..."] (white, A_NORMAL).

(** Cell [i] of a bar of 20 cells of which the first [bar_length] are
    filled. *)
Definition chart_cell (start_x y bar_length : Z) (bar_color : color) (i : Z)
  : draw_op :=
  if i <? bar_length
  then AddCh y (start_x + 9 + i) "█" (bar_color, A_NORMAL)
  else AddCh y (start_x + 9 + i) "░" (white, A_NORMAL).

(** The row of one history entry: time of day, bar, count and usage. *)
Definition history_row_ops (start_x max_scale y : Z) (entry : history_entry)
  : list draw_op :=
  match bar_length (connections entry) max_scale with
  | Raise _ => []
  | Ok b =>
      [AddStr y start_x [Clock (timestamp entry); Str " "] (white, A_NORMAL)]
      ++ map (chart_cell start_x y b
                (if num_ltb (usage entry) 50 then green
                 else if num_ltb (usage entry) 80 then yellow else red))
             (range 20)
      ++ [AddStr y (start_x + 30)
                 [Str " "; Width3 (connections entry); Str " (";
                  Fixed 4 1 (usage entry); Str "%)"] (white, A_NORMAL)]
  end.

(** A cell of a bar. *)
Definition is_bar (op : draw_op) : bool :=
  match op with
  | AddCh _ _ _ _ => true
  | _ => false
  end.

(** A history of three polls. *)
Definition three_entries : list history_entry :=
  [{| timestamp := 1; connections := 10; usage := Float (PyFloat.of_int 10) |};
   {| timestamp := 2; connections := 50; usage := Float (PyFloat.of_int 50) |};
   {| timestamp := 3; connections := 25; usage := Float (PyFloat.of_int 25) |}].

Definition with_history (h : list history_entry) : monitor :=
  set_connection_history init h.

(** The dictionary [get_stats] returns, empty when it returns [None]. *)
Definition snapshot_of (self : monitor) (world : poll) : gmap string value :=
  match fst (get_stats self world) with
  | Ok (Some stats) => stats
  | _ => ∅
  end.

(** The run after the quit key was read during the wait. *)
Definition stopped (st : run_state) : run_state :=
  set_self st (set_is_running (self_of st) false).

(** A run that starts its wait at 1000 ms, with [q] typed at 2345 ms. *)
Definition waiting_run : run_state :=
  {| self_of := init; stdscr := []; clock := 1000;
     pending := [{| pressed_at := 2345; key := 113 |}] |}.

(** The history entry a poll leaves: one for a fetch whose usage percentage
    could be computed, none otherwise. *)
Definition sampled (world : poll) : option history_entry :=
  match db world with
  | Fetched rows =>
      match usage_percentage (r_threads_connected rows)
                             (r_max_connections rows) with
      | Ok u => Some {| timestamp := history_time world;
                        connections := r_threads_connected rows;
                        usage := u |}
      | Raise _ => None
      end
  | _ => None
  end.

(** A run whose first key is [q], typed at once. *)
Definition quit_at_once : list keypress := [{| pressed_at := 0; key := 113 |}].

(** A wait that starts at 1000 ms with the key [a] unread. *)
Definition typing_run : run_state :=
  {| self_of := init; stdscr := []; clock := 1000;
     pending := [{| pressed_at := 900; key := 97 |}] |}.

(** The filled and the empty cells of a gauge. *)
Definition is_filled_cell (op : draw_op) : bool :=
  match op with
  | AddCh _ _ ch _ => String.eqb ch "█"
  | _ => false
  end.

Definition is_empty_cell (op : draw_op) : bool :=
  match op with
  | AddCh _ _ ch _ => String.eqb ch "░"
  | _ => false
  end.

(** How many writes of a kind a list of writes holds. *)
Definition count (kind : draw_op -> bool) (ops : list draw_op) : nat :=
  length (List.filter kind ops).

(** The line under a gauge that carries the Thai label. *)
Definition status_op (y x : Z) (percentage : number) : draw_op :=
  AddStr (y + 1 + 1) (x + 2) [Str (status (progress_phase percentage))]
         (phase_color (progress_phase percentage), A_BOLD).

(** The title and the rule of the user table, and the row of one user. *)
Definition user_heading_ops (start_y start_x : Z) : list draw_op :=
  [AddStr start_y start_x [Str "👥 Connections by User"] (cyan, A_BOLD);
   AddStr (start_y + 1) start_x [Rep "─" 30] (white, A_NORMAL)].

Definition user_row_ops (start_x y : Z) (user_conn : user_connection)
  : list draw_op :=
  [AddStr y start_x [Str (or_na (u_User user_conn)); Str ":"] (white, A_NORMAL);
   AddStr y (start_x + 15) [Plain (u_count user_conn)]
          (if u_count user_conn <? 10 then green
           else if u_count user_conn <? 50 then yellow else red, A_NORMAL)].

(** Two users. *)
Definition two_users : list user_connection :=
  [{| u_User := Some "mreport"; u_count := 12 |};
   {| u_User := None; u_count := 3 |}].

(** The error screen of [run_curses] for a message. *)
Definition error_screen_ops (height width : Z) (error_message : string)
  : list draw_op :=
  [Clear;
   AddStr (height / 2) (Z.max 0 (width / 2 - py_len error_message / 2))
          [Str error_message] (red, A_BOLD);
   Refresh].

(** The bars of the history chart can be computed. *)
Definition chart_computable (self : monitor) : Prop :=
  Forall (fun e =>
            is_ok (bar_length (connections e)
                     (Z.max (max_val (last_n 10 (connection_history self))) 1))
            = true)
         (last_n 10 (connection_history self)).

(** A drawing computation runs from a screen: it returns a value and adds
    these writes. *)
Definition runs {A} (m : draw A) (s : screen) (a : A) (ops : list draw_op)
  : Prop :=
  m s = (Ok a, s ++ ops).

(** A drawing computation raises from a screen, after these writes. *)
Definition raises {A} (m : draw A) (s : screen) (e : exn)
           (ops : list draw_op) : Prop :=
  m s = (Raise e, s ++ ops).

(** A run about to start a pass, with no key typed. *)
Definition idle_run : run_state :=
  {| self_of := init; stdscr := []; clock := 0; pending := [] |}.

(** A world in which the database answers every pass. *)
Definition answering (n : nat) : poll :=
  sample_world (Fetched sample_rows) (Counted 4).

(** The counts of a fetch are in the range in which the first gauge and the
    usage percentage are computed exactly. *)
Definition counts_in_range (rows : db_rows) : Prop :=
  0 <= r_threads_connected rows /\
  40 * r_threads_connected rows < 2 ^ 53 /\
  0 <= r_max_connections rows < 2 ^ 53.

(** The error screen of the missing method. *)
Definition missing_method_screen (str : exn -> string) (w : poll)
  : list draw_op :=
  error_screen_ops (height w) (width w)
    ("Error: " +:+ str (AttributeError "draw_program_bar")).

(** The row of one history entry on a chart of scale [max_scale], in
    integers: of its 20 cells the first [20 * connections / max_scale] are
    filled. *)
Definition scaled_row_ops (start_x max_scale y : Z) (entry : history_entry)
  : list draw_op :=
  [AddStr y start_x [Clock (timestamp entry); Str " "] (white, A_NORMAL)]
  ++ map (chart_cell start_x y (20 * connections entry / max_scale)
            (if num_ltb (usage entry) 50 then green
             else if num_ltb (usage entry) 80 then yellow else red))
         (range 20)
  ++ [AddStr y (start_x + 30)
             [Str " "; Width3 (connections entry); Str " (";
              Fixed 4 1 (usage entry); Str "%)"] (white, A_NORMAL)].

(** Where the real number [A / B] lies from the integer [P]: on it, in the
    first half of the unit above it, at the middle, or in the second half.
    This is what a [location] of the rounding functions records. *)
Definition located (A B P : Z) (l : location) : Prop :=
  match l with
  | loc_Exact => A = P * B
  | loc_Inexact Lt => P * B < A /\ 2 * A < (2 * P + 1) * B
  | loc_Inexact Eq => 2 * A = (2 * P + 1) * B
  | loc_Inexact Gt => (2 * P + 1) * B < 2 * A /\ A < (P + 1) * B
  end.

Definition rec_located (A B : Z) (r : shr_record) : Prop :=
  0 <= shr_m r /\ located A B (shr_m r) (loc_of_shr_record r).

(** [R] is the integer nearest to [A / B], the even one of the two at a
    tie. *)
Definition nearest_even (A B R : Z) : Prop :=
  2 * Z.abs (R * B - A) <= B /\
  (2 * Z.abs (R * B - A) = B -> Z.even R = true).

(** The line of the error screen of a pass whose body raised [e]. *)
Definition error_line (str : exn -> string) (w : poll) (e : exn) : draw_op :=
  AddStr (height w / 2)
         (Z.max 0 (width w / 2 - py_len ("Error: " +:+ str e) / 2))
         [Str ("Error: " +:+ str e)] (red, A_BOLD).

(** * Properties *)

(** ** The order on floats *)

Lemma SFcompare_antisym (x y : spec_float) :
  SFcompare y x = option_map CompOpp (SFcompare x y).
Proof.
  destruct x as [sx|sx| |sx mx ex], y as [sy|sy| |sy my ey];
    try destruct sx; try destruct sy; try reflexivity.
  all: cbn [SFcompare option_map]; f_equal.
  all: change (Pos.compare_cont Eq) with Pos.compare.
  all: rewrite (Z.compare_antisym ex ey), (Pos.compare_antisym mx my).
  all: destruct (ex ?= ey); cbn; try reflexivity.
  all: destruct (mx ?= my)%positive; reflexivity.
Qed.

Lemma SFleb_negb_ltb (x y : spec_float) :
  not_nan x = true -> not_nan y = true -> SFleb y x = negb (SFltb x y).
Proof.
  intros Hx Hy. unfold SFleb, SFltb. rewrite (SFcompare_antisym x y).
  destruct x as [sx|sx| |sx mx ex], y as [sy|sy| |sy my ey];
    try discriminate; try destruct sx; try destruct sy; try reflexivity.
  all: cbn [SFcompare option_map].
  all: destruct (ex ?= ey); cbn; try reflexivity.
  all: destruct (Pos.compare_cont Eq mx my); reflexivity.
Qed.

Lemma SFltb_trans (x y z : spec_float) :
  SFltb x y = true -> SFltb y z = true -> SFltb x z = true.
Proof.
  unfold SFltb.
  destruct x as [sx|sx| |sx mx ex], y as [sy|sy| |sy my ey],
           z as [sz|sz| |sz mz ez];
    try destruct sx; try destruct sy; try destruct sz;
    cbn [SFcompare]; try discriminate; try reflexivity.
  all: change (Pos.compare_cont Eq) with Pos.compare.
  all: destruct (Z.compare_spec ex ey), (Z.compare_spec ey ez),
         (Z.compare_spec ex ez);
    try discriminate; try reflexivity; try lia.
  all: destruct (Pos.compare_spec mx my), (Pos.compare_spec my mz),
         (Pos.compare_spec mx mz);
    cbn; try discriminate; try reflexivity; try lia.
Qed.

Lemma SFleb_not_nan (x y : spec_float) : SFleb x y = true -> not_nan y = true.
Proof.
  unfold SFleb. destruct x as [?|?| |? ? ?], y as [?|?| |? ? ?];
    try reflexivity; cbn; discriminate.
Qed.

(** ** The order between a number and a literal *)

Lemma num_geb_negb_ltb (p : number) (k : Z) :
  num_geb p 0 = true ->
  not_nan (PyFloat.of_int k) = true ->
  num_geb p k = negb (num_ltb p k).
Proof.
  destruct p as [z|f]; cbn [num_geb num_ltb]; intros H0 Hk.
  - destruct (Z.leb_spec k z), (Z.ltb_spec z k); try reflexivity; lia.
  - apply SFleb_negb_ltb; [|exact Hk]. exact (SFleb_not_nan _ _ H0).
Qed.

Lemma num_ltb_mono (p : number) (a b : Z) :
  a < b ->
  PyFloat.ltb (PyFloat.of_int a) (PyFloat.of_int b) = true ->
  num_ltb p a = true -> num_ltb p b = true.
Proof.
  destruct p as [z|f]; cbn [num_ltb]; intros Hab Hf H.
  - apply Z.ltb_lt in H. apply Z.ltb_lt. lia.
  - exact (SFltb_trans _ _ _ H Hf).
Qed.

(** ** Division of integers in binary64

    The quotient of two integers below [2^53] is a finite float, and
    truncating it gives the integer quotient: rounding to nearest never
    reaches the next integer. *)

Lemma truediv_zero (m : Z) : m <> 0 -> PyFloat.truediv 0 m = Ok (S754_zero (m <? 0)).
Proof.
  intros Hm. unfold PyFloat.truediv.
  destruct (Z.eqb_spec m 0) as [|_]; [contradiction|].
  destruct m; [contradiction| |]; reflexivity.
Qed.

Lemma digits2_bounds (p : positive) :
  2 ^ (Zpos (digits2_pos p) - 1) <= Zpos p < 2 ^ Zpos (digits2_pos p).
Proof.
  induction p as [p IH|p IH|]; cbn [digits2_pos].
  - rewrite Pos2Z.inj_succ. replace (Z.succ (Zpos (digits2_pos p)) - 1) with (Zpos (digits2_pos p)) by lia.
    rewrite Z.pow_succ_r by lia.
    replace (2 ^ Zpos (digits2_pos p)) with (2 * 2 ^ (Zpos (digits2_pos p) - 1)) in *
      by (rewrite <- Z.pow_succ_r by lia; f_equal; lia).
    lia.
  - rewrite Pos2Z.inj_succ. replace (Z.succ (Zpos (digits2_pos p)) - 1) with (Zpos (digits2_pos p)) by lia.
    rewrite Z.pow_succ_r by lia.
    replace (2 ^ Zpos (digits2_pos p)) with (2 * 2 ^ (Zpos (digits2_pos p) - 1)) in *
      by (rewrite <- Z.pow_succ_r by lia; f_equal; lia).
    lia.
  - cbn. lia.
Qed.

Lemma digits2_unique (p : positive) (d : Z) :
  2 ^ (d - 1) <= Zpos p < 2 ^ d -> 0 < d -> Zpos (digits2_pos p) = d.
Proof.
  intros [H1 H2] Hd. pose proof (digits2_bounds p) as [B1 B2].
  assert (Zpos (digits2_pos p) - 1 < d).
  { apply (Z.pow_lt_mono_r_iff 2); lia. }
  assert (d - 1 < Zpos (digits2_pos p)).
  { apply (Z.pow_lt_mono_r_iff 2); lia. }
  lia.
Qed.

Lemma loc_of_record (m : Z) (l : location) :
  loc_of_shr_record (shr_record_of_loc m l) = l /\ shr_m (shr_record_of_loc m l) = m.
Proof. destruct l as [|[| |]]; split; reflexivity. Qed.

(** What a location says of the remainder [r] of a division by [m]. *)
Lemma new_location_half (m r : Z) :
  0 <= r < m ->
  match new_location m r with
  | loc_Exact => r = 0
  | loc_Inexact Lt => 0 < r /\ 2 * r < m
  | loc_Inexact Eq => 2 * r = m
  | loc_Inexact Gt => m < 2 * r
  end.
Proof.
  intros Hr. unfold new_location, new_location_even, new_location_odd.
  destruct (Z.even m) eqn:Ev.
  - destruct (Z.eqb_spec r 0); [assumption|].
    destruct (Z.compare_spec (2 * r) m); lia.
  - destruct (Z.eqb_spec r 0); [assumption|].
    assert (Z.odd m = true) by (rewrite <- Z.negb_even, Ev; reflexivity).
    apply Z.odd_spec in H as [k Hk].
    destruct (Z.compare_spec (2 * r + 1) m); lia.
Qed.

Lemma fexp_normal (d : Z) : -1021 <= d -> fexp 53 1024 d = d - 53.
Proof. intros H. unfold fexp, emin. lia. Qed.

Lemma round_nearest_even_cases (q : Z) (l : location) :
  round_nearest_even q l = q \/
  (round_nearest_even q l = q + 1 /\
   (l = loc_Inexact Eq \/ l = loc_Inexact Gt)).
Proof.
  destruct l as [|[| |]]; cbn; auto.
  destruct (Z.even q); auto.
Qed.

Lemma shr_fexp_53 (q : positive) (e : Z) (l : location) :
  Zpos (digits2_pos q) = 53 -> -1021 <= e ->
  shr_fexp 53 1024 (Zpos q) e l = (shr_record_of_loc (Zpos q) l, e).
Proof.
  intros Hd He. unfold shr_fexp. cbn [Zdigits2]. rewrite Hd.
  rewrite fexp_normal by lia. replace (53 + e - 53 - e) with 0 by lia.
  reflexivity.
Qed.

Lemma shr_fexp_54 (q : positive) (e : Z) (l : location) :
  Zpos (digits2_pos q) = 54 -> -1021 <= e ->
  shr_fexp 53 1024 (Zpos q) e l = (shr_1 (shr_record_of_loc (Zpos q) l), e + 1).
Proof.
  intros Hd He. unfold shr_fexp. cbn [Zdigits2]. rewrite Hd.
  rewrite fexp_normal by lia. replace (54 + e - 53 - e) with 1 by lia.
  reflexivity.
Qed.

(** Rounding a mantissa of 53 digits: it stays, goes up by one, or carries
    into the next binade. *)
Lemma binary_round_aux_53 (sx : bool) (q : positive) (e : Z) (l : location) :
  Zpos (digits2_pos q) = 53 -> -1021 <= e <= 900 ->
  exists (mf : positive) (ef : Z),
    binary_round_aux 53 1024 sx (Zpos q) e l = S754_finite sx mf ef /\
    ((Zpos mf = round_nearest_even (Zpos q) l /\ ef = e) \/
     (Zpos mf = 2 ^ 52 /\ ef = e + 1 /\
      round_nearest_even (Zpos q) l = 2 ^ 53)).
Proof.
  intros Hd He. unfold binary_round_aux.
  rewrite shr_fexp_53 by lia.
  destruct (loc_of_record (Zpos q) l) as [-> ->].
  pose proof (digits2_bounds q) as Hq. rewrite Hd in Hq.
  change (53 - 1) with 52 in Hq.
  destruct (round_nearest_even_cases (Zpos q) l) as [->|[-> _]].
  - rewrite shr_fexp_53 by lia. cbn [shr_m shr_record_of_loc].
    destruct (Z.leb_spec e (1024 - 53)); [|lia].
    exists q, e. split; [reflexivity|]. left. split; [reflexivity|reflexivity].
  - destruct (Z.eq_dec (Zpos q + 1) (2 ^ 53)) as [E|NE].
    + rewrite E. change (2 ^ 53) with (Zpos (xO (Z.to_pos (2 ^ 52)))).
      rewrite shr_fexp_54 by (try reflexivity; lia).
      cbn [shr_record_of_loc shr_1 shr_m orb].
      destruct (Z.leb_spec (e + 1) (1024 - 53)); [|lia].
      eexists _, _. split; [reflexivity|]. right. split; [reflexivity|].
      split; reflexivity.
    + replace (Zpos q + 1) with (Zpos (q + 1)) by lia.
      rewrite shr_fexp_53; [| |lia].
      * cbn [shr_m shr_record_of_loc].
        destruct (Z.leb_spec e (1024 - 53)); [|lia].
        eexists _, _. split; [reflexivity|]. left. split; [lia|reflexivity].
      * apply digits2_unique; [|lia]. change (53 - 1) with 52. lia.
Qed.

Lemma binary_round_aux_54 (sx : bool) (q : positive) (e : Z) (l : location) :
  Zpos (digits2_pos q) = 54 -> -1021 <= e ->
  exists (q1 : positive) (l1 : location),
    Zpos q1 = Zpos q / 2 /\
    Zpos (digits2_pos q1) = 53 /\
    binary_round_aux 53 1024 sx (Zpos q) e l =
      binary_round_aux 53 1024 sx (Zpos q1) (e + 1) l1 /\
    (l1 = loc_Inexact Eq \/ l1 = loc_Inexact Gt -> Zpos q = 2 * Zpos q1 + 1).
Proof.
  intros Hd He.
  destruct q as [p|p|]; cbn [digits2_pos] in Hd; [| |discriminate].
  - assert (Hp : Zpos (digits2_pos p) = 53) by lia.
    exists p, (if match l with loc_Exact => false | _ => true end
               then loc_Inexact Gt else loc_Inexact Eq).
    split; [rewrite Pos2Z.inj_xI; apply Z.div_unique with 1; lia|].
    split; [exact Hp|]. split; [|intros _; lia].
    unfold binary_round_aux. rewrite shr_fexp_54 by (cbn [digits2_pos]; lia).
    rewrite shr_fexp_53 by lia.
    destruct l as [|[| |]]; reflexivity.
  - assert (Hp : Zpos (digits2_pos p) = 53) by lia.
    exists p, (if match l with loc_Exact => false | _ => true end
               then loc_Inexact Lt else loc_Exact).
    split; [rewrite Pos2Z.inj_xO; apply Z.div_unique with 0; lia|].
    split; [exact Hp|]. split.
    + unfold binary_round_aux. rewrite shr_fexp_54 by (cbn [digits2_pos]; lia).
      rewrite shr_fexp_53 by lia.
      destruct l as [|[| |]]; reflexivity.
    + destruct l as [|[| |]]; intros [H|H]; discriminate.
Qed.

Lemma round_up_keeps_floor (a m q1 t : Z) :
  0 < a < 2 ^ 53 -> 0 < m < 2 ^ 53 -> 0 <= t -> 2 ^ 52 <= q1 ->
  q1 / 2 ^ t = a / m ->
  (2 * q1 + 1) * m <= 2 * a * 2 ^ t ->
  (q1 + 1) / 2 ^ t = a / m.
Proof.
  intros Ha Hm Ht Hq Hbase Hup.
  assert (HP : 0 < 2 ^ t) by (apply Z.pow_pos_nonneg; lia).
  set (P := 2 ^ t) in *. set (N := a / m) in *.
  pose proof (Z.div_mod q1 P ltac:(lia)) as Hq1.
  pose proof (Z.mod_pos_bound q1 P HP) as Hrho.
  rewrite Hbase in Hq1. set (rho := q1 mod P) in *.
  pose proof (Z.div_mod a m ltac:(lia)) as Ha1.
  pose proof (Z.mod_pos_bound a m ltac:(lia)) as Hra.
  fold N in Ha1. set (ra := a mod m) in *.
  destruct (Z_lt_dec (rho + 1) P) as [Hlt|Hge].
  - symmetry. apply Z.div_unique with (rho + 1); lia.
  - exfalso. assert (Hrho' : rho = P - 1) by lia.
    assert (HN : 0 <= N) by (apply Z.div_pos; lia).
    assert (Hm2 : 2 * P <= m).
    { assert (2 * P * (m - ra) <= m) by nia. nia. }
    destruct (Z_le_dec 53 t) as [Hbig|Hsmall].
    + assert (2 ^ 53 <= P) by (apply Z.pow_le_mono_r; lia). lia.
    + assert (HR : 2 ^ 52 = P * 2 ^ (52 - t)).
      { unfold P. rewrite <- Z.pow_add_r by lia. f_equal. lia. }
      assert (HRpos : 0 < 2 ^ (52 - t)) by (apply Z.pow_pos_nonneg; lia).
      set (R := 2 ^ (52 - t)) in *.
      assert (R <= N) by nia.
      assert (2 ^ 53 <= a).
      { change (2 ^ 53) with (2 * 2 ^ 52). rewrite HR. nia. }
      lia.
Qed.

Lemma to_int_rounded (q1 : positive) (e1 : Z) (l1 : location) (N : Z) :
  Zpos (digits2_pos q1) = 53 -> -1021 <= e1 <= 0 ->
  Zpos q1 / 2 ^ (- e1) = N ->
  (l1 = loc_Inexact Eq \/ l1 = loc_Inexact Gt ->
   (Zpos q1 + 1) / 2 ^ (- e1) = N) ->
  exists f,
    binary_round_aux 53 1024 false (Zpos q1) e1 l1 = f /\
    (forall s, f <> S754_infinity s) /\
    PyFloat.to_int f = Ok N.
Proof.
  intros Hd He Hbase Hup.
  destruct (binary_round_aux_53 false q1 e1 l1 Hd ltac:(lia))
    as (mf & ef & -> & Hcase).
  eexists. split; [reflexivity|]. split; [discriminate|].
  cbn [PyFloat.to_int cond_Zopp]. f_equal.
  destruct Hcase as [[Hmf ->]|(Hmf & -> & Hcarry)].
  - rewrite Z.shiftl_div_pow2 by lia. rewrite Hmf.
    destruct (round_nearest_even_cases (Zpos q1) l1) as [->|[-> Hl]];
      [exact Hbase|exact (Hup Hl)].
  - rewrite Hmf.
    destruct (round_nearest_even_cases (Zpos q1) l1) as [E|[E Hl]].
    + pose proof (digits2_bounds q1) as B. rewrite Hd in B.
      change (53 - 1) with 52 in B. lia.
    + rewrite <- (Hup Hl). rewrite <- E, Hcarry.
      destruct (Z.eq_dec e1 0) as [->|Hne]; [reflexivity|].
      rewrite Z.shiftl_div_pow2 by lia.
      change (2 ^ 53) with (2 * 2 ^ 52).
      replace (2 ^ (- e1)) with (2 * 2 ^ (- (e1 + 1)))
        by (rewrite <- Z.pow_succ_r by lia; f_equal; lia).
      rewrite Z.div_mul_cancel_l; [reflexivity| |lia].
      apply Z.pow_nonzero; lia.
Qed.

Lemma digits2_le_53 (p : positive) :
  Zpos p < 2 ^ 53 -> 1 <= Zpos (digits2_pos p) <= 53.
Proof.
  intros H. pose proof (digits2_bounds p) as [B _]. split; [lia|].
  assert (Zpos (digits2_pos p) - 1 < 53); [|lia].
  apply (Z.pow_lt_mono_r_iff 2); lia.
Qed.

Lemma SFdiv_core_integers (pa pm : positive) :
  Zpos pa < 2 ^ 53 -> Zpos pm < 2 ^ 53 ->
  let s := 53 + Zpos (digits2_pos pm) - Zpos (digits2_pos pa) in
  SFdiv_core_binary 53 1024 (Zpos pa) 0 (Zpos pm) 0 =
    ((Zpos pa * 2 ^ s) / Zpos pm, - s,
     new_location (Zpos pm) ((Zpos pa * 2 ^ s) mod Zpos pm)).
Proof.
  intros Ha Hm s.
  pose proof (digits2_le_53 pa Ha) as Hd1.
  pose proof (digits2_le_53 pm Hm) as Hd2.
  unfold SFdiv_core_binary. cbn [Zdigits2]. rewrite !Z.add_0_r.
  rewrite fexp_normal by lia.
  replace (Z.min (Zpos (digits2_pos pa) - Zpos (digits2_pos pm) - 53) (0 - 0))
    with (- s) by (subst s; lia).
  replace (0 - 0 - - s) with s by lia.
  assert (Hs : 0 < s) by (subst s; lia).
  destruct s as [|ps|ps] eqn:Es; [lia| |lia].
  rewrite Z.shiftl_mul_pow2 by lia.
  unfold Z.div, Z.modulo.
  destruct (Z.div_eucl (Zpos pa * 2 ^ Zpos ps) (Zpos pm)) as [q r].
  reflexivity.
Qed.

Theorem truediv_exact (a m : Z) :
  0 <= a < 2 ^ 53 -> 0 < m < 2 ^ 53 ->
  exists f, PyFloat.truediv a m = Ok f /\ PyFloat.to_int f = Ok (a / m).
Proof.
  intros Ha Hm.
  destruct (Z.eq_dec a 0) as [->|Hnz].
  { rewrite truediv_zero by lia. eexists. split; reflexivity. }
  destruct a as [|pa|pa]; [lia| |lia].
  destruct m as [|pm|pm]; [lia| |lia].
  unfold PyFloat.truediv. cbn [Z.eqb PyFloat.operand SFdiv xorb].
  unfold PyFloat.prec, PyFloat.emax.
  rewrite SFdiv_core_integers by lia.
  pose proof (digits2_le_53 pa ltac:(lia)) as Hd1.
  pose proof (digits2_le_53 pm ltac:(lia)) as Hd2.
  pose proof (digits2_bounds pa) as Ba.
  pose proof (digits2_bounds pm) as Bm.
  set (d1 := Zpos (digits2_pos pa)) in *.
  set (d2 := Zpos (digits2_pos pm)) in *.
  set (s := 53 + d2 - d1).
  assert (Hs : 1 <= s <= 105) by (subst s; lia).
  set (a := Zpos pa) in *. set (m := Zpos pm) in *.
  assert (HP : 0 < 2 ^ s) by (apply Z.pow_pos_nonneg; lia).
  pose proof (Z.div_mod (a * 2 ^ s) m ltac:(lia)) as Hdiv.
  pose proof (Z.mod_pos_bound (a * 2 ^ s) m ltac:(lia)) as Hr.
  set (q := (a * 2 ^ s) / m) in *. set (r := (a * 2 ^ s) mod m) in *.
  assert (Hlo : 2 ^ (52 + d2) <= a * 2 ^ s).
  { replace (52 + d2) with ((d1 - 1) + s) by (subst s; lia).
    rewrite Z.pow_add_r by lia. nia. }
  assert (Hhi : a * 2 ^ s < 2 ^ (53 + d2)).
  { replace (53 + d2) with (d1 + s) by (subst s; lia).
    rewrite Z.pow_add_r by lia. nia. }
  assert (Hm1 : 2 ^ (52 + d2) = 2 ^ 52 * (2 * 2 ^ (d2 - 1))).
  { rewrite <- Z.pow_succ_r, <- Z.pow_add_r by lia. f_equal. lia. }
  assert (Hm2 : 2 ^ (53 + d2) = 2 ^ 54 * 2 ^ (d2 - 1)).
  { rewrite <- Z.pow_add_r by lia. f_equal. lia. }
  assert (Hm3 : 2 ^ d2 = 2 * 2 ^ (d2 - 1)).
  { rewrite <- Z.pow_succ_r by lia. f_equal. lia. }
  assert (Hq : 2 ^ 52 <= q < 2 ^ 54) by (split; nia).
  assert (Hbase : q / 2 ^ s = a / m).
  { unfold q. rewrite Z.div_div by lia.
    rewrite Z.div_mul_cancel_r by lia. reflexivity. }
  destruct q as [|pq|pq] eqn:Eq; [lia| |lia].
  destruct (Z_lt_dec (Zpos pq) (2 ^ 53)) as [H53|H54].
  - destruct (to_int_rounded pq (- s) (new_location m r) (a / m))
      as (f & -> & Hfin & Hint).
    + apply digits2_unique; [change (53 - 1) with 52|]; lia.
    + lia.
    + rewrite Z.opp_involutive. exact Hbase.
    + rewrite Z.opp_involutive. intros Hl.
      pose proof (new_location_half m r Hr) as Hloc.
      apply (round_up_keeps_floor a m (Zpos pq) s);
        [lia|lia|lia|lia|exact Hbase|].
      destruct Hl as [Hl|Hl]; rewrite Hl in Hloc; nia.
    + exists f. split; [|exact Hint].
      destruct f; try reflexivity. exfalso. eapply Hfin. reflexivity.
  - destruct (binary_round_aux_54 false pq (- s) (new_location m r))
      as (q1 & l1 & Hq1 & Hd & -> & Hodd).
    + apply digits2_unique; [change (54 - 1) with 53|]; lia.
    + lia.
    + destruct (to_int_rounded q1 (- s + 1) l1 (a / m))
        as (f & -> & Hfin & Hint).
      * exact Hd.
      * lia.
      * replace (- (- s + 1)) with (s - 1) by lia.
        rewrite Hq1, Z.div_div by (try apply Z.pow_pos_nonneg; lia).
        rewrite <- Z.pow_succ_r by lia.
        replace (Z.succ (s - 1)) with s by lia. exact Hbase.
      * replace (- (- s + 1)) with (s - 1) by lia. intros Hl.
        assert (Hs2 : 2 ^ s = 2 * 2 ^ (s - 1)).
        { rewrite <- Z.pow_succ_r by lia. f_equal. lia. }
        assert (HP1 : 0 < 2 ^ (s - 1)) by (apply Z.pow_pos_nonneg; lia).
        pose proof (digits2_bounds q1) as B. rewrite Hd in B.
        change (53 - 1) with 52 in B.
        apply (round_up_keeps_floor a m (Zpos q1) (s - 1));
          [lia|lia|lia|lia| |].
        -- rewrite Hq1, Z.div_div by lia.
           rewrite <- Z.pow_succ_r by lia.
           replace (Z.succ (s - 1)) with s by lia. exact Hbase.
        -- specialize (Hodd Hl). nia.
      * exists f. split; [|exact Hint].
        destruct f; try reflexivity. exfalso. eapply Hfin. reflexivity.
Qed.

(** ** Rounding to nearest

    The rounding function of the float operations returns the mantissa of
    53 bits nearest to the exact result, the even one at a tie. With it the
    length of a bar of the history chart, [int(c / m * 20)], is computed in
    integers: for counts below [2^47] it is the integer quotient of [20 * c]
    by [m], although the quotient [c / m] and its product by 20 are both
    rounded. *)

Lemma record_eta (r : shr_record) :
  shr_record_of_loc (shr_m r) (loc_of_shr_record r) = r.
Proof. destruct r as [m [|] [|]]; reflexivity. Qed.

Lemma shr_1_located (A B : Z) (r : shr_record) :
  0 < B -> rec_located A B r ->
  rec_located A (2 * B) (shr_1 r) /\ shr_m (shr_1 r) = shr_m r / 2.
Proof.
  intros HB [Hm Hl]. destruct r as [m rb sb]. cbn [shr_m] in *.
  destruct m as [|p|p]; [| |lia].
  - destruct rb, sb; cbn in *; unfold rec_located; cbn; repeat split; lia.
  - destruct p as [p|p|].
    + assert (E : Zpos p~1 / 2 = Zpos p)
        by (rewrite Pos2Z.inj_xI; symmetry; apply Z.div_unique with 1; lia).
      rewrite E. rewrite Pos2Z.inj_xI in Hl.
      destruct rb, sb; cbn in *; unfold rec_located; cbn; repeat split; lia.
    + assert (E : Zpos p~0 / 2 = Zpos p)
        by (rewrite Pos2Z.inj_xO; symmetry; apply Z.div_unique with 0; lia).
      rewrite E. rewrite Pos2Z.inj_xO in Hl.
      destruct rb, sb; cbn in *; unfold rec_located; cbn; repeat split; lia.
    + destruct rb, sb; cbn in *; unfold rec_located; cbn; repeat split; lia.
Qed.

Lemma iter_pos_located (n : positive) :
  forall (A B : Z) (r : shr_record),
    0 < B -> rec_located A B r ->
    rec_located A (B * 2 ^ Zpos n) (SpecFloat.iter_pos shr_1 n r) /\
    shr_m (SpecFloat.iter_pos shr_1 n r) = shr_m r / 2 ^ Zpos n.
Proof.
  induction n as [n IH|n IH|]; intros A B r HB Hr; cbn [SpecFloat.iter_pos].
  - destruct (shr_1_located A B r HB Hr) as [H1 E1].
    assert (HP : 0 < 2 ^ Zpos n) by (apply Z.pow_pos_nonneg; lia).
    destruct (IH A (2 * B) _ ltac:(lia) H1) as [H2 E2].
    destruct (IH A (2 * B * 2 ^ Zpos n) _ ltac:(nia) H2) as [H3 E3].
    rewrite Pos2Z.inj_xI.
    replace (2 * Z.pos n + 1) with (1 + Zpos n + Zpos n) by lia.
    rewrite !Z.pow_add_r by lia. change (2 ^ 1) with 2.
    split.
    + replace (B * (2 * 2 ^ Z.pos n * 2 ^ Z.pos n))
        with (2 * B * 2 ^ Z.pos n * 2 ^ Z.pos n) by ring. exact H3.
    + rewrite E3, E2, E1. rewrite !Z.div_div by lia. f_equal; ring.
  - assert (HP : 0 < 2 ^ Zpos n) by (apply Z.pow_pos_nonneg; lia).
    destruct (IH A B _ HB Hr) as [H2 E2].
    destruct (IH A (B * 2 ^ Zpos n) _ ltac:(nia) H2) as [H3 E3].
    replace (Z.pos n~0) with (Zpos n + Zpos n) by lia.
    rewrite !Z.pow_add_r by lia.
    split.
    + replace (B * (2 ^ Z.pos n * 2 ^ Z.pos n))
        with (B * 2 ^ Z.pos n * 2 ^ Z.pos n) by ring. exact H3.
    + rewrite E3, E2. rewrite !Z.div_div by lia. f_equal; ring.
  - destruct (shr_1_located A B r HB Hr) as [H1 E1].
    change (2 ^ 1) with 2. rewrite (Z.mul_comm B 2). auto.
Qed.

Lemma shr_fexp_located (P : positive) (e : Z) (l : location) (A B : Z) :
  53 <= Zpos (digits2_pos P) -> -1021 <= Zpos (digits2_pos P) + e -> 0 < B ->
  located A B (Zpos P) l ->
  exists (P1 : positive) (l1 : location),
    shr_fexp 53 1024 (Zpos P) e l =
      (shr_record_of_loc (Zpos P1) l1, e + (Zpos (digits2_pos P) - 53)) /\
    Zpos (digits2_pos P1) = 53 /\
    located A (B * 2 ^ (Zpos (digits2_pos P) - 53)) (Zpos P1) l1.
Proof.
  intros Hd He HB Hl. unfold shr_fexp. cbn [Zdigits2].
  rewrite fexp_normal by lia.
  replace (Zpos (digits2_pos P) + e - 53 - e) with (Zpos (digits2_pos P) - 53)
    by lia.
  pose proof (digits2_bounds P) as Bd.
  destruct (Zpos (digits2_pos P) - 53) as [|n|n] eqn:En; [| |lia].
  - exists P, l. cbn [shr]. rewrite Z.add_0_r, Z.mul_1_r.
    split; [reflexivity|]. split; [lia|exact Hl].
  - cbn [shr].
    assert (Hr : rec_located A B (shr_record_of_loc (Zpos P) l)).
    { destruct (loc_of_record (Zpos P) l) as [E1 E2].
      unfold rec_located. rewrite E1, E2. split; [lia|exact Hl]. }
    destruct (iter_pos_located n A B _ HB Hr) as [[_ H1] E1].
    destruct (loc_of_record (Zpos P) l) as [_ E2]. rewrite E2 in E1.
    assert (HP : 0 < 2 ^ Zpos n) by (apply Z.pow_pos_nonneg; lia).
    assert (Hsplit : 2 ^ (Zpos (digits2_pos P) - 1) = 2 ^ 52 * 2 ^ Zpos n).
    { rewrite <- Z.pow_add_r by lia. f_equal. lia. }
    assert (Hsplit' : 2 ^ Zpos (digits2_pos P) = 2 ^ 53 * 2 ^ Zpos n).
    { rewrite <- Z.pow_add_r by lia. f_equal. lia. }
    assert (Hlo : 2 ^ 52 <= Zpos P / 2 ^ Zpos n)
      by (apply Z.div_le_lower_bound; lia).
    assert (Hhi : Zpos P / 2 ^ Zpos n < 2 ^ 53)
      by (apply Z.div_lt_upper_bound; lia).
    destruct (Zpos P / 2 ^ Zpos n) as [|P1|P1] eqn:EP1; [lia| |lia].
    exists P1, (loc_of_shr_record (SpecFloat.iter_pos shr_1 n (shr_record_of_loc (Zpos P) l))).
    split; [|split].
    + rewrite <- E1, record_eta. reflexivity.
    + apply digits2_unique; [change (53 - 1) with 52|]; lia.
    + rewrite <- E1. exact H1.
Qed.

Lemma located_nearest (A B P : Z) (l : location) :
  0 < B -> located A B P l -> nearest_even A B (round_nearest_even P l).
Proof.
  intros HB Hl. unfold nearest_even.
  destruct l as [|[| |]]; cbn [located round_nearest_even] in *.
  - subst A. replace (P * B - P * B) with 0 by ring. cbn.
    split; [lia|intros; exfalso; lia].
  - destruct (Z.even P) eqn:Ev.
    + split; [lia|auto].
    + split; [lia|]. intros _. rewrite Z.even_add, Ev. reflexivity.
  - split; [lia|intros; exfalso; lia].
  - split; [lia|intros; exfalso; lia].
Qed.

Lemma round_aux_located (sx : bool) (P : positive) (e : Z) (l : location)
      (A B : Z) :
  53 <= Zpos (digits2_pos P) ->
  -900 <= Zpos (digits2_pos P) + e <= 900 -> 0 < B ->
  located A B (Zpos P) l ->
  exists (mf : positive) (k : Z),
    binary_round_aux 53 1024 sx (Zpos P) e l = S754_finite sx mf (e + k) /\
    2 ^ 52 <= Zpos mf <= 2 ^ 53 /\
    (k = Zpos (digits2_pos P) - 53 \/ k = Zpos (digits2_pos P) - 52) /\
    nearest_even A (B * 2 ^ k) (Zpos mf).
Proof.
  intros Hd He HB Hl.
  destruct (shr_fexp_located P e l A B Hd ltac:(lia) HB Hl)
    as (P1 & l1 & Es & Hd1 & Hl1).
  set (n := Zpos (digits2_pos P) - 53) in *.
  assert (HP : 0 < 2 ^ n) by (apply Z.pow_pos_nonneg; lia).
  assert (Eaux : binary_round_aux 53 1024 sx (Zpos P) e l =
                 binary_round_aux 53 1024 sx (Zpos P1) (e + n) l1).
  { unfold binary_round_aux. rewrite Es.
    rewrite (shr_fexp_53 P1 (e + n) l1 Hd1) by lia. reflexivity. }
  rewrite Eaux.
  destruct (binary_round_aux_53 sx P1 (e + n) l1 Hd1 ltac:(lia))
    as (mf & ef & -> & Hcase).
  pose proof (located_nearest A (B * 2 ^ n) (Zpos P1) l1 ltac:(nia) Hl1)
    as [Hn1 Hn2].
  pose proof (digits2_bounds P1) as B1. rewrite Hd1 in B1.
  change (53 - 1) with 52 in B1.
  destruct Hcase as [[Hmf ->]|(Hmf & -> & Hcarry)].
  - exists mf, n. split; [reflexivity|].
    destruct (round_nearest_even_cases (Zpos P1) l1) as [E|[E _]].
    + rewrite E in *. rewrite Hmf. split; [lia|]. split; [left; reflexivity|].
      split; assumption.
    + rewrite E in *. rewrite Hmf. split; [lia|].
      split; [left; reflexivity|]. split; assumption.
  - exists mf, (n + 1). split; [f_equal; lia|]. rewrite Hmf.
    split; [lia|]. split; [right; lia|].
    rewrite Hcarry in *. rewrite Z.pow_add_r by lia. change (2 ^ 1) with 2.
    unfold nearest_even.
    replace (2 ^ 52 * (B * (2 ^ n * 2))) with (2 ^ 53 * (B * 2 ^ n))
      by (change (2 ^ 53) with (2 ^ 52 * 2); ring).
    split; [nia|]. intros Heq. exfalso. nia.
Qed.

Lemma nearest_even_cancel (A B R u : Z) :
  0 < u -> nearest_even (A * u) (B * u) R -> nearest_even A B R.
Proof.
  intros Hu [H1 H2]. unfold nearest_even.
  replace (R * (B * u) - A * u) with ((R * B - A) * u) in * by ring.
  rewrite Z.abs_mul, (Z.abs_eq u) in * by lia.
  split; [nia|]. intros E. apply H2. nia.
Qed.

Lemma located_division (A B : Z) :
  0 <= A -> 0 < B -> located A B (A / B) (new_location B (A mod B)).
Proof.
  intros HA HB.
  pose proof (Z.div_mod A B ltac:(lia)) as Hdiv.
  pose proof (Z.mod_pos_bound A B HB) as Hr.
  pose proof (new_location_half B (A mod B) Hr) as Hloc.
  destruct (new_location B (A mod B)) as [|[| |]]; cbn [located]; nia.
Qed.

Lemma truediv_nearest (c m : Z) :
  0 < c -> c <= m -> m < 2 ^ 53 ->
  exists (M : positive) (E : Z),
    PyFloat.truediv c m = Ok (S754_finite false M (- E)) /\
    2 ^ 52 <= Zpos M <= 2 ^ 53 /\ 51 <= E <= 106 /\
    nearest_even (c * 2 ^ E) m (Zpos M).
Proof.
  intros Hc Hcm Hm.
  destruct c as [|pa|pa]; [lia| |lia].
  destruct m as [|pm|pm]; [lia| |lia].
  unfold PyFloat.truediv. cbn [Z.eqb PyFloat.operand SFdiv xorb].
  unfold PyFloat.prec, PyFloat.emax.
  rewrite SFdiv_core_integers by lia.
  pose proof (digits2_le_53 pa ltac:(lia)) as Hd1.
  pose proof (digits2_le_53 pm ltac:(lia)) as Hd2.
  pose proof (digits2_bounds pa) as Ba.
  pose proof (digits2_bounds pm) as Bm.
  set (d1 := Zpos (digits2_pos pa)) in *.
  set (d2 := Zpos (digits2_pos pm)) in *.
  assert (Hd12 : d1 <= d2).
  { assert (d1 - 1 < d2); [|lia]. apply (Z.pow_lt_mono_r_iff 2); lia. }
  set (s := 53 + d2 - d1).
  assert (Hs : 53 <= s <= 105) by (subst s; lia).
  set (a := Zpos pa) in *. set (m := Zpos pm) in *.
  assert (HP : 0 < 2 ^ s) by (apply Z.pow_pos_nonneg; lia).
  pose proof (Z.div_mod (a * 2 ^ s) m ltac:(lia)) as Hdiv.
  pose proof (Z.mod_pos_bound (a * 2 ^ s) m ltac:(lia)) as Hr.
  pose proof (located_division (a * 2 ^ s) m ltac:(nia) ltac:(lia)) as Hloc.
  set (q := (a * 2 ^ s) / m) in *. set (r := (a * 2 ^ s) mod m) in *.
  assert (Hlo : 2 ^ (52 + d2) <= a * 2 ^ s).
  { replace (52 + d2) with ((d1 - 1) + s) by (subst s; lia).
    rewrite Z.pow_add_r by lia. nia. }
  assert (Hhi : a * 2 ^ s < 2 ^ (53 + d2)).
  { replace (53 + d2) with (d1 + s) by (subst s; lia).
    rewrite Z.pow_add_r by lia. nia. }
  assert (Hm1 : 2 ^ (52 + d2) = 2 ^ 52 * (2 * 2 ^ (d2 - 1))).
  { rewrite <- Z.pow_succ_r, <- Z.pow_add_r by lia. f_equal. lia. }
  assert (Hm2 : 2 ^ (53 + d2) = 2 ^ 54 * 2 ^ (d2 - 1)).
  { rewrite <- Z.pow_add_r by lia. f_equal. lia. }
  assert (Hm3 : 2 ^ d2 = 2 * 2 ^ (d2 - 1)).
  { rewrite <- Z.pow_succ_r by lia. f_equal. lia. }
  assert (Hq : 2 ^ 52 <= q < 2 ^ 54) by (split; nia).
  destruct q as [|pq|pq] eqn:Eq; [lia| |lia].
  assert (Hdq : Zpos (digits2_pos pq) = 53 \/ Zpos (digits2_pos pq) = 54).
  { destruct (Z_lt_dec (Zpos pq) (2 ^ 53)).
    - left. apply digits2_unique; [change (53 - 1) with 52|]; lia.
    - right. apply digits2_unique; [change (54 - 1) with 53|]; lia. }
  destruct (round_aux_located false pq (- s) (new_location m r)
              (a * 2 ^ s) m ltac:(lia) ltac:(lia) ltac:(lia) Hloc)
    as (M & k & -> & HM & Hk & Hnear).
  exists M, (s - k). split; [f_equal; f_equal; lia|].
  split; [exact HM|]. split; [lia|].
  assert (Hk0 : 0 <= k <= 2) by lia.
  assert (HPk : 0 < 2 ^ k) by (apply Z.pow_pos_nonneg; lia).
  apply (nearest_even_cancel _ _ _ (2 ^ k) HPk).
  replace (a * 2 ^ (s - k) * 2 ^ k) with (a * 2 ^ s); [exact Hnear|].
  rewrite <- Z.mul_assoc, <- Z.pow_add_r by lia. do 2 f_equal. lia.
Qed.

(** The scaled mantissa is within 9/8 of a unit of the exact value. *)
Lemma floor_of_close (c m R T : Z) :
  0 < c -> c <= m -> m < 2 ^ 47 -> 2 ^ 48 <= T ->
  (20 * c) mod m <> 0 ->
  8 * Z.abs (R * m - 20 * c * T) <= 9 * m ->
  R / T = 20 * c / m.
Proof.
  intros Hc Hcm Hm HT Hf HX.
  pose proof (Z.div_mod (20 * c) m ltac:(lia)) as Hdiv.
  pose proof (Z.mod_pos_bound (20 * c) m ltac:(lia)) as Hr.
  set (K := 20 * c / m) in *. set (f := (20 * c) mod m) in *.
  assert (HfT : T <= f * T <= (m - 1) * T) by nia.
  assert (E : R * m - 20 * c * T = (R - K * T) * m - f * T) by nia.
  rewrite E in HX.
  symmetry. apply Z.div_unique with (R - K * T); [left|ring].
  split; nia.
Qed.

Lemma pow2_ge (t : Z) :
  0 <= t -> 2 ^ 47 < 2 ^ t -> 2 ^ 48 <= 2 ^ t.
Proof.
  intros Ht H. apply Z.pow_le_mono_r; [lia|].
  assert (47 < t); [|lia]. apply (Z.pow_lt_mono_r_iff 2); lia.
Qed.

Lemma bar_floor (c m M R E k2 : Z) :
  0 < c -> c <= m -> m < 2 ^ 47 ->
  2 ^ 52 <= M <= 2 ^ 53 -> 2 ^ 52 <= R <= 2 ^ 53 -> 51 <= E ->
  nearest_even (c * 2 ^ E) m M ->
  k2 = 52 \/ k2 = 53 \/ k2 = 54 ->
  nearest_even (M * 5629499534213120) (1 * 2 ^ k2) R ->
  R / 2 ^ (E + 48 - k2) = 20 * c / m.
Proof.
  intros Hc Hcm Hm HM HR HE [HA _] Hk [HB HBtie].
  set (t := E + 48 - k2).
  assert (Ht : 1 <= t) by (subst t; lia).
  assert (HT : 0 < 2 ^ t) by (apply Z.pow_pos_nonneg; lia).
  assert (Heven : 2 ^ t = 2 * 2 ^ (t - 1)).
  { rewrite <- Z.pow_succ_r by lia. f_equal. lia. }
  pose proof (Z.div_mod (20 * c) m ltac:(lia)) as Hdiv.
  pose proof (Z.mod_pos_bound (20 * c) m ltac:(lia)) as Hr.
  destruct Hk as [->|[->| ->]].
  - (* the product has 105 digits *)
    assert (HEt : 2 ^ E = 16 * 2 ^ t).
    { change 16 with (2 ^ 4). rewrite <- Z.pow_add_r by lia.
      f_equal. subst t. lia. }
    rewrite HEt in HA. set (T := 2 ^ t) in *.
    assert (Hu : -2 <= 4 * R - 5 * M <= 2) by lia.
    assert (HX : 8 * Z.abs (R * m - 20 * c * T) <= 9 * m).
    { assert (E4 : 4 * (R * m - 20 * c * T) =
                   (4 * R - 5 * M) * m + 5 * (M * m - c * (16 * T))) by ring.
      nia. }
    assert (HT48 : 2 ^ 48 <= T).
    { apply (pow2_ge t); [lia|]. fold T. nia. }
    destruct (Z.eq_dec ((20 * c) mod m) 0) as [Hf|Hf].
    + rewrite Hf, Z.add_0_r in Hdiv. set (K := 20 * c / m) in *.
      assert (Hv : -2 <= 5 * M - 4 * K * T <= 2).
      { assert (E5 : 5 * (M * m - c * (16 * T)) = m * (5 * M - 4 * K * T))
          by nia.
        nia. }
      assert (HRK : R = K * T).
      { destruct (Z.eq_dec R (K * T)) as [|Hne]; [assumption|]. exfalso.
        assert (Hev : Z.even R = true) by (apply HBtie; lia).
        assert (Hodd : R = 1 + 2 * (K * 2 ^ (t - 1)) \/
                       R = -1 + 2 * (K * 2 ^ (t - 1))) by lia.
        destruct Hodd as [Ho|Ho]; rewrite Ho, Z.even_add_mul_2 in Hev;
          discriminate. }
      rewrite HRK. apply Z.div_mul. lia.
    + apply floor_of_close; assumption.
  - (* the product has 106 digits *)
    assert (HEt : 2 ^ E = 32 * 2 ^ t).
    { change 32 with (2 ^ 5). rewrite <- Z.pow_add_r by lia.
      f_equal. subst t. lia. }
    rewrite HEt in HA. set (T := 2 ^ t) in *.
    assert (Hu : -4 <= 8 * R - 5 * M <= 4) by lia.
    assert (HX : 8 * Z.abs (R * m - 20 * c * T) <= 9 * m).
    { assert (E4 : 8 * (R * m - 20 * c * T) =
                   (8 * R - 5 * M) * m + 5 * (M * m - c * (32 * T))) by ring.
      nia. }
    assert (HT48 : 2 ^ 48 <= T).
    { apply (pow2_ge t); [lia|]. fold T. nia. }
    destruct (Z.eq_dec ((20 * c) mod m) 0) as [Hf|Hf].
    + rewrite Hf, Z.add_0_r in Hdiv. set (K := 20 * c / m) in *.
      assert (Hv : -2 <= 5 * M - 8 * K * T <= 2).
      { assert (E5 : 5 * (M * m - c * (32 * T)) = m * (5 * M - 8 * K * T))
          by nia.
        nia. }
      assert (HRK : R = K * T) by lia.
      rewrite HRK. apply Z.div_mul. lia.
    + apply floor_of_close; assumption.
  - exfalso. lia.
Qed.

Lemma of_int_20 :
  PyFloat.of_int 20 = S754_finite false 5629499534213120 (-48).
Proof. vm_compute. reflexivity. Qed.

Lemma bar_length_exact (c m : Z) :
  0 <= c -> c <= m -> 0 < m < 2 ^ 47 ->
  bar_length c m = Ok (20 * c / m).
Proof.
  intros Hc Hcm Hm. unfold bar_length.
  destruct (Z.eq_dec c 0) as [->|Hnz].
  { rewrite truediv_zero by lia. cbn [rbind].
    destruct (Z.ltb_spec m 0); [lia|]. rewrite of_int_20. reflexivity. }
  destruct (truediv_nearest c m ltac:(lia) Hcm ltac:(lia))
    as (M & E & -> & HM & HE & Hnear).
  cbn [rbind]. rewrite of_int_20.
  unfold PyFloat.mul, PyFloat.prec, PyFloat.emax. cbn [SFmul xorb].
  set (P := (M * 5629499534213120)%positive).
  assert (HP : Zpos P = Zpos M * 5629499534213120) by (subst P; lia).
  assert (HdP : Zpos (digits2_pos P) = 105 \/ Zpos (digits2_pos P) = 106).
  { destruct (Z_lt_dec (Zpos P) (2 ^ 105)).
    - left. apply digits2_unique; [change (105 - 1) with 104|]; lia.
    - right. apply digits2_unique; [change (106 - 1) with 105|]; lia. }
  destruct (round_aux_located false P (- E + -48) loc_Exact (Zpos P) 1
              ltac:(lia) ltac:(lia) ltac:(lia) ltac:(cbn [located]; lia))
    as (R & k & -> & HR & Hk & HnearR).
  cbn [PyFloat.to_int cond_Zopp]. f_equal.
  rewrite Z.shiftl_div_pow2 by lia.
  replace (- (- E + -48 + k)) with (E + 48 - k) by lia.
  rewrite HP in HnearR.
  apply (bar_floor c m (Zpos M) (Zpos R) E k); try assumption; lia.
Qed.

(** ** The connection-usage classifier *)

Lemma literal_29_999_rounds :
  PyFloat.truediv 29999 1000 = Ok literal_29_999.
Proof. reflexivity. Qed.

(** C1. For every non-negative percentage the classifier of
    [draw_progress_bar] answers with the tier of the half-open,
    left-inclusive partition [0,30) SAFE, [30,50) GOOD, [50,70) MODERATE,
    [70,85) HIGH, [85,95) CRITICAL, [95,inf) DANGER, and with no other; and
    29.999 is SAFE, 30.0 is GOOD, 95.0 is DANGER. *)
Theorem classify_partition :
  (forall p : number,
      num_geb p 0 = true ->
      (status_en (progress_phase p) = "SAFE" <-> num_ltb p 30 = true) /\
      (status_en (progress_phase p) = "GOOD" <->
         num_geb p 30 = true /\ num_ltb p 50 = true) /\
      (status_en (progress_phase p) = "MODERATE" <->
         num_geb p 50 = true /\ num_ltb p 70 = true) /\
      (status_en (progress_phase p) = "HIGH" <->
         num_geb p 70 = true /\ num_ltb p 85 = true) /\
      (status_en (progress_phase p) = "CRITICAL" <->
         num_geb p 85 = true /\ num_ltb p 95 = true) /\
      (status_en (progress_phase p) = "DANGER" <-> num_geb p 95 = true)) /\
  status_en (progress_phase (Float literal_29_999)) = "SAFE" /\
  status_en (progress_phase (Float (PyFloat.of_int 30))) = "GOOD" /\
  status_en (progress_phase (Float (PyFloat.of_int 95))) = "DANGER".
Proof.
  split; [|repeat split; reflexivity].
  intros p H0.
  rewrite (num_geb_negb_ltb p 30 H0 eq_refl), (num_geb_negb_ltb p 50 H0 eq_refl),
    (num_geb_negb_ltb p 70 H0 eq_refl), (num_geb_negb_ltb p 85 H0 eq_refl),
    (num_geb_negb_ltb p 95 H0 eq_refl).
  pose proof (num_ltb_mono p 30 50 ltac:(lia) eq_refl) as M1.
  pose proof (num_ltb_mono p 50 70 ltac:(lia) eq_refl) as M2.
  pose proof (num_ltb_mono p 70 85 ltac:(lia) eq_refl) as M3.
  pose proof (num_ltb_mono p 85 95 ltac:(lia) eq_refl) as M4.
  unfold progress_phase.
  destruct (num_ltb p 30); [specialize (M1 eq_refl)|clear M1];
    (destruct (num_ltb p 50); [specialize (M2 eq_refl)|clear M2]);
    (destruct (num_ltb p 70); [specialize (M3 eq_refl)|clear M3]);
    (destruct (num_ltb p 85); [specialize (M4 eq_refl)|clear M4]);
    destruct (num_ltb p 95); try discriminate; cbn;
    repeat split; intros; try discriminate; try reflexivity;
    try (destruct_and?; discriminate).
Qed.

(** C1, at one percentage: 50.0 is in [50,70), hence MODERATE. *)
Lemma classify_partition_witness :
  num_geb (Float (PyFloat.of_int 50)) 0 = true /\
  (status_en (progress_phase (Float (PyFloat.of_int 50))) = "MODERATE" <->
     num_geb (Float (PyFloat.of_int 50)) 50 = true /\
     num_ltb (Float (PyFloat.of_int 50)) 70 = true).
Proof.
  split; [reflexivity|].
  exact (proj1 (proj2 (proj2
    (proj1 classify_partition (Float (PyFloat.of_int 50)) eq_refl)))).
Defined.

(** ** The history buffer *)

Lemma deque_append_last_n {A} (l : list A) (x : A) :
  deque_append (last_n maxlen l) x = last_n maxlen (l ++ [x]).
Proof.
  unfold deque_append, last_n, maxlen. cbv zeta.
  assert (Hlen : length (drop (length l - 30) l ++ [x]) =
                 (length l - (length l - 30) + 1)%nat)
    by (rewrite length_app, length_drop; reflexivity).
  rewrite Hlen, length_app. cbn [length].
  destruct (Nat.ltb_spec 30 (length l - (length l - 30) + 1)) as [H|H].
  - rewrite <- drop_app_le by lia. rewrite drop_drop. f_equal. lia.
  - rewrite <- drop_app_le by lia. f_equal. lia.
Qed.

Lemma pushes_last_n {A} (l : list A) :
  fold_left deque_append l [] = last_n maxlen l.
Proof.
  induction l as [|x l IH] using rev_ind; [reflexivity|].
  rewrite fold_left_app. cbn [fold_left]. rewrite IH.
  apply deque_append_last_n.
Qed.

Lemma deque_append_bounded {A} (d : list A) (x : A) :
  (length d <= maxlen)%nat -> (length (deque_append d x) <= maxlen)%nat.
Proof.
  unfold deque_append, maxlen. intros H.
  destruct (Nat.ltb_spec 30 (length (d ++ [x]))) as [H'|H'];
    [rewrite length_drop|]; rewrite length_app in *; cbn [length] in *; lia.
Qed.

Lemma get_stats_history (self : monitor) (world : poll) :
  connection_history (snd (get_stats self world)) = connection_history self \/
  exists e, connection_history (snd (get_stats self world)) =
            deque_append (connection_history self) e.
Proof.
  unfold get_stats. destruct (db world) as [|[v|]|rows]; cbn; auto.
  destruct (usage_percentage _ _); cbn; eauto.
Qed.

Lemma polls_bounded (worlds : list poll) (self : monitor) :
  (length (connection_history self) <= maxlen)%nat ->
  (length (connection_history (polls self worlds)) <= maxlen)%nat.
Proof.
  unfold polls. revert self.
  induction worlds as [|w worlds IH]; intros self H; [exact H|].
  cbn [fold_left]. apply IH.
  destruct (get_stats_history self w) as [->|[e ->]];
    [exact H|now apply deque_append_bounded].
Qed.

(** C4. The history buffer never holds more than 30 entries, however many
    polls have run; a series of pushes leaves the last 30 pushed entries in
    the order they were pushed, so eviction is first in, first out; 31
    pushes leave the last 30; and the most recent 10 of a buffer of 5 are
    all 5, in order. *)
Theorem history_buffer_fifo :
  (forall worlds : list poll,
      (length (connection_history (polls init worlds)) <= 30)%nat) /\
  (forall l : list history_entry,
      fold_left deque_append l [] = last_n 30 l /\
      (length (fold_left deque_append l []) <= 30)%nat) /\
  (forall l : list history_entry,
      length l = 31%nat -> fold_left deque_append l [] = drop 1 l) /\
  (forall h : list history_entry, length h = 5%nat -> last_n 10 h = h).
Proof.
  repeat split.
  - intros worlds. apply (polls_bounded worlds init). cbn. lia.
  - apply pushes_last_n.
  - rewrite pushes_last_n. unfold last_n. rewrite length_drop.
    unfold maxlen. lia.
  - intros l H. rewrite pushes_last_n. unfold last_n, maxlen. now rewrite H.
  - intros h H. unfold last_n. now rewrite H.
Qed.

(** C4, on 31 numbered entries and on a buffer of 5. *)
Lemma history_buffer_fifo_witness :
  fold_left deque_append (map entry_number (seqZ 0 31)) [] =
    map entry_number (seqZ 1 30) /\
  last_n 10 (map entry_number (seqZ 0 5)) = map entry_number (seqZ 0 5).
Proof.
  split.
  - exact (proj1 (proj2 (proj2 history_buffer_fifo))
             (map entry_number (seqZ 0 31)) eq_refl).
  - exact (proj2 (proj2 (proj2 history_buffer_fifo))
             (map entry_number (seqZ 0 5)) eq_refl).
Defined.

(** ** Sampling *)

Lemma with_php_fpm_counted (world : poll) (n : Z) (stats : gmap string value) :
  php_fpm world = Counted n -> n <> -1 ->
  with_php_fpm world stats =
    Some (<["php_fpm_connections" := VNum (Int n)]> stats).
Proof.
  intros Hp Hn. unfold with_php_fpm, get_php_fpm_connections. rewrite Hp.
  destruct (Z.eqb_spec n (-1)) as [|_]; [contradiction|].
  rewrite bool_decide_eq_false_2; [reflexivity|]. apply insert_non_empty.
Qed.

(** C5. When the database fails and the process count is read, [get_stats]
    returns a dictionary that holds the process count and nothing else, and
    the history is as it was. *)
Theorem db_failure_keeps_process_count :
  forall (self : monitor) (world : poll) (n : Z),
    db_failed world ->
    php_fpm world = Counted n ->
    0 <= n ->
    exists stats : gmap string value,
      fst (get_stats self world) = Ok (Some stats) /\
      stats !! "php_fpm_connections" = Some (VNum (Int n)) /\
      (forall key : string, key <> "php_fpm_connections" -> stats !! key = None) /\
      connection_history (snd (get_stats self world)) = connection_history self.
Proof.
  intros self world n Hdb Hp Hn.
  exists (<["php_fpm_connections" := VNum (Int n)]> ∅).
  assert (Hw : with_php_fpm world ∅ =
               Some (<["php_fpm_connections" := VNum (Int n)]> ∅))
    by (apply with_php_fpm_counted; [exact Hp|lia]).
  split; [|split; [|split]].
  - unfold get_stats, db_failed in *.
    destruct (db world) as [|stored|rows]; [| |contradiction]; cbn;
      now rewrite Hw.
  - apply lookup_insert_eq.
  - intros key Hkey. rewrite lookup_insert_ne by congruence.
    apply lookup_empty.
  - unfold get_stats, db_failed in *.
    destruct (db world) as [|[v|]|rows]; [| | |contradiction]; reflexivity.
Qed.

(** C5, when the connection fails and four processes are counted. *)
Lemma db_failure_keeps_process_count_witness :
  exists stats : gmap string value,
    fst (get_stats init (sample_world ConnectFailed (Counted 4))) =
      Ok (Some stats) /\
    stats !! "php_fpm_connections" = Some (VNum (Int 4)) /\
    (forall key : string, key <> "php_fpm_connections" -> stats !! key = None) /\
    connection_history
      (snd (get_stats init (sample_world ConnectFailed (Counted 4)))) =
      connection_history init.
Proof.
  apply (db_failure_keeps_process_count init
           (sample_world ConnectFailed (Counted 4)) 4).
  - exact I.
  - reflexivity.
  - lia.
Defined.

(** C6. When both sources fail, [get_stats] returns [None] and does not
    raise, and drawing [None] writes nothing but the no-data message: the
    screen gains a prefix of clear, message, hint, refresh, all four when the
    terminal takes the two writes. *)
Theorem no_data_is_only_a_message :
  forall (accepts : draw_op -> bool) (self : monitor) (world : poll),
    db_failed world ->
    get_php_fpm_connections world = -1 ->
    fst (get_stats self world) = Ok None /\
    forall (height width : Z) (now : time) (s : screen),
    exists ops : list draw_op,
      snd (draw_dashboard accepts self height width now None s) = s ++ ops /\
      ops `prefix_of`
        [Clear; no_data_message height width; no_data_hint height width;
         Refresh] /\
      (accepts (no_data_message height width) = true ->
       accepts (no_data_hint height width) = true ->
       fst (draw_dashboard accepts self height width now None s) = Ok tt /\
       ops = [Clear; no_data_message height width; no_data_hint height width;
              Refresh]).
Proof.
  intros accepts self world Hdb Hphp. split.
  - unfold get_stats, db_failed, with_php_fpm in *. rewrite Hphp.
    destruct (db world) as [|stored|rows]; [| |contradiction]; reflexivity.
  - intros height width now s.
    unfold draw_dashboard, no_stats, bind, clear, refresh, addstr, write.
    fold (no_data_message height width). fold (no_data_hint height width).
    destruct (accepts (no_data_message height width)) eqn:E1.
    + destruct (accepts (no_data_hint height width)) eqn:E2.
      * eexists. rewrite <- !app_assoc. cbn [app snd fst].
        split; [reflexivity|]. split; [reflexivity|]. auto.
      * eexists. rewrite <- !app_assoc. cbn [app snd fst].
        split; [reflexivity|].
        split; [exists [no_data_hint height width; Refresh]; reflexivity|].
        discriminate.
    + eexists. cbn [snd fst]. split; [reflexivity|].
      split; [eexists; reflexivity|]. discriminate.
Qed.

(** C6, on a terminal of 40 by 120 that takes every write. *)
Lemma no_data_is_only_a_message_witness :
  fst (get_stats init (sample_world ConnectFailed CommandFailed)) = Ok None /\
  forall (height width : Z) (now : time) (s : screen),
  exists ops : list draw_op,
    snd (draw_dashboard (fun _ => true) init height width now None s) =
      s ++ ops /\
    ops `prefix_of`
      [Clear; no_data_message height width; no_data_hint height width;
       Refresh] /\
    (true = true -> true = true ->
     fst (draw_dashboard (fun _ => true) init height width now None s) =
       Ok tt /\
     ops = [Clear; no_data_message height width; no_data_hint height width;
            Refresh]).
Proof.
  apply (no_data_is_only_a_message (fun _ => true) init
           (sample_world ConnectFailed CommandFailed)).
  - exact I.
  - reflexivity.
Defined.

(** ** Usage percentage *)

Lemma fetched_stats (self : monitor) (world : poll) (rows : db_rows)
      (u : number) :
  db world = Fetched rows ->
  usage_percentage (r_threads_connected rows) (r_max_connections rows) = Ok u ->
  exists stats : gmap string value,
    fst (get_stats self world) = Ok (Some stats) /\
    stats !! "usage_percentage" = Some (VNum u).
Proof.
  intros Hdb Hu. unfold get_stats. rewrite Hdb. cbn [max_connections set_max_connections].
  rewrite Hu. cbn [fst]. unfold with_php_fpm.
  set (base := db_stats _ _ _ _ ∪ ∅).
  assert (Hbase : base !! "usage_percentage" = Some (VNum u)).
  { subst base. rewrite lookup_union_l by apply lookup_empty.
    unfold db_stats. now rewrite !lookup_insert_ne, lookup_insert_eq by done. }
  destruct (get_php_fpm_connections world =? -1).
  - exists base. split; [|exact Hbase].
    rewrite bool_decide_eq_false_2; [reflexivity|].
    intros E. rewrite E, lookup_empty in Hbase. discriminate.
  - eexists. split.
    + rewrite bool_decide_eq_false_2; [reflexivity|]. apply insert_non_empty.
    + rewrite lookup_insert_ne by done. exact Hbase.
Qed.

(** C7. After a fetch, the dictionary's usage percentage is the float
    current / maximum * 100 when the maximum is positive, and the integer 0
    when the maximum is 0 (nothing is divided, nothing raises); for counts
    below 2^53 the division does not raise either; 75 of 150 is 50.0
    exactly. *)
Theorem usage_percentage_of_fetch :
  (forall (self : monitor) (world : poll) (rows : db_rows) (q : PyFloat.float),
      db world = Fetched rows ->
      r_max_connections rows > 0 ->
      PyFloat.truediv (r_threads_connected rows) (r_max_connections rows) = Ok q ->
      exists stats : gmap string value,
        fst (get_stats self world) = Ok (Some stats) /\
        stats !! "usage_percentage" =
          Some (VNum (Float (PyFloat.mul q (PyFloat.of_int 100))))) /\
  (forall (self : monitor) (world : poll) (rows : db_rows),
      db world = Fetched rows ->
      0 <= r_threads_connected rows < 2 ^ 53 ->
      0 < r_max_connections rows < 2 ^ 53 ->
      exists (q : PyFloat.float) (stats : gmap string value),
        PyFloat.truediv (r_threads_connected rows) (r_max_connections rows) =
          Ok q /\
        fst (get_stats self world) = Ok (Some stats) /\
        stats !! "usage_percentage" =
          Some (VNum (Float (PyFloat.mul q (PyFloat.of_int 100))))) /\
  (forall (self : monitor) (world : poll) (rows : db_rows),
      db world = Fetched rows ->
      r_max_connections rows = 0 ->
      exists stats : gmap string value,
        fst (get_stats self world) = Ok (Some stats) /\
        stats !! "usage_percentage" = Some (VNum (Int 0))) /\
  usage_percentage 75 150 = Ok (Float (PyFloat.of_int 50)).
Proof.
  assert (Hpos : forall self world rows q,
             db world = Fetched rows ->
             r_max_connections rows > 0 ->
             PyFloat.truediv (r_threads_connected rows)
                             (r_max_connections rows) = Ok q ->
             exists stats : gmap string value,
               fst (get_stats self world) = Ok (Some stats) /\
               stats !! "usage_percentage" =
                 Some (VNum (Float (PyFloat.mul q (PyFloat.of_int 100))))).
  { intros self world rows q Hdb Hm Hq.
    apply (fetched_stats self world rows _ Hdb).
    unfold usage_percentage, percent. rewrite Hq.
    destruct (Z.gtb_spec (r_max_connections rows) 0); [reflexivity|lia]. }
  split; [exact Hpos|]. split; [|split]; [| |reflexivity].
  - intros self world rows Hdb Hc Hm.
    destruct (truediv_exact _ _ Hc Hm) as (q & Hq & _).
    exists q.
    destruct (Hpos self world rows q Hdb ltac:(lia) Hq) as (stats & H1 & H2).
    exists stats. auto.
  - intros self world rows Hdb Hm.
    apply (fetched_stats self world rows _ Hdb).
    unfold usage_percentage. now rewrite Hm.
Qed.

(** C7, on 75 connections of 150 and on a maximum of 0. *)
Lemma usage_percentage_of_fetch_witness :
  (exists stats : gmap string value,
     fst (get_stats init (sample_world (Fetched sample_rows) CommandFailed)) =
       Ok (Some stats) /\
     stats !! "usage_percentage" = Some (VNum (Float (PyFloat.of_int 50)))) /\
  (exists stats : gmap string value,
     fst (get_stats init (sample_world (Fetched zero_rows) CommandFailed)) =
       Ok (Some stats) /\
     stats !! "usage_percentage" = Some (VNum (Int 0))).
Proof.
  split.
  - exact (proj1 usage_percentage_of_fetch init
             (sample_world (Fetched sample_rows) CommandFailed) sample_rows
             (S754_finite false 4503599627370496 (-53))
             eq_refl eq_refl eq_refl).
  - exact (proj1 (proj2 (proj2 usage_percentage_of_fetch)) init
             (sample_world (Fetched zero_rows) CommandFailed) zero_rows
             eq_refl eq_refl).
Defined.

(** ** Gauge fill *)

(** C8. The filled width of a gauge is [int] of the float (w * c) / m when
    m is positive; for w * c and m below 2^53 that is exactly the integer
    quotient of w * c by m, truncated; it is 0, with nothing raised, when m
    is 0; width 40 with 20 of 40 fills 20; and a current value of 0
    fills 0. *)
Theorem filled_width_truncates :
  (forall w c m : Z,
      m > 0 ->
      filled_width w c m = rbind (PyFloat.truediv (w * c) m) PyFloat.to_int) /\
  (forall w c m : Z,
      0 <= w * c < 2 ^ 53 ->
      0 < m < 2 ^ 53 ->
      filled_width w c m = Ok ((w * c) ÷ m)) /\
  (forall w c : Z, filled_width w c 0 = Ok 0) /\
  filled_width 40 20 40 = Ok 20 /\
  (forall w m : Z, filled_width w 0 m = Ok 0).
Proof.
  split; [|split; [|split; [|split]]].
  - intros w c m Hm. unfold filled_width.
    destruct (Z.gtb_spec m 0); [reflexivity|lia].
  - intros w c m Hwc Hm. unfold filled_width.
    destruct (Z.gtb_spec m 0); [|lia].
    destruct (truediv_exact _ _ Hwc Hm) as (f & -> & Hf).
    cbn [rbind]. rewrite Hf, Z.quot_div_nonneg by lia. reflexivity.
  - reflexivity.
  - reflexivity.
  - intros w m. unfold filled_width.
    destruct (Z.gtb_spec m 0); [|reflexivity].
    rewrite Z.mul_0_r, truediv_zero by lia. reflexivity.
Qed.

(** C8, on the gauge of 75 connections of 150. *)
Lemma filled_width_truncates_witness :
  filled_width 40 75 150 = Ok 20.
Proof.
  exact (proj1 (proj2 filled_width_truncates) 40 75 150
           ltac:(cbn; lia) ltac:(cbn; lia)).
Defined.

(** ** Drawing on a terminal that takes every write *)

Section Accepting.

Variable accepts : draw_op -> bool.
Hypothesis accepts_all : forall op, accepts op = true.

Lemma write_ok (op : draw_op) (s : screen) :
  write accepts op s = (Ok tt, s ++ [op]).
Proof. unfold write. now rewrite accepts_all. Qed.

Lemma for_rows_ok {A} (P : A -> Prop) (body : Z -> A -> draw Z)
      (row : Z -> A -> list draw_op) (l : list A) :
  (forall y a s, P a -> body y a s = (Ok (y + 1), s ++ row y a)) ->
  Forall P l ->
  forall y s,
    for_rows l y body s = (Ok (y + Z.of_nat (length l)), s ++ rows_ops row y l).
Proof.
  intros Hbody HP. induction HP as [|a l Ha HP IH]; intros y s.
  - cbn. now rewrite Z.add_0_r, app_nil_r.
  - cbn [for_rows rows_ops length]. unfold bind. rewrite Hbody, IH by exact Ha.
    rewrite app_assoc. do 2 f_equal. lia.
Qed.

Lemma for_each_ok {A} (body : A -> draw unit) (op : A -> draw_op)
      (l : list A) :
  (forall a s, body a s = (Ok tt, s ++ [op a])) ->
  forall s, for_each l body s = (Ok tt, s ++ map op l).
Proof.
  intros Hbody. induction l as [|a l IH]; intros s.
  - cbn. now rewrite app_nil_r.
  - cbn [for_each map]. unfold bind. rewrite Hbody, IH.
    now rewrite <- app_assoc.
Qed.

Lemma process_row_ok (start_x y : Z) (proc : process) (s : screen) :
  process_row accepts start_x y proc s =
    (Ok (y + 1), s ++ process_row_ops start_x y proc).
Proof.
  unfold process_row, bind, addstr, ret. rewrite !write_ok.
  unfold process_row_ops. now rewrite <- !app_assoc.
Qed.

Lemma draw_process_table_ok (start_y start_x : Z) (processes : list process)
      (s : screen) :
  processes <> [] ->
  draw_process_table accepts start_y start_x (Some processes) s =
    (Ok (start_y + 3 + Z.of_nat (length (take 6 processes)) + 1),
     s ++ process_heading_ops start_y start_x
       ++ rows_ops (process_row_ops start_x) (start_y + 3) (take 6 processes)).
Proof.
  intros Hne. unfold draw_process_table, bind, addstr, ret.
  rewrite !write_ok.
  destruct processes as [|p ps]; [contradiction|]. cbn [falsy default].
  rewrite (for_rows_ok (fun _ => True) _ (process_row_ops start_x));
    [|intros; apply process_row_ok|now apply Forall_forall].
  replace (start_y + 2 + 1) with (start_y + 3) by lia.
  unfold process_heading_ops. now rewrite <- !app_assoc.
Qed.

Lemma history_row_ok (start_x max_scale y : Z) (entry : history_entry)
      (s : screen) :
  is_ok (bar_length (connections entry) max_scale) = true ->
  history_row accepts start_x max_scale y entry s =
    (Ok (y + 1), s ++ history_row_ops start_x max_scale y entry).
Proof.
  intros Hok. unfold history_row, history_row_ops, bind, lift, addstr, ret.
  destruct (bar_length (connections entry) max_scale) as [b|e];
    [|discriminate].
  rewrite write_ok.
  rewrite (for_each_ok _
             (chart_cell start_x y b
                (if num_ltb (usage entry) 50 then green
                 else if num_ltb (usage entry) 80 then yellow else red))).
  - rewrite write_ok. now rewrite <- !app_assoc.
  - intros i s'. unfold chart_cell, addch.
    destruct (i <? b); apply write_ok.
Qed.

Lemma draw_history_chart_ok (self : monitor) (start_y start_x : Z)
      (s : screen) :
  (2 <= length (connection_history self))%nat ->
  Forall (fun e =>
            is_ok (bar_length (connections e)
                     (Z.max (max_val (last_n 10 (connection_history self))) 1))
            = true)
         (last_n 10 (connection_history self)) ->
  draw_history_chart accepts self start_y start_x s =
    (Ok (start_y + 2
         + Z.of_nat (length (last_n 10 (connection_history self))) + 1),
     s ++ history_heading_ops start_y start_x
       ++ rows_ops
            (history_row_ops start_x
               (Z.max (max_val (last_n 10 (connection_history self))) 1))
            (start_y + 2) (last_n 10 (connection_history self))).
Proof.
  intros Hlen Hbars. unfold draw_history_chart, bind, addstr, ret.
  rewrite !write_ok.
  destruct (Nat.ltb_spec (length (connection_history self)) 2) as [H|_];
    [lia|].
  rewrite (for_rows_ok _ _ _ _ (fun y a s' H =>
             history_row_ok start_x _ y a s' H) Hbars).
  unfold history_heading_ops. now rewrite <- !app_assoc.
Qed.

End Accepting.

(** ** The process table *)

Lemma process_rows_app (s t : screen) :
  process_rows (s ++ t) = (process_rows s + process_rows t)%nat.
Proof. unfold process_rows. now rewrite List.filter_app, length_app. Qed.

Lemma process_rows_of_rows (start_x : Z) (l : list process) (y : Z) :
  process_rows (rows_ops (process_row_ops start_x) y l) = length l.
Proof.
  revert y. induction l as [|p l IH]; intros y; [reflexivity|].
  cbn [rows_ops length]. rewrite process_rows_app, IH. reflexivity.
Qed.

(** C3, as the code has it. On a terminal that takes every write, the table
    of a non-empty process list shows the first six entries of the list, one
    row each and in the order of the list: min(n, 6) rows for n entries. *)
Theorem process_table_shows_first_six :
  forall (accepts : draw_op -> bool) (start_y start_x : Z)
         (processes : list process) (s : screen),
    (forall op, accepts op = true) ->
    processes <> [] ->
    draw_process_table accepts start_y start_x (Some processes) s =
      (Ok (start_y + 3 + Z.of_nat (Nat.min 6 (length processes)) + 1),
       s ++ process_heading_ops start_y start_x
         ++ rows_ops (process_row_ops start_x) (start_y + 3)
                     (take 6 processes)) /\
    process_rows (snd (draw_process_table accepts start_y start_x
                                          (Some processes) s)) =
      (process_rows s + Nat.min 6 (length processes))%nat.
Proof.
  intros accepts start_y start_x processes s Hacc Hne.
  rewrite (draw_process_table_ok accepts Hacc start_y start_x processes s Hne).
  rewrite length_take. split; [reflexivity|].
  cbn [snd]. rewrite !process_rows_app, process_rows_of_rows, length_take.
  cbn. lia.
Qed.

(** C3 as the code has it, on seven processes: six rows. *)
Lemma process_table_shows_first_six_witness :
  process_rows (snd (draw_process_table (fun _ => true) 0 0
                                        (Some seven_processes) [])) = 6%nat.
Proof.
  exact (proj2 (process_table_shows_first_six (fun _ => true) 0 0
                  seven_processes [] (fun _ => eq_refl)
                  ltac:(discriminate))).
Defined.

(** C3 as the claim has it fails: seven processes, within the eight the
    query returns and the longest running first, get six rows, not seven. *)
Lemma process_table_drops_seventh :
  (length seven_processes <= 8)%nat /\
  map p_Time seven_processes = [70; 60; 50; 40; 30; 20; 10] /\
  process_rows (snd (draw_process_table (fun _ => true) 0 0
                                        (Some seven_processes) [])) <>
    Nat.min (length seven_processes) 8.
Proof.
  split; [cbn; lia|]. split; [reflexivity|]. vm_compute. discriminate.
Qed.

(** ** The history chart *)

Lemma fold_left_max_ge (l : list Z) (a : Z) :
  a <= fold_left Z.max l a /\ Forall (fun x => x <= fold_left Z.max l a) l.
Proof.
  revert a. induction l as [|x l IH]; intros a; cbn [fold_left].
  - split; [lia|constructor].
  - destruct (IH (Z.max a x)) as [H1 H2]. split; [lia|].
    constructor; [lia|exact H2].
Qed.

Lemma max_val_ge (l : list history_entry) :
  Forall (fun e => connections e <= max_val l) l.
Proof.
  destruct l as [|h rest]; [constructor|]. cbn [max_val].
  destruct (fold_left_max_ge (map connections rest) (connections h)) as [H1 H2].
  constructor; [exact H1|].
  apply List.Forall_forall. intros e He.
  apply (proj1 (List.Forall_forall _ _) H2 (connections e)).
  now apply List.in_map.
Qed.

Lemma fold_left_max_in (l : list Z) (a : Z) :
  fold_left Z.max l a = a \/ In (fold_left Z.max l a) l.
Proof.
  revert a. induction l as [|x l IH]; intros a; cbn [fold_left].
  - now left.
  - destruct (IH (Z.max a x)) as [E|Hin].
    + rewrite E. destruct (Z.max_spec a x) as [[_ ->]|[_ ->]];
        [right; now left|now left].
    + right. now right.
Qed.

Lemma max_val_attained (l : list history_entry) :
  l <> [] -> Exists (fun e => connections e = max_val l) l.
Proof.
  destruct l as [|h rest]; [contradiction|]. intros _. cbn [max_val].
  destruct (fold_left_max_in (map connections rest) (connections h))
    as [E|Hin].
  - apply Exists_cons_hd. now rewrite E.
  - apply Exists_cons_tl. apply List.in_map_iff in Hin as (e & He & Hin).
    apply List.Exists_exists. exists e. split; [exact Hin|exact He].
Qed.

Lemma rows_ops_ext {A} (f g : Z -> A -> list draw_op) (l : list A) :
  Forall (fun a => forall y, f y a = g y a) l ->
  forall y, rows_ops f y l = rows_ops g y l.
Proof.
  induction 1 as [|a l Ha _ IH]; intros y; cbn [rows_ops];
    [reflexivity|]. now rewrite Ha, IH.
Qed.

Lemma history_row_scaled (start_x max_scale y : Z) (entry : history_entry) :
  0 <= connections entry <= max_scale -> 0 < max_scale < 2 ^ 47 ->
  history_row_ops start_x max_scale y entry =
    scaled_row_ops start_x max_scale y entry.
Proof.
  intros Hc Hm. unfold history_row_ops, scaled_row_ops.
  now rewrite bar_length_exact by lia.
Qed.

(** C10. While the history holds fewer than 2 entries the chart writes at
    most its title, its rule and the placeholder "Loading history...", and no
    bar cell, so a single entry is not charted. From 2 entries on, on a
    terminal that takes every write and for counts from 0 to below [2^47],
    it draws one row of 20 cells for each of the last 10 entries, in their
    order; the scale is the largest count among these entries, or 1 when
    that is larger, and of the 20 cells of an entry the first
    [20 * count / scale] are filled, in integers. *)
Theorem history_chart_needs_two_entries :
  (forall (accepts : draw_op -> bool) (self : monitor) (start_y start_x : Z)
          (s : screen),
      (length (connection_history self) < 2)%nat ->
      exists ops : list draw_op,
        snd (draw_history_chart accepts self start_y start_x s) = s ++ ops /\
        ops `prefix_of`
          (history_heading_ops start_y start_x ++ [loading_op start_y start_x]) /\
        Forall (fun op => is_bar op = false) ops /\
        ((forall op, accepts op = true) ->
         fst (draw_history_chart accepts self start_y start_x s) =
           Ok (start_y + 4) /\
         ops = history_heading_ops start_y start_x
                 ++ [loading_op start_y start_x])) /\
  (forall (accepts : draw_op -> bool) (self : monitor) (start_y start_x : Z)
          (s : screen),
      let history := connection_history self in
      let recent := drop (length history - 10) history in
      (2 <= length history)%nat ->
      (forall op, accepts op = true) ->
      Forall (fun e => 0 <= connections e < 2 ^ 47) recent ->
      exists max_scale : Z,
        1 <= max_scale /\
        Forall (fun e => connections e <= max_scale) recent /\
        (max_scale = 1 \/
         Exists (fun e => connections e = max_scale) recent) /\
        length recent = Nat.min 10 (length history) /\
        draw_history_chart accepts self start_y start_x s =
          (Ok (start_y + 2 + Z.of_nat (length recent) + 1),
           s ++ history_heading_ops start_y start_x
             ++ rows_ops (scaled_row_ops start_x max_scale) (start_y + 2)
                         recent)).
Proof.
  split.
  - intros accepts self start_y start_x s Hlen.
    unfold draw_history_chart, bind, addstr, write, ret.
    destruct (Nat.ltb_spec (length (connection_history self)) 2) as [_|H];
      [|lia].
    unfold history_heading_ops, loading_op. cbn [app].
    destruct (accepts (AddStr start_y _ _ _)) eqn:E1;
      [destruct (accepts (AddStr (start_y + 1) _ _ _)) eqn:E2;
       [destruct (accepts (AddStr (start_y + 2) _ _ _)) eqn:E3|]|];
      cbn [fst snd]; rewrite <- ?app_assoc; cbn [app].
    + eexists. split; [reflexivity|]. split; [reflexivity|].
      split; [repeat constructor|]. auto.
    + eexists. split; [reflexivity|]. split; [eexists; reflexivity|].
      split; [repeat constructor|]. intros Hacc. rewrite Hacc in E3.
      discriminate.
    + eexists. split; [reflexivity|]. split; [eexists; reflexivity|].
      split; [repeat constructor|]. intros Hacc. rewrite Hacc in E2.
      discriminate.
    + exists []. split; [now rewrite app_nil_r|].
      split; [eexists; reflexivity|].
      split; [constructor|]. intros Hacc. rewrite Hacc in E1. discriminate.
  - intros accepts self start_y start_x s history recent Hlen Hacc Hrange.
    change recent with (last_n 10 (connection_history self)) in *.
    set (recent' := last_n 10 (connection_history self)) in *.
    set (max_scale := Z.max (max_val recent') 1).
    assert (Hlen' : length recent' = Nat.min 10 (length history)).
    { unfold recent', last_n. rewrite length_drop. fold history. lia. }
    assert (Hne : recent' <> []).
    { intros E. apply (f_equal length) in E. rewrite Hlen' in E.
      cbn [length] in E. lia. }
    pose proof (max_val_attained recent' Hne) as Hatt.
    pose proof (max_val_ge recent') as Hge.
    assert (Hmax : max_val recent' < 2 ^ 47).
    { apply List.Exists_exists in Hatt as (e & Hin & <-).
      apply (proj1 (List.Forall_forall _ _) Hrange e Hin). }
    assert (Hrows : Forall (fun e => 0 <= connections e <= max_scale) recent').
    { apply List.Forall_forall. intros e Hin.
      pose proof (proj1 (List.Forall_forall _ _) Hrange e Hin).
      pose proof (proj1 (List.Forall_forall _ _) Hge e Hin).
      unfold max_scale. cbn beta in *. lia. }
    exists max_scale.
    split; [unfold max_scale; lia|].
    split; [eapply Forall_impl; [exact Hrows|]; cbn; intros; lia|].
    split.
    { destruct (Z_le_dec (max_val recent') 1) as [Hle|Hgt].
      - left. unfold max_scale. lia.
      - right. replace max_scale with (max_val recent')
          by (unfold max_scale; lia).
        exact Hatt. }
    split; [exact Hlen'|].
    rewrite (draw_history_chart_ok accepts Hacc self start_y start_x s Hlen).
    + fold recent' max_scale. do 3 f_equal.
      apply rows_ops_ext. eapply Forall_impl; [exact Hrows|].
      intros e He y. apply history_row_scaled; [exact He|].
      unfold max_scale. lia.
    + fold recent' max_scale. eapply Forall_impl; [exact Hrows|].
      intros e He. cbn beta in *.
      rewrite bar_length_exact; [reflexivity|lia|lia|].
      unfold max_scale. lia.
Qed.

(** C10, on a history of one entry and on the history of three entries with
    10, 50 and 25 connections: the scale is 50, and the bars have 4, 20 and
    10 filled cells. *)
Lemma history_chart_needs_two_entries_witness :
  (exists ops : list draw_op,
     snd (draw_history_chart (fun _ => true)
            (with_history (take 1 three_entries)) 14 62 []) = [] ++ ops /\
     Forall (fun op => is_bar op = false) ops) /\
  draw_history_chart (fun _ => true) (with_history three_entries) 14 62 [] =
    (Ok 20,
     [] ++ history_heading_ops 14 62
        ++ rows_ops (scaled_row_ops 62 50) 16 three_entries).
Proof.
  split.
  - destruct (proj1 history_chart_needs_two_entries (fun _ => true)
                (with_history (take 1 three_entries)) 14 62 []
                ltac:(cbn; lia)) as (ops & H1 & _ & H3 & _).
    exists ops. split; [exact H1|exact H3].
  - destruct (proj2 history_chart_needs_two_entries (fun _ => true)
                (with_history three_entries) 14 62 []
                ltac:(cbn; lia) (fun _ => eq_refl)
                ltac:(repeat constructor; cbn; lia))
      as (max_scale & _ & H2 & H3 & _ & H5).
    assert (E : max_scale = 50).
    { assert (H50 : 50 <= max_scale).
      { apply (proj1 (List.Forall_forall _ _) H2
                 {| timestamp := 2; connections := 50;
                    usage := Float (PyFloat.of_int 50) |}).
        cbn. auto. }
      destruct H3 as [->|H3]; [lia|].
      apply List.Exists_exists in H3 as (e & Hin & He).
      cbn in Hin. destruct Hin as [<-|[<-|[<-|[]]]]; cbn in He; lia. }
    rewrite E in H5. exact H5.
Defined.

(** ** The gauges *)

Lemma bind_raises {A B} (m : draw A) (k : A -> draw B) (s : screen) :
  (forall a s', exists e, fst (k a s') = Raise e) ->
  exists e, fst (bind m k s) = Raise e.
Proof.
  intros Hk. unfold bind. destruct (m s) as [[a|e] s']; [apply Hk|].
  now exists e.
Qed.

Lemma with_php_fpm_lookup (world : poll) (base stats : gmap string value)
      (key : string) :
  with_php_fpm world base = Some stats ->
  key <> "php_fpm_connections" ->
  stats !! key = base !! key.
Proof.
  unfold with_php_fpm. intros H Hkey.
  destruct (get_php_fpm_connections world =? -1);
    destruct (bool_decide _); try discriminate;
    injection H as <-; [reflexivity|].
  now rewrite lookup_insert_ne by congruence.
Qed.

Lemma fetched_threads_running (self : monitor) (world : poll) (rows : db_rows)
      (stats : gmap string value) :
  db world = Fetched rows ->
  fst (get_stats self world) = Ok (Some stats) ->
  stats !! "threads_running" = Some (VNum (Int (r_threads_running rows))).
Proof.
  unfold get_stats. intros -> H.
  destruct (usage_percentage _ _) as [u|e]; [|discriminate].
  cbn [fst] in H. injection H as H.
  rewrite (with_php_fpm_lookup _ _ _ "threads_running" H) by done.
  rewrite lookup_union_l by apply lookup_empty.
  unfold db_stats. now rewrite !lookup_insert_ne, lookup_insert_eq by done.
Qed.

(** C2, as the code behaves. Whenever the database statistics are in the
    snapshot, drawing the dashboard raises, on every terminal: the gauge of
    the running threads is drawn through [draw_program_bar], which the class
    does not have. On a terminal that takes every write the exception is the
    [AttributeError], raised after the first gauge and before any table. *)
Theorem thread_gauge_raises :
  (forall (accepts : draw_op -> bool) (self : monitor) (world : poll)
          (rows : db_rows) (stats : gmap string value) (h w : Z) (t : time)
          (s : screen),
      db world = Fetched rows ->
      fst (get_stats self world) = Ok (Some stats) ->
      exists e,
        fst (draw_dashboard accepts (snd (get_stats self world)) h w t
                            (Some stats) s) = Raise e) /\
  (exists stats : gmap string value,
      fst (get_stats init (sample_world (Fetched sample_rows) (Counted 4))) =
        Ok (Some stats) /\
      fst (draw_dashboard (fun _ => true)
             (snd (get_stats init
                     (sample_world (Fetched sample_rows) (Counted 4))))
             40 120 3 (Some stats) []) =
        Raise (AttributeError "draw_program_bar")).
Proof.
  split.
  - intros accepts self world rows stats h w t s Hdb Hstats.
    pose proof (fetched_threads_running self world rows stats Hdb Hstats) as Ht.
    unfold draw_dashboard. apply bind_raises. intros _ s0.
    unfold no_stats. rewrite bool_decide_eq_false_2;
      [|intros E; rewrite E, lookup_empty in Ht; discriminate].
    cbv zeta. cbn [from_option]. unfold id.
    do 4 (apply bind_raises; intros).
    rewrite Ht. now eexists.
  - eexists. split; [reflexivity|]. vm_compute. reflexivity.
Qed.

(** C2 as the code behaves, on 75 connections of 150 and 3 running threads. *)
Lemma thread_gauge_raises_witness :
  exists e,
    fst (draw_dashboard (fun _ => true)
           (snd (get_stats init
                   (sample_world (Fetched sample_rows) (Counted 4))))
           40 120 3
           (Some (snapshot_of init
                    (sample_world (Fetched sample_rows) (Counted 4)))) []) =
      Raise e.
Proof.
  apply (proj1 thread_gauge_raises (fun _ => true) init
           (sample_world (Fetched sample_rows) (Counted 4)) sample_rows).
  - reflexivity.
  - reflexivity.
Defined.

(** ** The wait between two polls *)

Lemma wait_quit (n : nat) (st st1 : run_state) (k : Z) :
  getch st = (k, st1) -> is_quit k = true -> wait (S n) st = stopped st1.
Proof. intros Hg Hq. cbn [wait]. now rewrite Hg, Hq. Qed.

Lemma run_loop_stopped (accepts : draw_op -> bool) (str : exn -> string)
      (world : nat -> poll) (fuel i : nat) (st : run_state) :
  run_loop accepts str world fuel i (stopped st) = Some (Ok tt, stopped st).
Proof. destruct fuel; reflexivity. Qed.

Lemma wait_observes (n : nat) :
  forall (st : run_state) (k : keypress) (rest : list keypress),
    pending st = k :: rest ->
    is_quit (key k) = true ->
    clock st < pressed_at k + 100 ->
    pressed_at k <= clock st + 200 * Z.of_nat n - 100 ->
    is_running (self_of (wait n st)) = false /\
    pending (wait n st) = rest /\
    pressed_at k <= clock (wait n st) < pressed_at k + 100.
Proof.
  induction n as [|n IH]; intros st k rest Hp Hq Hlo Hhi; [lia|].
  cbn [wait]. unfold getch. rewrite Hp.
  destruct (Z.leb_spec (pressed_at k) (clock st + 100)) as [Hnow|Hlater].
  - rewrite Hq. cbn. repeat split; lia.
  - cbn [is_quit Z.eqb orb]. apply (IH _ k rest).
    + exact Hp.
    + exact Hq.
    + cbn. lia.
    + cbn. lia.
Qed.

(** The wait without a key: 50 polls of 100 ms and 50 sleeps of 100 ms. *)
Lemma wait_idle (n : nat) (st : run_state) :
  pending st = [] -> wait n st = sleep (200 * Z.of_nat n) st.
Proof.
  revert st. induction n as [|n IH]; intros st Hp.
  - destruct st. unfold sleep. cbn. f_equal. lia.
  - cbn [wait]. unfold getch. rewrite Hp. cbn [is_quit Z.eqb orb].
    rewrite IH by exact Hp. destruct st. unfold sleep. cbn. f_equal. lia.
Qed.

(** C9. At whichever step of the wait [getch] returns [q] or [Q], the wait
    ends there: [is_running] is cleared, no sleep and no further poll
    follows, the clock stands where the key was read, and the main loop
    returns without another pass. Every step of the wait starts with that
    poll, so a quit key typed during the first 5 seconds of the wait, with no
    other key unread before it, stops the loop at most 100 ms after it was
    typed, which is within 150 ms. *)
Theorem quit_ends_the_wait :
  (forall (st st1 : run_state) (k : Z) (n : nat),
      getch st = (k, st1) ->
      is_quit k = true ->
      wait (S n) st = stopped st1 /\
      is_running (self_of (wait (S n) st)) = false /\
      clock (wait (S n) st) = clock st1 /\
      forall (accepts : draw_op -> bool) (str : exn -> string)
             (world : nat -> poll) (fuel i : nat),
        run_loop accepts str world fuel i (wait (S n) st) =
          Some (Ok tt, wait (S n) st)) /\
  (forall (st : run_state) (k : keypress) (rest : list keypress),
      pending st = k :: rest ->
      is_quit (key k) = true ->
      clock st <= pressed_at k <= clock st + 5000 ->
      is_running (self_of (wait 50 st)) = false /\
      pressed_at k <= clock (wait 50 st) <= pressed_at k + 100 /\
      clock (wait 50 st) - pressed_at k <= 150 /\
      forall (accepts : draw_op -> bool) (str : exn -> string)
             (world : nat -> poll) (fuel i : nat),
        run_loop accepts str world fuel i (wait 50 st) =
          Some (Ok tt, wait 50 st)).
Proof.
  split.
  - intros st st1 k n Hg Hq. rewrite (wait_quit n st st1 k Hg Hq).
    repeat split. intros. apply run_loop_stopped.
  - intros st k rest Hp Hq Ht.
    destruct (wait_observes 50 st k rest Hp Hq) as (Hr & _ & Hc); [lia|lia|].
    repeat split; try lia; [exact Hr|].
    intros accepts str world fuel i.
    destruct fuel; cbn [run_loop]; now rewrite Hr.
Qed.

(** C9, on a wait that starts at 1000 ms with [q] typed at 2345 ms. *)
Lemma quit_ends_the_wait_witness :
  is_running (self_of (wait 50 waiting_run)) = false /\
  2345 <= clock (wait 50 waiting_run) <= 2345 + 100.
Proof.
  destruct (proj2 quit_ends_the_wait waiting_run
              {| pressed_at := 2345; key := 113 |} []
              eq_refl eq_refl ltac:(cbn; lia)) as (H1 & H2 & _).
  split; [exact H1|exact H2].
Defined.


(** * Further properties of the sampler *)

Lemma db_stats_timestamp (self : monitor) (world : poll) (rows : db_rows)
      (u : number) :
  (db_stats self world rows u ∪ ∅) !! "timestamp" =
    Some (VTime (stats_time world)).
Proof.
  rewrite lookup_union_l by apply lookup_empty.
  unfold db_stats. now rewrite !lookup_insert_ne, lookup_insert_eq by done.
Qed.

Lemma db_stats_not_empty (self : monitor) (world : poll) (rows : db_rows)
      (u : number) :
  db_stats self world rows u ∪ ∅ <> ∅.
Proof.
  intros E. pose proof (db_stats_timestamp self world rows u) as H.
  rewrite E, lookup_empty in H. discriminate.
Qed.

Lemma with_php_fpm_some (world : poll) (base : gmap string value) :
  base <> ∅ -> exists stats, with_php_fpm world base = Some stats.
Proof.
  intros Hne. unfold with_php_fpm.
  destruct (get_php_fpm_connections world =? -1).
  - rewrite bool_decide_eq_false_2 by exact Hne. eauto.
  - rewrite bool_decide_eq_false_2 by apply insert_non_empty. eauto.
Qed.

Lemma with_php_fpm_none (world : poll) :
  with_php_fpm world ∅ = None <-> get_php_fpm_connections world = -1.
Proof.
  unfold with_php_fpm.
  destruct (Z.eqb_spec (get_php_fpm_connections world) (-1)) as [E|NE].
  - rewrite bool_decide_eq_true_2 by reflexivity. tauto.
  - rewrite bool_decide_eq_false_2 by apply insert_non_empty.
    split; [discriminate|contradiction].
Qed.

(** X1. [get_stats] returns [None] exactly when the database failed and the
    process count is the error value -1; it never returns an empty
    dictionary. *)
Theorem get_stats_none_iff :
  forall (self : monitor) (world : poll),
    (fst (get_stats self world) = Ok None <->
     db_failed world /\ get_php_fpm_connections world = -1) /\
    fst (get_stats self world) <> Ok (Some ∅).
Proof.
  intros self world. unfold get_stats, db_failed.
  destruct (db world) as [|stored|rows]; cbn [fst].
  - split.
    + rewrite <- with_php_fpm_none. split; [intros H; split; [exact I|congruence]|].
      intros [_ H]. now rewrite H.
    + unfold with_php_fpm. destruct (_ =? _); case_bool_decide; congruence.
  - split.
    + rewrite <- with_php_fpm_none. split; [intros H; split; [exact I|congruence]|].
      intros [_ H]. now rewrite H.
    + unfold with_php_fpm. destruct (_ =? _); case_bool_decide; congruence.
  - destruct (usage_percentage _ _) as [u|e]; cbn [fst].
    + destruct (with_php_fpm_some world _
                  (db_stats_not_empty
                     (set_max_connections self (r_max_connections rows))
                     world rows u)) as [stats Hs].
      rewrite Hs. split; [split; [discriminate|tauto]|].
      intros E. assert (stats = ∅) by congruence. subst stats.
      pose proof (with_php_fpm_lookup _ _ _ "timestamp" Hs ltac:(done)) as H.
      rewrite db_stats_timestamp, lookup_empty in H. discriminate.
    + split; [split; [discriminate|tauto]|discriminate].
Qed.

Lemma db_stats_lookups (self : monitor) (world : poll) (rows : db_rows)
      (u : number) (stats : gmap string value) :
  with_php_fpm world (db_stats self world rows u ∪ ∅) = Some stats ->
  stats !! "max_connections" = Some (VNum (Int (max_connections self))) /\
  stats !! "current_connections" =
    Some (VNum (Int (r_threads_connected rows))) /\
  stats !! "threads_running" = Some (VNum (Int (r_threads_running rows))) /\
  stats !! "max_used_connections" =
    Some (VNum (Int (r_max_used_connections rows))) /\
  stats !! "aborted_connects" = Some (VNum (Int (r_aborted_connects rows))) /\
  stats !! "active_processes" = Some (VProcesses (r_active_processes rows)) /\
  stats !! "user_connections" = Some (VUsers (r_user_connections rows)) /\
  stats !! "usage_percentage" = Some (VNum u) /\
  stats !! "timestamp" = Some (VTime (stats_time world)).
Proof.
  intros H.
  repeat split;
    (rewrite (with_php_fpm_lookup _ _ _ _ H) by done;
     rewrite lookup_union_l by apply lookup_empty;
     unfold db_stats;
     now rewrite ?lookup_insert_ne, lookup_insert_eq by done).
Qed.

(** X2. A fetch whose usage percentage can be computed fills the snapshot
    with what the queries returned, under the nine keys of the database
    statistics; it stores the maximum in the object, appends one entry with
    the current connections and that percentage to the history, and leaves
    [is_running] and the PHP-FPM capacity alone. The process count is in the
    snapshot exactly when it is not -1. *)
Theorem fetch_fills_snapshot :
  forall (self : monitor) (world : poll) (rows : db_rows) (u : number),
    db world = Fetched rows ->
    usage_percentage (r_threads_connected rows) (r_max_connections rows) = Ok u ->
    exists stats : gmap string value,
      fst (get_stats self world) = Ok (Some stats) /\
      stats !! "max_connections" = Some (VNum (Int (r_max_connections rows))) /\
      stats !! "current_connections" =
        Some (VNum (Int (r_threads_connected rows))) /\
      stats !! "threads_running" = Some (VNum (Int (r_threads_running rows))) /\
      stats !! "max_used_connections" =
        Some (VNum (Int (r_max_used_connections rows))) /\
      stats !! "aborted_connects" =
        Some (VNum (Int (r_aborted_connects rows))) /\
      stats !! "active_processes" =
        Some (VProcesses (r_active_processes rows)) /\
      stats !! "user_connections" = Some (VUsers (r_user_connections rows)) /\
      stats !! "usage_percentage" = Some (VNum u) /\
      stats !! "timestamp" = Some (VTime (stats_time world)) /\
      stats !! "php_fpm_connections" =
        (if get_php_fpm_connections world =? -1 then None
         else Some (VNum (Int (get_php_fpm_connections world)))) /\
      snd (get_stats self world) =
        {| connection_history :=
             deque_append (connection_history self)
               {| timestamp := history_time world;
                  connections := r_threads_connected rows;
                  usage := u |};
           max_connections := r_max_connections rows;
           max_php_fpm_connections := max_php_fpm_connections self;
           is_running := is_running self |}.
Proof.
  intros self world rows u Hdb Hu. unfold get_stats. rewrite Hdb.
  cbn [max_connections set_max_connections]. rewrite Hu. cbn [fst snd].
  destruct (with_php_fpm_some world _
              (db_stats_not_empty
                 (set_max_connections self (r_max_connections rows))
                 world rows u)) as [stats Hs].
  exists stats. rewrite Hs. split; [reflexivity|].
  pose proof (db_stats_lookups _ _ _ _ _ Hs) as L.
  cbn [max_connections set_max_connections] in L.
  destruct L as (L1 & L2 & L3 & L4 & L5 & L6 & L7 & L8 & L9).
  repeat (split; [assumption|]).
  split; [|reflexivity].
  revert Hs. unfold with_php_fpm.
  destruct (get_php_fpm_connections world =? -1);
    case_bool_decide; intros Hs; try discriminate;
    apply (inj Some) in Hs; subst stats.
  - rewrite lookup_union_l by apply lookup_empty.
    unfold db_stats. now rewrite !lookup_insert_ne by done.
  - apply lookup_insert_eq.
Qed.

(** X2, on 75 connections of 150 and four PHP-FPM processes. *)
Lemma fetch_fills_snapshot_witness :
  exists stats : gmap string value,
    fst (get_stats init (sample_world (Fetched sample_rows) (Counted 4))) =
      Ok (Some stats) /\
    stats !! "current_connections" = Some (VNum (Int 75)) /\
    stats !! "php_fpm_connections" = Some (VNum (Int 4)).
Proof.
  destruct (fetch_fills_snapshot init
              (sample_world (Fetched sample_rows) (Counted 4)) sample_rows
              (Float (PyFloat.of_int 50)) eq_refl eq_refl)
    as (stats & H & _ & H2 & _ & _ & _ & _ & _ & _ & _ & H11 & _).
  exists stats. repeat split; assumption.
Defined.

Lemma get_stats_sampled (self : monitor) (world : poll) :
  connection_history (snd (get_stats self world)) =
    match sampled world with
    | Some e => deque_append (connection_history self) e
    | None => connection_history self
    end.
Proof.
  unfold get_stats, sampled. destruct (db world) as [|[v|]|rows]; try reflexivity.
  cbn [max_connections set_max_connections].
  destruct (usage_percentage _ _); reflexivity.
Qed.

Lemma polls_history (worlds : list poll) (self : monitor) :
  connection_history (polls self worlds) =
    fold_left deque_append (omap sampled worlds) (connection_history self).
Proof.
  unfold polls. revert self.
  induction worlds as [|w worlds IH]; intros self; [reflexivity|].
  cbn [fold_left omap list_omap]. rewrite IH, get_stats_sampled.
  destruct (sampled w); reflexivity.
Qed.

(** X3. After any series of polls of a fresh monitor the history is the last
    30 of the samples taken by the polls that fetched, oldest first: a poll in
    which the database fails adds no entry and removes none. *)
Theorem history_is_last_samples :
  forall worlds : list poll,
    connection_history (polls init worlds) = last_n 30 (omap sampled worlds).
Proof.
  intros worlds. rewrite polls_history. apply pushes_last_n.
Qed.

(** * Further properties of the renderer *)

(** X4. The statistics table and the gauge classify a usage percentage
    alike: for every number, the colour of the current connections in the
    table is the colour of the gauge, and the label is the gauge's label,
    but for the exclamation mark the gauge adds to the last tier. *)
Theorem table_and_gauge_agree :
  forall p : number,
    fst (current_phase p) = phase_color (progress_phase p) /\
    (status_en (progress_phase p) <> "DANGER" ->
     snd (current_phase p) = status (progress_phase p)) /\
    (status_en (progress_phase p) = "DANGER" ->
     snd (current_phase p) +:+ "!" = status (progress_phase p)).
Proof.
  intros p. unfold current_phase, progress_phase.
  destruct (num_ltb p 30); [|destruct (num_ltb p 50);
    [|destruct (num_ltb p 70); [|destruct (num_ltb p 85);
      [|destruct (num_ltb p 95)]]]];
    cbn [fst snd phase_color status status_en];
    (split; [reflexivity|split; intros H;
       first [reflexivity|discriminate|exfalso; apply H; reflexivity]]).
Qed.

(** X4, on 90 percent. *)
Lemma table_and_gauge_agree_witness :
  snd (current_phase (Float (PyFloat.of_int 90))) =
    status (progress_phase (Float (PyFloat.of_int 90))).
Proof.
  apply (proj1 (proj2 (table_and_gauge_agree (Float (PyFloat.of_int 90))))).
  discriminate.
Defined.

(** ** Cells of fixed width *)

Lemma py_len_nonneg (s : string) : 0 <= py_len s.
Proof.
  induction s as [|c s IH]; cbn [py_len]; [lia|].
  destruct (is_continuation c); lia.
Qed.

Lemma py_len_app (s t : string) : py_len (s +:+ t) = py_len s + py_len t.
Proof.
  induction s as [|c s IH]; [reflexivity|].
  change (String c s +:+ t) with (String c (s +:+ t)).
  cbn [py_len]. rewrite IH. lia.
Qed.

Lemma py_len_spaces (n : nat) : py_len (spaces n) = Z.of_nat n.
Proof.
  induction n as [|n IH]; [reflexivity|].
  cbn [spaces py_len]. rewrite IH.
  change (is_continuation " ") with false. lia.
Qed.

Lemma py_len_take (n : nat) (s : string) :
  py_len (py_take n s) = Z.min (Z.of_nat n) (py_len s).
Proof.
  revert n. induction s as [|c s IH]; intros n; cbn [py_take py_len].
  - lia.
  - pose proof (py_len_nonneg s) as Hs.
    destruct (is_continuation c) eqn:E.
    + cbn [py_len]. rewrite E, IH. lia.
    + destruct n as [|n]; cbn [py_len]; [lia|]. rewrite E, IH. lia.
Qed.

Lemma py_take_all (n : nat) (s : string) :
  py_len s <= Z.of_nat n -> py_take n s = s.
Proof.
  revert n. induction s as [|c s IH]; intros n H; cbn [py_take py_len] in *;
    [reflexivity|].
  pose proof (py_len_nonneg s) as Hs.
  destruct (is_continuation c).
  - f_equal. apply IH. lia.
  - destruct n as [|n]; [lia|]. f_equal. apply IH. lia.
Qed.

Lemma py_len_ljust (w : Z) (s : string) :
  py_len (ljust w s) = Z.max w (py_len s).
Proof.
  unfold ljust. rewrite py_len_app, py_len_spaces.
  pose proof (py_len_nonneg s). lia.
Qed.

Lemma cell_width (w : Z) (n : nat) (s : string) :
  Z.of_nat n <= w -> py_len (ljust w (py_take n s)) = w.
Proof.
  intros H. rewrite py_len_ljust, py_len_take.
  pose proof (py_len_nonneg s). lia.
Qed.

(** X5. Whatever a process row holds in its user, host, database and
    command columns (NULL, an empty string, a long or a non-ASCII string),
    its four text cells are 12, 18, 10 and 10 characters wide, so the columns
    stay aligned; a NULL or empty value shows as N/A, and a value of at most
    11, 17, 9 and 9 characters is shown whole. *)
Theorem process_cells_have_fixed_width :
  forall proc : process,
    (py_len (ljust 12 (py_take 11 (or_na (p_User proc)))) = 12 /\
     py_len (ljust 18 (py_take 17 (or_na (p_Host proc)))) = 18 /\
     py_len (ljust 10 (py_take 9 (or_na (p_db proc)))) = 10 /\
     py_len (ljust 10 (py_take 9 (or_na (p_Command proc)))) = 10) /\
    (forall (n : nat) (w : Z) (v : option string),
        py_len (or_na v) <= Z.of_nat n ->
        ljust w (py_take n (or_na v)) =
          or_na v +:+ spaces (Z.to_nat (w - py_len (or_na v)))) /\
    or_na None = "N/A" /\ or_na (Some EmptyString) = "N/A".
Proof.
  intros proc. split; [|split; [|split; reflexivity]].
  - repeat split; apply cell_width; vm_compute; discriminate.
  - intros n w v H. rewrite (py_take_all n _ H). reflexivity.
Qed.

(** X5, on a user name of four characters. *)
Lemma process_cells_have_fixed_width_witness :
  ljust 12 (py_take 11 (or_na (Some "root"))) = "root        ".
Proof.
  exact (proj1 (proj2 (process_cells_have_fixed_width
                         {| p_User := None; p_Host := None; p_db := None;
                            p_Command := None; p_Time := 0;
                            p_State := None |}))
           11%nat 12 (Some "root") ltac:(vm_compute; discriminate)).
Defined.


(** * Further properties of the event loop *)

Lemma handler_escapes (accepts : draw_op -> bool) (str : exn -> string)
      (e : exn) (w : poll) (st : run_state) (e' : exn) (st' : run_state) :
  handler accepts str e w st = (Escaped e', st') ->
  e' = CursesError /\ accepts (error_line str w e) = false.
Proof.
  unfold handler, bind, clear, refresh, addstr, write, error_line.
  destruct e; try discriminate;
    destruct (accepts _); cbn; intros H; split; congruence.
Qed.

Lemma iteration_escapes (accepts : draw_op -> bool)
      (str : exn -> string) (world : nat -> poll) (n : nat)
      (st : run_state) (e : exn) (st' : run_state) :
  iteration accepts str world n st = (Escaped e, st') ->
  e = CursesError /\
  exists e0 : exn, accepts (error_line str (world n) e0) = false.
Proof.
  unfold iteration. destruct (getch st) as [k st1].
  destruct (is_quit k); [discriminate|].
  destruct (get_stats (self_of st1) (world n)) as [[stats|e0] self'].
  - destruct (draw_dashboard _ _ _ _ _ _ _) as [[[]|e1] s1].
    + discriminate.
    + intros H. apply handler_escapes in H as [-> H]. eauto.
  - intros H. apply handler_escapes in H as [-> H]. eauto.
Qed.

Lemma run_loop_escapes (accepts : draw_op -> bool)
      (str : exn -> string) (world : nat -> poll) (fuel : nat) :
  forall (n : nat) (st : run_state) (e : exn) (st' : run_state),
    run_loop accepts str world fuel n st = Some (Raise e, st') ->
    e = CursesError /\
    exists (pass : nat) (e0 : exn),
      accepts (error_line str (world pass) e0) = false.
Proof.
  induction fuel as [|fuel IH]; intros n st e st'; cbn [run_loop];
    destruct (is_running (self_of st)); try discriminate.
  destruct (iteration accepts str world n st) as [[| |e0] st1] eqn:E.
  - apply IH.
  - discriminate.
  - intros H. assert (e0 = e) by congruence. subst e0.
    destruct (iteration_escapes _ _ _ _ _ _ _ E) as (-> & e0 & H0). eauto.
Qed.

(** X6. [run] returns 1 only for a failure of curses itself: the set-up or
    the clean-up of [curses.wrapper] raised, or [init_colors] or
    [curs_set(0)] before the loop raised, or the terminal refused the line of
    an error screen. No failure of the sampling or of the drawing of the
    dashboard gives this exit code: the loop answers it with the error
    screen. A set-up before the loop that raises ends the run at once with
    exit code 1, whatever is typed, and nothing is drawn. *)
Theorem exit_code_one_is_a_curses_failure :
  forall (accepts : draw_op -> bool) (str : exn -> string)
         (world : nat -> poll)
         (wrapper_enter init_colors curs_set wrapper_leave : result unit)
         (fuel : nat) (keys : list keypress),
    (run accepts str world wrapper_enter init_colors curs_set wrapper_leave
         fuel keys = Some (Ok 1) ->
     is_ok wrapper_enter = false \/ is_ok init_colors = false \/
     is_ok curs_set = false \/ is_ok wrapper_leave = false \/
     exists (pass : nat) (e : exn),
       accepts (error_line str (world pass) e) = false) /\
    (is_ok wrapper_enter = true -> is_ok init_colors = true ->
     is_ok curs_set = true -> is_ok wrapper_leave = true ->
     (forall op, accepts op = true) ->
     run accepts str world wrapper_enter init_colors curs_set wrapper_leave
         fuel keys <> Some (Ok 1)) /\
    (forall e : exn,
        e <> KeyboardInterrupt ->
        is_ok wrapper_enter = true -> is_ok wrapper_leave = true ->
        init_colors = Raise e \/
        (is_ok init_colors = true /\ curs_set = Raise e) ->
        run_curses accepts str world init_colors curs_set fuel keys =
          Some (Raise e, start keys) /\
        run accepts str world wrapper_enter init_colors curs_set wrapper_leave
            fuel keys = Some (Ok 1)).
Proof.
  intros accepts str world wrapper_enter init_colors curs_set wrapper_leave
         fuel keys.
  assert (Hcause :
    run accepts str world wrapper_enter init_colors curs_set wrapper_leave
        fuel keys = Some (Ok 1) ->
    is_ok wrapper_enter = false \/ is_ok init_colors = false \/
    is_ok curs_set = false \/ is_ok wrapper_leave = false \/
    exists (pass : nat) (e : exn),
      accepts (error_line str (world pass) e) = false).
  { unfold run, wrapper, run_curses.
    destruct wrapper_enter as [[]|e1]; [|auto].
    destruct init_colors as [[]|e2]; [|auto].
    destruct curs_set as [[]|e3]; [|auto 6].
    pose proof (run_loop_escapes accepts str world fuel 0 (start keys))
      as Hesc.
    destruct (run_loop accepts str world fuel 0 (start keys))
      as [[[[]|e] st]|]; [| |discriminate].
    - destruct wrapper_leave as [[]|e4]; [discriminate|auto 6].
    - destruct wrapper_leave as [[]|e4]; [|auto 6].
      destruct (Hesc e st eq_refl) as (_ & H). auto 6. }
  split; [exact Hcause|]. split.
  - intros H1 H2 H3 H4 Hacc Hrun.
    destruct (Hcause Hrun) as [H|[H|[H|[H|(pass & e & H)]]]];
      try congruence.
    all: rewrite Hacc in H; discriminate.
  - intros e He H1 H4 Hset. unfold run, wrapper, run_curses.
    destruct wrapper_enter as [[]|e1]; [|discriminate].
    destruct wrapper_leave as [[]|e4]; [|discriminate].
    destruct Hset as [->|[H2 ->]].
    + split; [reflexivity|]. destruct e; try reflexivity. contradiction.
    + destruct init_colors as [[]|e2]; [|discriminate].
      split; [reflexivity|]. destruct e; try reflexivity. contradiction.
Qed.

(** X6, on a terminal without colours, where [init_pair] raises
    [ValueError]. *)
Lemma exit_code_one_is_a_curses_failure_witness :
  run (fun _ => true) (fun _ => "error")
      (fun _ => sample_world ConnectFailed CommandFailed)
      (Ok tt) (Raise ValueError) (Ok tt) (Ok tt) 10 quit_at_once =
    Some (Ok 1).
Proof.
  exact (proj2 (proj2 (proj2 (exit_code_one_is_a_curses_failure
                                (fun _ => true) (fun _ => "error")
                                (fun _ => sample_world ConnectFailed
                                            CommandFailed)
                                (Ok tt) (Raise ValueError) (Ok tt) (Ok tt)
                                10 quit_at_once))
                 ValueError ltac:(discriminate) eq_refl eq_refl
                 (or_introl eq_refl))).
Defined.

Lemma getch_not_quit (st : run_state) :
  Forall (fun k => is_quit (key k) = false) (pending st) ->
  is_quit (fst (getch st)) = false /\
  self_of (snd (getch st)) = self_of st /\
  stdscr (snd (getch st)) = stdscr st /\
  clock st <= clock (snd (getch st)) <= clock st + 100 /\
  (pending st = [] -> clock (snd (getch st)) = clock st + 100 /\
                      pending (snd (getch st)) = []) /\
  pending (snd (getch st)) `suffix_of` pending st /\
  Forall (fun k => is_quit (key k) = false) (pending (snd (getch st))).
Proof.
  intros Hq. unfold getch. destruct (pending st) as [|k rest] eqn:Hp.
  - cbn. rewrite Hp. repeat split; try lia; try reflexivity; auto.
  - inversion Hq as [|? ? Hk Hrest]; subst.
    destruct (Z.leb_spec (pressed_at k) (clock st + 100)).
    + cbn. repeat split; try lia; try assumption; try discriminate.
      apply suffix_cons_r. reflexivity.
    + cbn. rewrite Hp. repeat split; try lia; try discriminate; auto.
Qed.

(** X7. A wait in which no unread key is [q] or [Q] runs its 50 steps to the
    end: the monitor stays running, nothing is drawn, and the clock advances
    by at least 100 ms and at most 200 ms a step, by exactly 200 ms a step
    when no key is typed at all. For the 50 steps of [run_curses] that is
    between 5 and 10 seconds, and 10 seconds when idle. *)
Theorem wait_without_quit_runs_out :
  forall (n : nat) (st : run_state),
    Forall (fun k => is_quit (key k) = false) (pending st) ->
    self_of (wait n st) = self_of st /\
    stdscr (wait n st) = stdscr st /\
    clock st + 100 * Z.of_nat n <= clock (wait n st)
      <= clock st + 200 * Z.of_nat n /\
    (pending st = [] -> clock (wait n st) = clock st + 200 * Z.of_nat n) /\
    pending (wait n st) `suffix_of` pending st.
Proof.
  induction n as [|n IH]; intros st Hq.
  - cbn [wait]. repeat split; try lia; try reflexivity.
  - cbn [wait].
    destruct (getch_not_quit st Hq) as (Hk & Hs & Hd & Hc & He & Hsuf & Hq').
    destruct (getch st) as [k st1]. cbn [fst snd] in *. rewrite Hk.
    destruct (IH (sleep 100 st1) Hq') as (I1 & I2 & I3 & I4 & I5).
    cbn [sleep self_of stdscr clock pending] in *.
    rewrite I1, I2, Hs, Hd. repeat split; try lia.
    + intros Hp. destruct (He Hp) as [Hc' Hp']. rewrite (I4 Hp'). lia.
    + etransitivity; eassumption.
Qed.

(** X7, on a wait that finds the key [a] unread. *)
Lemma wait_without_quit_runs_out_witness :
  is_running (self_of (wait 50 typing_run)) = true /\
  1000 + 5000 <= clock (wait 50 typing_run) <= 1000 + 10000.
Proof.
  destruct (wait_without_quit_runs_out 50 typing_run
              ltac:(repeat constructor)) as (H1 & _ & H3 & _).
  split; [rewrite H1; reflexivity|exact H3].
Defined.


(** * Further properties of the gauge *)

Lemma count_app (kind : draw_op -> bool) (s t : list draw_op) :
  count kind (s ++ t) = (count kind s + count kind t)%nat.
Proof. unfold count. now rewrite List.filter_app, length_app. Qed.

Lemma count_below (kind : draw_op -> bool) (g : Z -> draw_op) (fw : Z) :
  (forall i, kind (g i) = (i <? fw)) ->
  forall (n : nat) (m : Z),
    count kind (map g (seqZ m (Z.of_nat n))) =
      Z.to_nat (Z.min (Z.max (fw - m) 0) (Z.of_nat n)).
Proof.
  intros Hg. induction n as [|n IH]; intros m.
  - change (Z.of_nat 0) with 0. rewrite seqZ_nil by lia.
    unfold count. cbn [map List.filter length]. lia.
  - rewrite seqZ_cons by lia.
    replace (Z.pred (Z.of_nat (S n))) with (Z.of_nat n) by lia.
    cbn [map]. change (g m :: ?l) with ([g m] ++ l).
    rewrite count_app, IH. unfold count at 1. cbn [List.filter].
    rewrite Hg. destruct (Z.ltb_spec m fw); cbn [length]; lia.
Qed.

Lemma count_all (kind : draw_op -> bool) (g : Z -> draw_op) (l : list Z) :
  (forall i, kind (g i) = true) -> count kind (map g l) = length l.
Proof.
  intros Hg. induction l as [|i l IH]; [reflexivity|].
  cbn [map]. change (g i :: ?t) with ([g i] ++ t).
  rewrite count_app, IH. unfold count. cbn [List.filter]. now rewrite Hg.
Qed.

Lemma count_none (kind : draw_op -> bool) (g : Z -> draw_op) (l : list Z) :
  (forall i, kind (g i) = false) -> count kind (map g l) = 0%nat.
Proof.
  intros Hg. induction l as [|i l IH]; [reflexivity|].
  cbn [map]. change (g i :: ?t) with ([g i] ++ t).
  rewrite count_app, IH. unfold count. cbn [List.filter]. now rewrite Hg.
Qed.

Lemma write_accepted (accepts : draw_op -> bool) (op : draw_op) (s : screen) :
  accepts op = true -> write accepts op s = (Ok tt, s ++ [op]).
Proof. intros H. unfold write. now rewrite H. Qed.

Lemma range_length (w : Z) : length (range w) = Z.to_nat w.
Proof. unfold range. apply length_seqZ. Qed.

Lemma count_range (kind : draw_op -> bool) (g : Z -> draw_op) (fw w : Z) :
  (forall i, kind (g i) = (i <? fw)) ->
  count kind (map g (range w)) = Z.to_nat (Z.min (Z.max fw 0) w).
Proof.
  intros Hg. unfold range. destruct (Z_le_dec w 0) as [Hw|Hw].
  - rewrite seqZ_nil by lia. unfold count. cbn [map List.filter length]. lia.
  - replace w with (Z.of_nat (Z.to_nat w)) at 1 by lia.
    rewrite (count_below kind g fw Hg). lia.
Qed.

Lemma gauge_ops :
  forall (accepts : draw_op -> bool) (y x width current maximum : Z)
         (label : string) (percentage : number) (fill : Z),
    bar_percentage current maximum = Ok percentage ->
    filled_width width current maximum = Ok fill ->
    (forall op, op <> status_op y x percentage -> accepts op = true) ->
    exists ops : list draw_op,
      (forall s : screen,
          draw_progress_bar accepts y x width current maximum label s =
            (Ok (y + 1 + 3), s ++ ops)) /\
      count is_filled_cell ops = Z.to_nat (Z.min (Z.max fill 0) width) /\
      (count is_filled_cell ops + count is_empty_cell ops)%nat =
        Z.to_nat width /\
      head ops = Some (AddStr y x [Str label; Str ":"] (cyan, A_NORMAL)) /\
      Refresh ∉ ops.
Proof.
  intros accepts y x width current maximum label percentage fill
         Hpct Hfill Hacc.
  set (ph := progress_phase percentage).
  set (cell := fun i : Z =>
         if i <? fill
         then AddCh (y + 1) (x + 1 + i) "█" (phase_color ph, A_BOLD)
         else AddCh (y + 1) (x + 1 + i) "░" (white, A_NORMAL)).
  assert (Hcell : forall i s', (if i <? fill
                     then addch accepts (y + 1) (x + 1 + i) "█"
                                (phase_color ph, A_BOLD)
                     else addch accepts (y + 1) (x + 1 + i) "░"
                                (white, A_NORMAL)) s' =
                    (Ok tt, s' ++ [cell i])).
  { intros i s'. unfold cell, addch.
    destruct (i <? fill); apply write_accepted, Hacc; discriminate. }
  assert (Hother : forall y' x' t a,
             y' <> y + 1 + 1 -> accepts (AddStr y' x' t a) = true).
  { intros y' x' t a Hy. apply Hacc. unfold status_op. intros E.
    inversion E. contradiction. }
  exists ([AddStr y x [Str label; Str ":"] (cyan, A_NORMAL);
           AddStr y (x + 25) [Str "["; Str (status_en ph); Str "]"]
                  (phase_color ph, A_BOLD);
           AddCh (y + 1) x "[" (white, A_NORMAL)]
          ++ map cell (range width)
          ++ [AddCh (y + 1) (x + width + 1) "]" (white, A_NORMAL);
              AddStr (y + 1) (x + width + 3)
                     [Str " "; Fixed 5 1 percentage; Str "% ("; Comma current;
                      Str "/"; Comma maximum; Str ")"]
                     (phase_color ph, A_NORMAL)]
          ++ (if accepts (status_op y x percentage)
              then [status_op y x percentage] else [])).
  split; [|split; [|split; [|split; [reflexivity|]]]].
  4:{ rewrite !elem_of_app, list_elem_of_fmap.
      intros [H|[(i & H & _)|[H|H]]].
      - repeat (apply elem_of_cons in H as [H|H]; [discriminate H|]).
        now apply elem_of_nil in H.
      - unfold cell in H. destruct (i <? fill); discriminate H.
      - repeat (apply elem_of_cons in H as [H|H]; [discriminate H|]).
        now apply elem_of_nil in H.
      - destruct (accepts (status_op y x percentage));
          [apply elem_of_cons in H as [H|H]; [discriminate H|]|];
          now apply elem_of_nil in H. }
  - intros s. unfold draw_progress_bar, bind, lift, ret, except_curses.
    rewrite Hpct, Hfill. fold ph. unfold addstr at 1 2.
    rewrite !write_accepted by (apply Hother; lia).
    unfold addch at 1. rewrite write_accepted by (apply Hacc; discriminate).
    rewrite (for_each_ok _ cell (range width) Hcell).
    unfold addch at 1. rewrite write_accepted by (apply Hacc; discriminate).
    unfold addstr at 1. rewrite write_accepted by (apply Hother; lia).
    unfold addstr, write. fold (status_op y x percentage).
    change (AddStr (y + 1 + 1) (x + 2) [Str (status ph)]
                   (phase_color ph, A_BOLD))
      with (status_op y x percentage).
    destruct (accepts (status_op y x percentage));
      rewrite <- ?app_assoc; cbn [app]; rewrite ?app_nil_r; reflexivity.
  - rewrite !count_app.
    rewrite (count_range is_filled_cell cell fill width).
    + assert (count is_filled_cell
                (if accepts (status_op y x percentage)
                 then [status_op y x percentage] else []) = 0%nat)
        by (destruct (accepts _); reflexivity).
      change (count is_filled_cell
                (AddStr y x [Str label; Str ":"] (cyan, A_NORMAL)
                 :: AddStr y (x + 25) [Str "["; Str (status_en ph); Str "]"]
                      (phase_color ph, A_BOLD)
                 :: [AddCh (y + 1) x "[" (white, A_NORMAL)])) with 0%nat.
      change (count is_filled_cell
                (AddCh (y + 1) (x + width + 1) "]" (white, A_NORMAL)
                 :: [AddStr (y + 1) (x + width + 3)
                       [Str " "; Fixed 5 1 percentage; Str "% (";
                        Comma current; Str "/"; Comma maximum; Str ")"]
                       (phase_color ph, A_NORMAL)])) with 0%nat.
      lia.
    + intros i. unfold cell. destruct (i <? fill); reflexivity.
  - rewrite !count_app.
    assert (Hs1 : count is_filled_cell
                (if accepts (status_op y x percentage)
                 then [status_op y x percentage] else []) = 0%nat)
      by (destruct (accepts _); reflexivity).
    assert (Hs2 : count is_empty_cell
                (if accepts (status_op y x percentage)
                 then [status_op y x percentage] else []) = 0%nat)
      by (destruct (accepts _); reflexivity).
    rewrite Hs1, Hs2.
    assert (Hsum : (count is_filled_cell (map cell (range width))
                    + count is_empty_cell (map cell (range width)))%nat
                   = Z.to_nat width).
    { rewrite <- range_length. generalize (range width). intros l.
      induction l as [|i l IH]; [reflexivity|].
      cbn [map length]. change (cell i :: ?t) with ([cell i] ++ t).
      rewrite !count_app. unfold cell at 1 3.
      destruct (i <? fill); unfold count in *; cbn in *; lia. }
    change (count is_filled_cell
              (AddStr y x [Str label; Str ":"] (cyan, A_NORMAL)
               :: AddStr y (x + 25) [Str "["; Str (status_en ph); Str "]"]
                    (phase_color ph, A_BOLD)
               :: [AddCh (y + 1) x "[" (white, A_NORMAL)])) with 0%nat.
    change (count is_empty_cell
              (AddStr y x [Str label; Str ":"] (cyan, A_NORMAL)
               :: AddStr y (x + 25) [Str "["; Str (status_en ph); Str "]"]
                    (phase_color ph, A_BOLD)
               :: [AddCh (y + 1) x "[" (white, A_NORMAL)])) with 0%nat.
    change (count is_filled_cell
              (AddCh (y + 1) (x + width + 1) "]" (white, A_NORMAL)
               :: [AddStr (y + 1) (x + width + 3)
                     [Str " "; Fixed 5 1 percentage; Str "% (";
                      Comma current; Str "/"; Comma maximum; Str ")"]
                     (phase_color ph, A_NORMAL)])) with 0%nat.
    change (count is_empty_cell
              (AddCh (y + 1) (x + width + 1) "]" (white, A_NORMAL)
               :: [AddStr (y + 1) (x + width + 3)
                     [Str " "; Fixed 5 1 percentage; Str "% (";
                      Comma current; Str "/"; Comma maximum; Str ")"]
                     (phase_color ph, A_NORMAL)])) with 0%nat.
    lia.
Qed.

(** X8. A gauge whose percentage and fill can be computed is drawn to the
    end on every terminal that takes its writes, whether or not the terminal
    takes the line of the Thai label under it: the refusal of that one line is
    swallowed. The bar has exactly [width] cells, of which the first
    min(max(fill, 0), width) are filled: a value above the maximum fills the
    bar and writes nothing beyond it, a negative one fills nothing. The
    gauge returns the row three below its bar. *)
Theorem gauge_draws_clipped_bar :
  forall (accepts : draw_op -> bool) (y x width current maximum : Z)
         (label : string) (s : screen) (percentage : number) (fill : Z),
    bar_percentage current maximum = Ok percentage ->
    filled_width width current maximum = Ok fill ->
    (forall op, op <> status_op y x percentage -> accepts op = true) ->
    exists ops : list draw_op,
      draw_progress_bar accepts y x width current maximum label s =
        (Ok (y + 1 + 3), s ++ ops) /\
      count is_filled_cell ops = Z.to_nat (Z.min (Z.max fill 0) width) /\
      (count is_filled_cell ops + count is_empty_cell ops)%nat =
        Z.to_nat width.
Proof.
  intros accepts y x width current maximum label s percentage fill
         Hpct Hfill Hacc.
  destruct (gauge_ops accepts y x width current maximum label percentage fill
              Hpct Hfill Hacc) as (ops & E & C1 & C2 & _ & _).
  exists ops. auto.
Qed.

(** X8, on the gauge of 75 connections of 150. *)
Lemma gauge_draws_clipped_bar_witness :
  exists ops : list draw_op,
    draw_progress_bar (fun _ => true) 4 5 40 75 150 "MariaDB Connections" [] =
      (Ok 8, [] ++ ops) /\
    count is_filled_cell ops = 20%nat /\
    (count is_filled_cell ops + count is_empty_cell ops)%nat = 40%nat.
Proof.
  exact (gauge_draws_clipped_bar (fun _ => true) 4 5 40 75 150
           "MariaDB Connections" [] (Float (PyFloat.of_int 50)) 20
           eq_refl eq_refl (fun _ _ => eq_refl)).
Defined.


(** * Further properties of the tables and the dashboard *)

Lemma bind_ok {A B} (m : draw A) (k : A -> draw B) (s s' : screen) (a : A) :
  m s = (Ok a, s') -> bind m k s = k a s'.
Proof. intros H. unfold bind. now rewrite H. Qed.

Lemma bind_raise {A B} (m : draw A) (k : A -> draw B) (s s' : screen)
      (e : exn) :
  m s = (Raise e, s') -> bind m k s = (Raise e, s').
Proof. intros H. unfold bind. now rewrite H. Qed.

Section Tables.

Variable accepts : draw_op -> bool.
Hypothesis accepts_all : forall op, accepts op = true.

Lemma user_row_ok (start_x y : Z) (user_conn : user_connection) (s : screen) :
  user_row accepts start_x y user_conn s =
    (Ok (y + 1), s ++ user_row_ops start_x y user_conn).
Proof.
  unfold user_row, bind, addstr, ret. rewrite !write_accepted by auto.
  unfold user_row_ops. now rewrite <- !app_assoc.
Qed.

Lemma draw_user_connections_rows (start_y start_x : Z)
      (l : list user_connection) (s : screen) :
  l <> [] ->
  draw_user_connections accepts start_y start_x (Some l) s =
    (Ok (start_y + 2 + Z.of_nat (length l) + 1),
     s ++ user_heading_ops start_y start_x
       ++ rows_ops (user_row_ops start_x) (start_y + 2) l).
Proof.
  intros Hne. unfold draw_user_connections, bind, addstr, ret.
  rewrite !write_accepted by auto.
  destruct l as [|u l]; [contradiction|]. cbn [falsy default from_option id].
  rewrite (for_rows_ok (fun _ => True) _ (user_row_ops start_x));
    [|intros; apply user_row_ok|now apply Forall_forall].
  unfold user_heading_ops. now rewrite <- !app_assoc.
Qed.

Lemma draw_user_connections_unavailable (start_y start_x : Z)
      (l : option (list user_connection)) (s : screen) :
  falsy l = true ->
  draw_user_connections accepts start_y start_x l s =
    (Ok (start_y + 2 + 1),
     s ++ user_heading_ops start_y start_x
       ++ [AddStr (start_y + 2) start_x [Str "Data unavailable"]
                  (white, A_NORMAL)]).
Proof.
  intros Hl. unfold draw_user_connections, bind, addstr, ret.
  rewrite Hl. rewrite !write_accepted by auto.
  unfold user_heading_ops. now rewrite <- !app_assoc.
Qed.

Lemma draw_stats_table_unavailable (start_y start_x : Z)
      (stats : gmap string value) (s : screen) :
  stats !! "current_connections" = None ->
  draw_stats_table accepts start_y start_x stats s =
    (Ok (start_y + 2 + 2),
     s ++ [AddStr start_y start_x [Str "📊 MariaDB Statistics"] (cyan, A_BOLD);
           AddStr (start_y + 1) start_x [Rep "─" 60] (white, A_NORMAL);
           AddStr (start_y + 2) start_x [Str "MariaDB data not available."]
                  (yellow, A_NORMAL)]).
Proof.
  intros Hl. unfold draw_stats_table. rewrite Hl.
  unfold bind, addstr, ret. rewrite !write_accepted by auto.
  now rewrite <- !app_assoc.
Qed.

Lemma draw_process_table_unavailable (start_y start_x : Z)
      (l : option (list process)) (s : screen) :
  falsy l = true ->
  draw_process_table accepts start_y start_x l s =
    (Ok (start_y + 2 + 1 + 1),
     s ++ process_heading_ops start_y start_x
       ++ [AddStr (start_y + 2 + 1) start_x
                  [Str "No active processes or data unavailable"]
                  (white, A_NORMAL)]).
Proof.
  intros Hl. unfold draw_process_table, bind, addstr, ret.
  rewrite Hl. rewrite !write_accepted by auto.
  unfold process_heading_ops. now rewrite <- !app_assoc.
Qed.

Lemma draw_history_chart_total (self : monitor) (start_y start_x : Z) :
  chart_computable self ->
  exists (y : Z) (ops : list draw_op),
    forall s : screen,
      draw_history_chart accepts self start_y start_x s = (Ok y, s ++ ops).
Proof.
  intros Hc.
  destruct (Nat.ltb_spec (length (connection_history self)) 2) as [Hlt|Hge].
  - exists (start_y + 4),
      (history_heading_ops start_y start_x ++ [loading_op start_y start_x]).
    intros s. unfold draw_history_chart, bind, addstr, ret.
    rewrite !write_accepted by auto.
    destruct (Nat.ltb_spec (length (connection_history self)) 2); [|lia].
    rewrite write_accepted by auto.
    unfold history_heading_ops, loading_op. now rewrite <- !app_assoc.
  - eexists _, _. intros s.
    exact (draw_history_chart_ok accepts accepts_all self start_y start_x s
             Hge Hc).
Qed.

Lemma draw_progress_bar_total (y x width current maximum : Z)
      (label : string) :
  is_ok (bar_percentage current maximum) = true ->
  is_ok (filled_width width current maximum) = true ->
  exists ops : list draw_op,
    (forall s : screen,
        draw_progress_bar accepts y x width current maximum label s =
          (Ok (y + 1 + 3), s ++ ops)) /\
    AddStr y x [Str label; Str ":"] (cyan, A_NORMAL) ∈ ops.
Proof.
  intros Hp Hf.
  destruct (bar_percentage current maximum) as [p|] eqn:Ep; [|discriminate].
  destruct (filled_width width current maximum) as [f|] eqn:Ef;
    [|discriminate].
  destruct (gauge_ops accepts y x width current maximum label p f Ep Ef
              (fun op _ => accepts_all op)) as (ops & E & _ & _ & Hh & _).
  exists ops. split; [exact E|].
  destruct ops as [|op ops]; [discriminate|].
  cbn in Hh. injection Hh as ->. apply list_elem_of_here.
Qed.

End Tables.

(** X9. On a terminal that takes every write the user table shows one row
    for every user of the list, in list order and without a cap of its own,
    and returns the row after the last one plus one; for a missing or empty
    list it shows "Data unavailable" in place of the rows. *)
Theorem user_table_shows_every_user :
  forall (accepts : draw_op -> bool) (start_y start_x : Z) (s : screen),
    (forall op, accepts op = true) ->
    (forall l : list user_connection,
        l <> [] ->
        draw_user_connections accepts start_y start_x (Some l) s =
          (Ok (start_y + 2 + Z.of_nat (length l) + 1),
           s ++ user_heading_ops start_y start_x
             ++ rows_ops (user_row_ops start_x) (start_y + 2) l)) /\
    (forall l : option (list user_connection),
        falsy l = true ->
        draw_user_connections accepts start_y start_x l s =
          (Ok (start_y + 2 + 1),
           s ++ user_heading_ops start_y start_x
             ++ [AddStr (start_y + 2) start_x [Str "Data unavailable"]
                        (white, A_NORMAL)])).
Proof.
  intros accepts start_y start_x s Hacc. split.
  - intros l Hl. now apply draw_user_connections_rows.
  - intros l Hl. now apply draw_user_connections_unavailable.
Qed.

(** X9, on two users. *)
Lemma user_table_shows_every_user_witness :
  fst (draw_user_connections (fun _ => true) 14 2 (Some two_users) []) =
    Ok 19.
Proof.
  exact (f_equal fst
           (proj1 (user_table_shows_every_user (fun _ => true) 14 2 []
                     (fun _ => eq_refl))
              two_users ltac:(discriminate))).
Defined.

Lemma gauge_computable (w c m : Z) :
  0 <= c < 2 ^ 53 -> 0 <= w * c < 2 ^ 53 -> 0 <= m < 2 ^ 53 ->
  is_ok (bar_percentage c m) = true /\ is_ok (filled_width w c m) = true.
Proof.
  intros Hc Hwc Hm. unfold bar_percentage, filled_width, percent.
  destruct (Z.eqb_spec m 0) as [->|Hm0]; [split; reflexivity|].
  destruct (Z.gtb_spec m 0); [|lia].
  destruct (truediv_exact c m Hc ltac:(lia)) as (q & -> & _).
  destruct (truediv_exact (w * c) m Hwc ltac:(lia)) as (q' & -> & Hq').
  cbn [rbind]. rewrite Hq'. split; reflexivity.
Qed.

Lemma db_failed_keeps (self : monitor) (world : poll) :
  db_failed world ->
  connection_history (snd (get_stats self world)) = connection_history self /\
  max_php_fpm_connections (snd (get_stats self world)) =
    max_php_fpm_connections self /\
  is_running (snd (get_stats self world)) = is_running self.
Proof.
  unfold db_failed, get_stats.
  destruct (db world) as [|[v|]|rows]; [| | |contradiction]; auto.
Qed.

Lemma db_failed_snapshot (self : monitor) (world : poll) (n : Z) :
  db_failed world -> php_fpm world = Counted n -> n <> -1 ->
  fst (get_stats self world) =
    Ok (Some (<["php_fpm_connections" := VNum (Int n)]> ∅)).
Proof.
  intros Hdb Hp Hn. unfold db_failed, get_stats in *.
  destruct (db world) as [|stored|rows]; [| |contradiction]; cbn [fst];
    now rewrite (with_php_fpm_counted world n ∅ Hp Hn).
Qed.

Lemma runs_bind {A B} (m : draw A) (k : A -> draw B) (s : screen) (a : A)
      (b : B) (o1 o2 : list draw_op) :
  runs m s a o1 -> runs (k a) (s ++ o1) b o2 -> runs (bind m k) s b (o1 ++ o2).
Proof.
  unfold runs, bind. intros -> ->. now rewrite app_assoc.
Qed.

Lemma runs_ret {A} (a : A) (s : screen) : runs (ret a) s a [].
Proof. unfold runs, ret. now rewrite app_nil_r. Qed.

Lemma runs_lift {A} (a : A) (s : screen) : runs (lift (Ok a)) s a [].
Proof. unfold runs, lift. now rewrite app_nil_r. Qed.

Lemma runs_write (accepts : draw_op -> bool) (op : draw_op) (s : screen) :
  accepts op = true -> runs (write accepts op) s tt [op].
Proof. intros H. unfold runs. now apply write_accepted. Qed.

Lemma runs_clear (s : screen) : runs clear s tt [Clear].
Proof. reflexivity. Qed.

Lemma runs_refresh (s : screen) : runs refresh s tt [Refresh].
Proof. reflexivity. Qed.

Lemma runs_except (m : draw unit) (s : screen) (ops : list draw_op) :
  runs m s tt ops -> runs (except_curses m) s tt ops.
Proof. unfold runs, except_curses. now intros ->. Qed.

Lemma runs_int_item (stats : gmap string value) (key : string) (z : Z)
      (s : screen) :
  stats !! key = Some (VNum (Int z)) -> runs (int_item stats key) s z [].
Proof.
  intros H. unfold runs, int_item, lift, item. rewrite H. cbn.
  now rewrite app_nil_r.
Qed.

Ltac find_op :=
  solve [ assumption
        | repeat first [apply list_elem_of_here | apply list_elem_of_further]
        | left; find_op
        | right; find_op ].

(** X10. When the database fails and the process count is read, the
    dashboard is drawn to the end on a terminal that takes every write: after
    the clear come the header, the PHP-FPM gauge, the three sections of the
    database with their "not available" lines, the history chart and the
    footer, and the refresh comes last. *)
Theorem dashboard_without_database_completes :
  forall (accepts : draw_op -> bool) (self : monitor) (world : poll) (n : Z)
         (h w : Z) (t : time) (s : screen),
    (forall op, accepts op = true) ->
    db_failed world ->
    php_fpm world = Counted n ->
    0 <= n -> 40 * n < 2 ^ 53 ->
    0 <= max_php_fpm_connections self < 2 ^ 53 ->
    chart_computable self ->
    exists (stats : gmap string value) (ops : list draw_op),
      fst (get_stats self world) = Ok (Some stats) /\
      draw_dashboard accepts (snd (get_stats self world)) h w t (Some stats) s =
        (Ok tt, s ++ ops) /\
      head ops = Some Clear /\
      last ops = Some Refresh /\
      AddStr 4 5 [Str "PHP-FPM Connections"; Str ":"] (cyan, A_NORMAL) ∈ ops /\
      AddStr 11 2 [Str "MariaDB data not available."] (yellow, A_NORMAL)
        ∈ ops /\
      AddStr 16 2 [Str "Data unavailable"] (white, A_NORMAL) ∈ ops /\
      AddStr 12 (w / 2 + 2) [Str "No active processes or data unavailable"]
             (white, A_NORMAL) ∈ ops /\
      AddStr (h - 2) ((w - py_len footer) / 2) [Str footer] (white, A_DIM)
        ∈ ops.
Proof.
  intros accepts self world n h w t s Hacc Hdb Hp Hn Hn40 Hmax Hchart.
  set (stats := <["php_fpm_connections" := VNum (Int n)]>
                  (∅ : gmap string value)).
  destruct (db_failed_keeps self world Hdb) as (Hh & Hm & _).
  set (self' := snd (get_stats self world)) in *.
  assert (Hchart' : chart_computable self')
    by (unfold chart_computable in *; now rewrite Hh).
  assert (Hcc : stats !! "current_connections" = None)
    by (unfold stats; now rewrite lookup_insert_ne, lookup_empty by done).
  assert (Htr : stats !! "threads_running" = None)
    by (unfold stats; now rewrite lookup_insert_ne, lookup_empty by done).
  assert (Huc : stats !! "user_connections" = None)
    by (unfold stats; now rewrite lookup_insert_ne, lookup_empty by done).
  assert (Hap : stats !! "active_processes" = None)
    by (unfold stats; now rewrite lookup_insert_ne, lookup_empty by done).
  assert (Hphp : stats !! "php_fpm_connections" = Some (VNum (Int n)))
    by (unfold stats; apply lookup_insert_eq).
  destruct (gauge_computable 40 n (max_php_fpm_connections self')
              ltac:(lia) ltac:(lia) ltac:(lia)) as [Gp Gf].
  destruct (draw_progress_bar_total accepts Hacc 4 5 40 n
              (max_php_fpm_connections self') "PHP-FPM Connections" Gp Gf)
    as (gauge & Eg & Hlabel).
  destruct (draw_history_chart_total accepts Hacc self' 14 (w / 2 + 2) Hchart')
    as (yc & chart & Ec).
  exists stats. eexists.
  split; [apply (db_failed_snapshot self world n Hdb Hp); lia|].
  split.
  - refine (_ : runs (draw_dashboard accepts self' h w t (Some stats)) s tt _).
    unfold draw_dashboard.
    eapply runs_bind; [apply runs_clear|].
    unfold no_stats. rewrite bool_decide_eq_false_2 by apply insert_non_empty.
    cbv zeta. cbn [from_option]. unfold id. fold stats.
    eapply runs_bind; [apply runs_write, Hacc|].
    eapply runs_bind; [apply runs_write, Hacc|].
    eapply runs_bind; [apply runs_write, Hacc|].
    rewrite Hcc. eapply runs_bind; [apply runs_ret|].
    rewrite Htr. eapply runs_bind; [apply runs_ret|].
    unfold has_php_fpm. rewrite Hphp.
    destruct (Z.eqb_spec n (-1)) as [|_]; [lia|]. cbn [negb].
    eapply runs_bind.
    { eapply runs_bind; [apply (runs_int_item _ _ n), Hphp|]. apply Eg. }
    eapply runs_bind.
    { apply (draw_stats_table_unavailable accepts Hacc), Hcc. }
    rewrite Huc. eapply runs_bind; [apply runs_lift|].
    eapply runs_bind.
    { apply (draw_user_connections_unavailable accepts Hacc). reflexivity. }
    rewrite Hap. eapply runs_bind; [apply runs_lift|].
    eapply runs_bind.
    { apply (draw_process_table_unavailable accepts Hacc). reflexivity. }
    eapply runs_bind; [apply Ec|].
    eapply runs_bind; [apply runs_except, runs_write, Hacc|].
    apply runs_refresh.
  - split; [reflexivity|]. split; [rewrite !app_assoc; apply last_snoc|].
    repeat split; rewrite !elem_of_app; find_op.
Qed.

(** X10, on a fresh monitor, no connection and four PHP-FPM processes. *)
Lemma dashboard_without_database_completes_witness :
  exists (stats : gmap string value) (ops : list draw_op),
    fst (get_stats init (sample_world ConnectFailed (Counted 4))) =
      Ok (Some stats) /\
    draw_dashboard (fun _ => true)
      (snd (get_stats init (sample_world ConnectFailed (Counted 4))))
      40 120 3 (Some stats) [] = (Ok tt, [] ++ ops) /\
    last ops = Some Refresh.
Proof.
  destruct (dashboard_without_database_completes (fun _ => true) init
              (sample_world ConnectFailed (Counted 4)) 4 40 120 3 []
              (fun _ => eq_refl) I eq_refl ltac:(lia) ltac:(cbn; lia)
              ltac:(cbn; lia) ltac:(constructor))
    as (stats & ops & H1 & H2 & _ & H4 & _).
  exists stats, ops. auto.
Defined.

(** ** A pass of the loop while the database answers *)

Lemma raises_bind_l {A B} (m : draw A) (k : A -> draw B) (s : screen)
      (e : exn) (o : list draw_op) :
  raises m s e o -> raises (bind m k) s e o.
Proof. unfold raises, bind. now intros ->. Qed.

Lemma raises_bind_r {A B} (m : draw A) (k : A -> draw B) (s : screen)
      (a : A) (e : exn) (o1 o2 : list draw_op) :
  runs m s a o1 -> raises (k a) (s ++ o1) e o2 ->
  raises (bind m k) s e (o1 ++ o2).
Proof. unfold runs, raises, bind. intros -> ->. now rewrite app_assoc. Qed.

Lemma fetched_run (self : monitor) (world : poll) (rows : db_rows)
      (u : number) :
  db world = Fetched rows ->
  usage_percentage (r_threads_connected rows) (r_max_connections rows) = Ok u ->
  exists stats : gmap string value,
    get_stats self world =
      (Ok (Some stats),
       set_connection_history
         (set_max_connections self (r_max_connections rows))
         (deque_append (connection_history self)
            {| timestamp := history_time world;
               connections := r_threads_connected rows;
               usage := u |})) /\
    stats !! "current_connections" =
      Some (VNum (Int (r_threads_connected rows))) /\
    stats !! "max_connections" = Some (VNum (Int (r_max_connections rows))) /\
    stats !! "threads_running" = Some (VNum (Int (r_threads_running rows))).
Proof.
  intros Hdb Hu. unfold get_stats. rewrite Hdb.
  cbn [max_connections set_max_connections]. rewrite Hu.
  destruct (with_php_fpm_some world _
              (db_stats_not_empty
                 (set_max_connections self (r_max_connections rows))
                 world rows u)) as [stats Hs].
  exists stats. rewrite Hs. split; [reflexivity|].
  pose proof (db_stats_lookups _ _ _ _ _ Hs) as L.
  cbn [max_connections set_max_connections] in L.
  destruct L as (L1 & L2 & L3 & _). auto.
Qed.

Lemma usage_computable (c m : Z) :
  0 <= c < 2 ^ 53 -> 0 <= m < 2 ^ 53 ->
  exists u, usage_percentage c m = Ok u.
Proof.
  intros Hc Hm. unfold usage_percentage, percent.
  destruct (Z.gtb_spec m 0); [|eauto].
  destruct (truediv_exact c m Hc ltac:(lia)) as (q & -> & _). cbn. eauto.
Qed.

Lemma dashboard_raises_at_thread_gauge (accepts : draw_op -> bool)
      (self : monitor) (h w : Z) (t : time) (stats : gmap string value)
      (c m r : Z) (s : screen) :
  (forall op, accepts op = true) ->
  stats !! "current_connections" = Some (VNum (Int c)) ->
  stats !! "max_connections" = Some (VNum (Int m)) ->
  stats !! "threads_running" = Some (VNum (Int r)) ->
  0 <= c -> 40 * c < 2 ^ 53 -> 0 <= m < 2 ^ 53 ->
  exists ops : list draw_op,
    draw_dashboard accepts self h w t (Some stats) s =
      (Raise (AttributeError "draw_program_bar"), s ++ ops) /\
    Refresh ∉ ops.
Proof.
  intros Hacc Hc Hm Hr Hc0 Hc40 Hm0.
  destruct (gauge_computable 40 c m ltac:(lia) ltac:(lia) ltac:(lia))
    as [Gp Gf].
  destruct (bar_percentage c m) as [p|] eqn:Ep; [|discriminate].
  destruct (filled_width 40 c m) as [f|] eqn:Ef; [|discriminate].
  destruct (gauge_ops accepts 4 5 40 c m "MariaDB Connections" p f Ep Ef
              (fun op _ => Hacc op)) as (gauge & Eg & _ & _ & _ & Hgauge).
  eexists. split.
  - refine (_ : raises (draw_dashboard accepts self h w t (Some stats)) s _ _).
    unfold draw_dashboard.
    eapply raises_bind_r; [apply runs_clear|].
    unfold no_stats. rewrite bool_decide_eq_false_2
      by (intros E; rewrite E, lookup_empty in Hc; discriminate).
    cbv zeta. cbn [from_option]. unfold id.
    eapply raises_bind_r; [apply runs_write, Hacc|].
    eapply raises_bind_r; [apply runs_write, Hacc|].
    eapply raises_bind_r; [apply runs_write, Hacc|].
    rewrite Hc.
    eapply raises_bind_r.
    { eapply runs_bind; [apply (runs_int_item _ _ c), Hc|].
      eapply runs_bind; [apply (runs_int_item _ _ m), Hm|]. apply Eg. }
    rewrite Hr. apply raises_bind_l.
    unfold raises, draw_program_bar, lift. now rewrite app_nil_r.
  - rewrite !elem_of_app.
    intros [H|[H|[H|[H|[[H|[H|H]]|H]]]]];
      repeat (apply elem_of_cons in H as [H|H]; [discriminate H|]);
      try (now apply elem_of_nil in H).
    exact (Hgauge H).
Qed.

Lemma getch_keeps (st : run_state) :
  self_of (snd (getch st)) = self_of st /\
  stdscr (snd (getch st)) = stdscr st /\
  pending (snd (getch st)) `suffix_of` pending st.
Proof.
  unfold getch. destruct (pending st) as [|k rest] eqn:Hp.
  - cbn. now rewrite Hp.
  - destruct (pressed_at k <=? clock st + 100); cbn.
    + repeat split. apply suffix_cons_r. reflexivity.
    + now rewrite Hp.
Qed.

Lemma handler_shows_error (accepts : draw_op -> bool) (str : exn -> string)
      (e : exn) (w : poll) (st : run_state) :
  (forall op, accepts op = true) ->
  e <> KeyboardInterrupt ->
  handler accepts str e w st =
    (Next,
     {| self_of := self_of st;
        stdscr := stdscr st ++
                  error_screen_ops (height w) (width w) ("Error: " +:+ str e);
        clock := clock st + 2000;
        pending := pending st |}).
Proof.
  intros Hacc He. unfold handler, bind, clear, addstr, write, refresh.
  rewrite Hacc. unfold error_screen_ops.
  destruct e; try contradiction; cbn; rewrite <- !app_assoc; reflexivity.
Qed.

Lemma fetched_pass (accepts : draw_op -> bool) (str : exn -> string)
      (world : nat -> poll) (n : nat) (st : run_state) (rows : db_rows) :
  (forall op, accepts op = true) ->
  db (world n) = Fetched rows ->
  is_quit (fst (getch st)) = false ->
  0 <= r_threads_connected rows -> 40 * r_threads_connected rows < 2 ^ 53 ->
  0 <= r_max_connections rows < 2 ^ 53 ->
  exists ops : list draw_op,
    iteration accepts str world n st =
      (Next,
       {| self_of := snd (get_stats (self_of st) (world n));
          stdscr := stdscr st ++ ops ++
                    error_screen_ops (height (world n)) (width (world n))
                      ("Error: " +:+ str (AttributeError "draw_program_bar"));
          clock := clock (snd (getch st)) + sample_ms (world n) + 2000;
          pending := pending (snd (getch st)) |}) /\
    Refresh ∉ ops.
Proof.
  intros Hacc Hdb Hq Hc Hc40 Hm.
  destruct (usage_computable (r_threads_connected rows)
              (r_max_connections rows) ltac:(lia) Hm) as [u Hu].
  destruct (getch_keeps st) as (Hself & Hscr & _).
  unfold iteration. destruct (getch st) as [k st1]. cbn [fst snd] in *.
  rewrite Hq.
  destruct (fetched_run (self_of st1) (world n) rows u Hdb Hu)
    as (stats & Egs & L1 & L2 & L3).
  rewrite <- Hself. rewrite Egs. cbn [snd].
  set (self' := set_connection_history _ _).
  destruct (dashboard_raises_at_thread_gauge accepts self'
              (height (world n)) (width (world n)) (now (world n)) stats
              _ _ _ (stdscr st1) Hacc L1 L2 L3 Hc Hc40 Hm)
    as (ops & Ed & Hops).
  exists ops. split; [|exact Hops].
  cbn [stdscr sleep set_self]. rewrite Ed.
  rewrite handler_shows_error by (exact Hacc || discriminate).
  cbn [self_of stdscr clock pending sleep set_self set_stdscr].
  now rewrite Hscr, <- app_assoc.
Qed.

(** X11. A pass of the loop in which the database answers never shows the
    dashboard: on a terminal that takes every write, and unless the key read
    at the start of the pass is [q] or [Q], the dashboard's writes stop at
    the call of the missing method before any refresh, the error screen is
    cleared, written and refreshed, the pass sleeps two seconds and goes on
    to the next pass without the wait; the history has its entry all the
    same. *)
Theorem answered_pass_shows_error_screen :
  forall (accepts : draw_op -> bool) (str : exn -> string)
         (world : nat -> poll) (n : nat) (st : run_state) (rows : db_rows),
    (forall op, accepts op = true) ->
    db (world n) = Fetched rows ->
    is_quit (fst (getch st)) = false ->
    counts_in_range rows ->
    exists (ops : list draw_op) (entry : history_entry),
      iteration accepts str world n st =
        (Next,
         {| self_of := snd (get_stats (self_of st) (world n));
            stdscr := stdscr st ++ ops ++ missing_method_screen str (world n);
            clock := clock (snd (getch st)) + sample_ms (world n) + 2000;
            pending := pending (snd (getch st)) |}) /\
      (Refresh ∉ ops) /\
      connections entry = r_threads_connected rows /\
      connection_history (snd (get_stats (self_of st) (world n))) =
        deque_append (connection_history (self_of st)) entry.
Proof.
  intros accepts str world n st rows Hacc Hdb Hq (Hc & Hc40 & Hm).
  destruct (fetched_pass accepts str world n st rows Hacc Hdb Hq Hc Hc40 Hm)
    as (ops & Ei & Hops).
  destruct (usage_computable (r_threads_connected rows)
              (r_max_connections rows) ltac:(lia) Hm) as [u Hu].
  destruct (fetched_run (self_of st) (world n) rows u Hdb Hu)
    as (stats & Egs & _).
  exists ops. eexists. split; [exact Ei|]. split; [exact Hops|].
  rewrite Egs. cbn [snd connection_history set_connection_history].
  split; [|reflexivity]. reflexivity.
Qed.

(** X11, on a run with no key typed and 75 of 150 connections in use. *)
Lemma answered_pass_shows_error_screen_witness :
  exists (ops : list draw_op) (entry : history_entry),
    iteration (fun _ => true) (fun _ => "error") answering 0 idle_run =
      (Next,
       {| self_of := snd (get_stats (self_of idle_run) (answering 0));
          stdscr := stdscr idle_run ++ ops ++
                    missing_method_screen (fun _ => "error") (answering 0);
          clock := clock (snd (getch idle_run)) + sample_ms (answering 0)
                   + 2000;
          pending := pending (snd (getch idle_run)) |}) /\
    (Refresh ∉ ops) /\
    connections entry = r_threads_connected sample_rows /\
    connection_history (snd (get_stats (self_of idle_run) (answering 0))) =
      deque_append (connection_history (self_of idle_run)) entry.
Proof.
  apply (answered_pass_shows_error_screen (fun _ => true) (fun _ => "error")
           answering 0 idle_run sample_rows (fun _ => eq_refl) eq_refl
           eq_refl).
  unfold counts_in_range. cbn. lia.
Defined.

Lemma answered_loop_goes_on (accepts : draw_op -> bool) (str : exn -> string)
      (world : nat -> poll) :
  (forall op, accepts op = true) ->
  (forall n, exists rows, db (world n) = Fetched rows /\ counts_in_range rows) ->
  forall (fuel n : nat) (st : run_state),
    is_running (self_of st) = true ->
    Forall (fun k => is_quit (key k) = false) (pending st) ->
    run_loop accepts str world fuel n st = None.
Proof.
  intros Hacc Hw fuel. induction fuel as [|fuel IH]; intros n st Hrun Hkeys;
    cbn [run_loop]; rewrite Hrun; [reflexivity|].
  destruct (Hw n) as (rows & Hdb & Hc & Hc40 & Hm).
  destruct (getch_not_quit st Hkeys) as (Hq & _ & _ & _ & _ & _ & Hrest).
  destruct (fetched_pass accepts str world n st rows Hacc Hdb Hq Hc Hc40 Hm)
    as (ops & -> & _).
  apply IH; cbn [self_of pending]; [|exact Hrest].
  destruct (usage_computable (r_threads_connected rows)
              (r_max_connections rows) ltac:(lia) Hm) as [u Hu].
  destruct (fetched_run (self_of st) (world n) rows u Hdb Hu)
    as (stats & -> & _).
  exact Hrun.
Qed.

(** X12. Once curses is set up, while the database answers every pass and
    the terminal takes every write, only a quit key ends the monitor: if
    none of the keys typed is [q] or [Q], [run_curses] and [run] have not
    returned after any number of passes. *)
Theorem monitor_runs_until_quit :
  forall (accepts : draw_op -> bool) (str : exn -> string)
         (world : nat -> poll)
         (wrapper_enter init_colors curs_set wrapper_leave : result unit)
         (keys : list keypress),
    is_ok wrapper_enter = true -> is_ok init_colors = true ->
    is_ok curs_set = true ->
    (forall op, accepts op = true) ->
    (forall n, exists rows,
        db (world n) = Fetched rows /\ counts_in_range rows) ->
    Forall (fun k => is_quit (key k) = false) keys ->
    forall fuel : nat,
      run_curses accepts str world init_colors curs_set fuel keys = None /\
      run accepts str world wrapper_enter init_colors curs_set wrapper_leave
          fuel keys = None.
Proof.
  intros accepts str world wrapper_enter init_colors curs_set wrapper_leave
         keys H1 H2 H3 Hacc Hw Hkeys fuel.
  assert (E : run_curses accepts str world init_colors curs_set fuel keys =
              None).
  { unfold run_curses.
    destruct init_colors as [[]|e2]; [|discriminate].
    destruct curs_set as [[]|e3]; [|discriminate].
    now apply answered_loop_goes_on. }
  split; [exact E|]. unfold run, wrapper. rewrite E.
  destruct wrapper_enter as [[]|e1]; [reflexivity|discriminate].
Qed.

(** X12, with the key [a] typed after one second, for 100 passes. *)
Lemma monitor_runs_until_quit_witness :
  run (fun _ => true) (fun _ => "error") answering
      (Ok tt) (Ok tt) (Ok tt) (Ok tt) 100
      [{| pressed_at := 1000; key := 97 |}] = None.
Proof.
  refine (proj2 (monitor_runs_until_quit (fun _ => true) (fun _ => "error")
                   answering (Ok tt) (Ok tt) (Ok tt) (Ok tt)
                   [{| pressed_at := 1000; key := 97 |}]
                   eq_refl eq_refl eq_refl (fun _ => eq_refl) _ _ 100)).
  - intros n. exists sample_rows. split; [reflexivity|].
    unfold counts_in_range. cbn. lia.
  - repeat constructor.
Defined.
